(** * AttriOS: design synthesis and code-writing actions

    A shallow embedding of [metagpt/actions/design_api.py] ([WriteDesign])
    and [metagpt/actions/write_code.py] ([WriteCode]) together with the
    properties of the incremental regeneration pipeline.

    Python strings are modelled as byte strings (UTF-8), [Document] stores
    as finite maps from file names to documents, the file system as a finite
    map from [pathlib] paths to nodes, and the [async] methods as computations
    in a state-and-exception monad over one [World].  Logging calls
    ([logger.info], [logger.warning], [logger.error]) change none of the
    modelled values and are left out. *)

From Stdlib Require Import Ascii String ZArith.
From stdpp Require Import base option list gmap strings fin_maps fin_sets.

Local Open Scope stdpp_scope.
Set Warnings "-register-all".

(* ===================================================================== *)
(** ** Python values: exceptions and results *)

(** The exception classes the two actions can meet. *)
Inductive pyerr : Type :=
  | AttributeError        (* attribute access on [None] or on a coroutine *)
  | TypeError
  | ValueError
  | KeyError
  | JSONDecodeError
  | FileExistsError
  | FileNotFoundError
  | NotADirectoryError
  | IOError               (* any other failure of a write *)
  | BackendError          (* the generation backend failed *)
  | RetryError.           (* tenacity: attempts exhausted *)

Inductive result (A : Type) : Type :=
  | Ok (a : A)
  | Raise (e : pyerr).
Arguments Ok {A} a.
Arguments Raise {A} e.

Definition is_ok {A} (r : result A) : bool :=
  match r with Ok _ => true | Raise _ => false end.

(** Exceptions in pure code. *)
Definition rbind {A B} (r : result A) (k : A -> result B) : result B :=
  match r with
  | Ok a => k a
  | Raise e => Raise e
  end.

(* ===================================================================== *)
(** ** Strings *)

Definition nl : string := String (ascii_of_nat 10) EmptyString.
Definition dq : string := String (ascii_of_nat 34) EmptyString.
Definition bs : string := String (ascii_of_nat 92) EmptyString.

(** [q s] is [s] between double quotes. *)
Definition q (s : string) : string := dq +:+ s +:+ dq.

(** [sep.join(l)] *)
Fixpoint join (sep : string) (l : list string) : string :=
  match l with
  | [] => EmptyString
  | [x] => x
  | x :: rest => x +:+ sep +:+ join sep rest
  end.

Definition str_eqb (a b : string) : bool := bool_decide (a = b).

(** Python truth value of a [str]. *)
Definition str_truthy (s : string) : bool :=
  match s with EmptyString => false | String _ _ => true end.

(** [s.split(c)] for a one-character separator. *)
Fixpoint split_on (c : ascii) (s : string) : list string :=
  match s with
  | EmptyString => [EmptyString]
  | String a rest =>
      if bool_decide (a = c) then EmptyString :: split_on c rest
      else match split_on c rest with
           | [] => [String a EmptyString]
           | w :: ws => String a w :: ws
           end
  end.

(** [s.startswith(p)] *)
Fixpoint starts_with (p s : string) : bool :=
  match p, s with
  | EmptyString, _ => true
  | String a p', String b s' => bool_decide (a = b) && starts_with p' s'
  | String _ _, EmptyString => false
  end.

(** [p in s] on strings. *)
Fixpoint contains (p s : string) : bool :=
  starts_with p s ||
  match s with
  | EmptyString => false
  | String _ s' => contains p s'
  end.

(** [s.rfind(c)], as [None] for [-1]. *)
Fixpoint rfind (c : ascii) (s : string) : option nat :=
  match s with
  | EmptyString => None
  | String a rest =>
      match rfind c rest with
      | Some i => Some (S i)
      | None => if bool_decide (a = c) then Some 0 else None
      end
  end.

Fixpoint take_str (n : nat) (s : string) : string :=
  match n, s with
  | 0, _ => EmptyString
  | S n', String a rest => String a (take_str n' rest)
  | S _, EmptyString => EmptyString
  end.

(* ===================================================================== *)
(** ** [pathlib]: pure POSIX paths

    A path is the tuple of its [parts]; an absolute path starts with the
    root part ["/"] (or ["//"]). *)

Abbreviation path := (list string).

Definition slash : ascii := ascii_of_nat 47.
Definition dot_str : string := String (ascii_of_nat 46) EmptyString.
Definition slash_str : string := String slash EmptyString.

(** [PurePosixPath] root of a path string: exactly two leading slashes are
    kept, any other number of leading slashes is one root. *)
Definition path_root (s : string) : string :=
  if starts_with (slash_str +:+ slash_str +:+ slash_str) s then slash_str
  else if starts_with (slash_str +:+ slash_str) s then slash_str +:+ slash_str
  else if starts_with slash_str s then slash_str
  else EmptyString.

(** [Path(s).parts]: empty components and ["."] components are dropped. *)
Definition Path (s : string) : path :=
  let comps :=
    filter (fun c => c <> EmptyString /\ c <> dot_str) (split_on slash s) in
  if str_truthy (path_root s) then path_root s :: comps else comps.

Definition is_root_part (s : string) : bool := starts_with slash_str s.

Definition is_absolute (p : path) : bool :=
  match p with
  | r :: _ => is_root_part r
  | [] => false
  end.

(** [p / other] for two paths: an absolute right operand replaces [p]. *)
Definition path_join (p other : path) : path :=
  if is_absolute other then other else p ++ other.

(** [p / s] for a string right operand. *)
Definition path_div (p : path) (s : string) : path := path_join p (Path s).

(** [str(p)] *)
Definition path_str (p : path) : string :=
  match p with
  | [] => dot_str
  | r :: rest =>
      if is_root_part r then r +:+ join slash_str rest
      else join slash_str (r :: rest)
  end.

(** [p.parent]: the root and the empty path are their own parents. *)
Definition path_parent (p : path) : path :=
  match p with
  | [] => []
  | [r] => if is_root_part r then [r] else []
  | _ => removelast p
  end.

(** [p.name]: the last part, unless it is the root. *)
Definition path_name (p : path) : string :=
  match last p with
  | Some n => if is_root_part n then EmptyString else n
  | None => EmptyString
  end.

(** [p.suffix]: from the last dot of the name, when that dot is neither the
    first nor the last character. *)
Definition name_suffix_start (name : string) : option nat :=
  match rfind (ascii_of_nat 46) name with
  | Some i =>
      if bool_decide (0 < i) && bool_decide (i < String.length name - 1)
      then Some i else None
  | None => None
  end.

(** [p.with_suffix("")]: raises [ValueError] on an empty name. *)
Definition with_suffix_empty (p : path) : result path :=
  let name := path_name p in
  if str_truthy name then
    let name' :=
      match name_suffix_start name with
      | Some i => take_str i name
      | None => name
      end in
    Ok (removelast p ++ [name'])
  else Raise ValueError.

(** [os.path.join(a, b)] for two components. *)
Definition os_path_join (a b : string) : string :=
  if starts_with slash_str b then b
  else if str_truthy a then
    (if bool_decide (last (list_ascii_of_string a) = Some slash)
     then a +:+ b else a +:+ slash_str +:+ b)
  else b.


(* ===================================================================== *)
(** ** JSON values ([json.loads]) and their Python behaviour *)

Inductive json : Type :=
  | JNull
  | JBool (b : bool)
  | JInt (n : Z)
  | JFloat (mantissa exponent : Z)   (* mantissa * 10 ^ exponent *)
  | JStr (s : string)
  | JArr (items : list json)
  | JObj (members : list (string * json)).

(** Truth value of a decoded JSON value ([not v], [a or b]). *)
Definition json_truthy (v : json) : bool :=
  match v with
  | JNull => false
  | JBool b => b
  | JInt n => negb (Z.eqb n 0)
  | JFloat m _ => negb (Z.eqb m 0)
  | JStr s => str_truthy s
  | JArr l => match l with [] => false | _ => true end
  | JObj kvs => match kvs with [] => false | _ => true end
  end.

(** Ordered dictionaries as association lists with unique keys. *)
Fixpoint dict_lookup {V} (k : string) (d : list (string * V)) : option V :=
  match d with
  | [] => None
  | (k', v) :: rest => if bool_decide (k' = k) then Some v else dict_lookup k rest
  end.

(** [d[k] = v]: an existing key keeps its position. *)
Fixpoint dict_set {V} (k : string) (v : V) (d : list (string * V)) : list (string * V) :=
  match d with
  | [] => [(k, v)]
  | (k', v') :: rest =>
      if bool_decide (k' = k) then (k, v) :: rest else (k', v') :: dict_set k v rest
  end.

(** [m.get(key, default)]; only a [dict] has the method. *)
Definition py_get (m : json) (key : string) (default : json) : result json :=
  match m with
  | JObj kvs =>
      Ok (match dict_lookup key kvs with Some v => v | None => default end)
  | _ => Raise AttributeError
  end.

(** [a or b] *)
Definition py_or (a b : json) : json := if json_truthy a then a else b.

(** [for x in v]: the items of a list, the characters of a string (its bytes
    here), the keys of a dict; anything else is not iterable. *)
Definition py_iter (v : json) : result (list json) :=
  match v with
  | JArr l => Ok l
  | JStr s => Ok (map (fun c => JStr (String c EmptyString)) (list_ascii_of_string s))
  | JObj kvs => Ok (map (fun kv => JStr (fst kv)) kvs)
  | _ => Raise TypeError
  end.

(** [v == s] for a [str] [s]. *)
Definition json_eq_str (v : json) (s : string) : bool :=
  match v with
  | JStr t => bool_decide (t = s)
  | _ => false
  end.

(* ===================================================================== *)
(** ** Documents, coding contexts and document stores *)

(** [metagpt.schema.Document] *)
Record Document : Type := mkDocument {
  root_path : string;
  filename : string;
  content : string;
}.

Definition with_content (d : Document) (c : string) : Document :=
  {| root_path := root_path d; filename := filename d; content := c |}.

(** [metagpt.schema.CodingContext] *)
Record CodingContext : Type := mkCodingContext {
  cc_filename : string;
  design_doc : option Document;
  task_doc : option Document;
  code_doc : option Document;
  code_plan_and_change_doc : option Document;
}.

Definition with_code_doc (cc : CodingContext) (d : Document) : CodingContext :=
  {| cc_filename := cc_filename cc; design_doc := design_doc cc;
     task_doc := task_doc cc; code_doc := Some d;
     code_plan_and_change_doc := code_plan_and_change_doc cc |}.

(** [metagpt.schema.RunCodeResult] *)
Record RunCodeResult : Type := mkRunCodeResult {
  rc_stdout : string;
  rc_stderr : string;
}.

(** Modelled from the spec: the document store contract
    ([get(filename) -> Document | absent],
    [save(filename, content, dependencies) -> Document], [all_files]; a
    document's identity is its file name within its store); the class behind
    [repo.docs], [repo.srcs] and the other stores is not among the sources.
    A store keeps the content and the dependency edges of its documents by
    file name. *)
Record Store : Type := mkStore {
  store_workdir : path;                       (* [workdir] *)
  store_root : string;                        (* [root_path] of its documents *)
  store_files : gmap string string;           (* content by file name *)
  store_deps : gmap string (list string);
}.

Definition store_get (s : Store) (name : string) : option Document :=
  (fun body => {| root_path := store_root s; filename := name; content := body |})
    <$> store_files s !! name.

Definition all_files (s : Store) : list string :=
  (map_to_list (store_files s)).*1.

Definition store_put (s : Store) (name body : string) (deps : list string)
  : Document * Store :=
  let d := {| root_path := store_root s; filename := name; content := body |} in
  (d, {| store_workdir := store_workdir s; store_root := store_root s;
         store_files := <[name := body]> (store_files s);
         store_deps := <[name := deps]> (store_deps s) |}).

(** [ProjectRepo]: the stores the two actions reach through [self.repo]. *)
Record ProjectRepo : Type := mkProjectRepo {
  workdir : path;              (* [repo.workdir] *)
  docs : Store;                (* [repo.docs] *)
  prd : Store;                 (* [repo.docs.prd] *)
  system_design : Store;       (* [repo.docs.system_design] *)
  task : Store;                (* [repo.docs.task] *)
  code_summary : Store;        (* [repo.docs.code_summary] *)
  test_outputs : Store;        (* [repo.test_outputs] *)
  srcs : Store;                (* [repo.srcs] *)
  old_workspace : Store;       (* the store at [repo.old_workspace] *)
  resources_system_design : Store;  (* [repo.resources.system_design] *)
}.

Definition set_system_design (r : ProjectRepo) (s : Store) : ProjectRepo :=
  {| workdir := workdir r; docs := docs r; prd := prd r; system_design := s;
     task := task r; code_summary := code_summary r;
     test_outputs := test_outputs r; srcs := srcs r;
     old_workspace := old_workspace r;
     resources_system_design := resources_system_design r |}.

Definition set_srcs (r : ProjectRepo) (s : Store) : ProjectRepo :=
  {| workdir := workdir r; docs := docs r; prd := prd r;
     system_design := system_design r; task := task r;
     code_summary := code_summary r; test_outputs := test_outputs r;
     srcs := s; old_workspace := old_workspace r;
     resources_system_design := resources_system_design r |}.

Definition set_resources_system_design (r : ProjectRepo) (s : Store)
  : ProjectRepo :=
  {| workdir := workdir r; docs := docs r; prd := prd r;
     system_design := system_design r; task := task r;
     code_summary := code_summary r; test_outputs := test_outputs r;
     srcs := srcs r; old_workspace := old_workspace r;
     resources_system_design := s |}.

(* ===================================================================== *)
(** ** The file system *)

Inductive node : Type :=
  | File (body : string)
  | Dir.

Abbreviation FS := (gmap path node).

(** The current directory (empty path) and the root always exist. *)
Definition node_at (fs : FS) (p : path) : option node :=
  match p with
  | [] => Some Dir
  | [r] => if is_root_part r then Some Dir else fs !! p
  | _ => fs !! p
  end.

(** [p.exists()] and [p.is_dir()] *)
Definition fs_exists (fs : FS) (p : path) : bool :=
  match node_at fs p with Some _ => true | None => false end.

Definition fs_is_dir (fs : FS) (p : path) : bool :=
  match node_at fs p with Some Dir => true | _ => false end.

(** [os.mkdir(p)] *)
Definition os_mkdir (p : path) (fs : FS) : result FS :=
  match node_at fs p with
  | Some _ => Raise FileExistsError
  | None =>
      match node_at fs (path_parent p) with
      | None => Raise FileNotFoundError
      | Some (File _) => Raise NotADirectoryError
      | Some Dir => Ok (<[p := Dir]> fs)
      end
  end.

(** [p.mkdir(parents=False, exist_ok=True)] *)
Definition mkdir_exist_ok (p : path) (fs : FS) : result FS :=
  match os_mkdir p fs with
  | Ok fs' => Ok fs'
  | Raise FileNotFoundError => Raise FileNotFoundError
  | Raise e => if fs_is_dir fs p then Ok fs else Raise e
  end.

(** [p.mkdir(parents=True, exist_ok=True)], by recursion on the number of
    parents that may have to be made: a missing parent is made first, any
    other failure is forgiven when [p] is a directory already. *)
Fixpoint mkdir_rec (depth : nat) (p : path) (fs : FS) : result FS :=
  match os_mkdir p fs with
  | Ok fs' => Ok fs'
  | Raise FileNotFoundError =>
      match depth with
      | 0 => Raise FileNotFoundError
      | S depth' =>
          if bool_decide (path_parent p = p) then Raise FileNotFoundError
          else rbind (mkdir_rec depth' (path_parent p) fs) (mkdir_exist_ok p)
      end
  | Raise e => if fs_is_dir fs p then Ok fs else Raise e
  end.

Definition mkdir_parents (p : path) (fs : FS) : result FS :=
  mkdir_rec (length p) p fs.

(** [open(p, 'w').write(body)]: the parent must be a directory and [p] must
    not be one; an existing file is truncated. *)
Definition fs_write (p : path) (body : string) (fs : FS) : result FS :=
  match node_at fs p with
  | Some Dir => Raise IOError
  | _ =>
      match node_at fs (path_parent p) with
      | Some Dir => Ok (<[p := File body]> fs)
      | Some (File _) => Raise NotADirectoryError
      | None => Raise FileNotFoundError
      end
  end.

(* ===================================================================== *)
(** ** The world of one action run *)

(** A call of the generation backend: free-form [ask(prompt)] or the
    structured [fill(context)] of one of the two design nodes. *)
Inductive design_node : Type := DESIGN_API_NODE | REFINED_DESIGN_NODE.

Inductive request : Type :=
  | Ask (prompt : string)
  | Fill (nd : design_node) (context : string).

Inductive store_id : Type := SystemDesignStore | SrcsStore.

(** What the run does to its collaborators, in the order it does it. *)
Inductive event : Type :=
  | EvBackend (rq : request)                      (* a backend call *)
  | EvGetCodes (use_inc : bool)                   (* a call of [get_codes] *)
  | EvMkdir (p : path)                            (* [mkdir(parents, exist_ok)] *)
  | EvStoreSave (st : store_id) (name : string)   (* [store.save] *)
  | EvDirectWrite (p : path)                      (* [open(p, 'w')] *)
  | EvMermaid (data : json) (p : path)            (* [mermaid_to_file] *)
  | EvSavePdf (d : Document).                     (* [save_pdf] *)

Record World : Type := mkWorld {
  repo : ProjectRepo;
  changed_prds : list string;            (* keys of [prd.changed_files] *)
  changed_system_designs : list string;  (* keys of [system_design.changed_files] *)
  fs : FS;
  config_inc : bool;                     (* [self.config.inc] *)
  src_workspace : option path;           (* [self.context.src_workspace] *)
  backend : nat -> request -> result string;
                                         (* outcome of the n-th backend call:
                                            raw text of [ask], serialized
                                            [instruct_content] of [fill] *)
  backend_calls : nat;
  faults : list bool;                    (* whether the next writes fail *)
  trace : list event;
}.

Definition set_repo (w : World) (r : ProjectRepo) : World :=
  {| repo := r; changed_prds := changed_prds w;
     changed_system_designs := changed_system_designs w; fs := fs w;
     config_inc := config_inc w; src_workspace := src_workspace w;
     backend := backend w; backend_calls := backend_calls w;
     faults := faults w; trace := trace w |}.

Definition set_fs (w : World) (f : FS) : World :=
  {| repo := repo w; changed_prds := changed_prds w;
     changed_system_designs := changed_system_designs w; fs := f;
     config_inc := config_inc w; src_workspace := src_workspace w;
     backend := backend w; backend_calls := backend_calls w;
     faults := faults w; trace := trace w |}.

Definition set_backend_calls (w : World) (n : nat) : World :=
  {| repo := repo w; changed_prds := changed_prds w;
     changed_system_designs := changed_system_designs w; fs := fs w;
     config_inc := config_inc w; src_workspace := src_workspace w;
     backend := backend w; backend_calls := n;
     faults := faults w; trace := trace w |}.

Definition set_faults (w : World) (l : list bool) : World :=
  {| repo := repo w; changed_prds := changed_prds w;
     changed_system_designs := changed_system_designs w; fs := fs w;
     config_inc := config_inc w; src_workspace := src_workspace w;
     backend := backend w; backend_calls := backend_calls w;
     faults := l; trace := trace w |}.

Definition set_trace (w : World) (t : list event) : World :=
  {| repo := repo w; changed_prds := changed_prds w;
     changed_system_designs := changed_system_designs w; fs := fs w;
     config_inc := config_inc w; src_workspace := src_workspace w;
     backend := backend w; backend_calls := backend_calls w;
     faults := faults w; trace := t |}.

(** *** The monad: state, and exceptions that keep the state reached *)

Definition M (A : Type) : Type := World -> result A * World.

Definition ret {A} (a : A) : M A := fun w => (Ok a, w).

Definition raise {A} (e : pyerr) : M A := fun w => (Raise e, w).

Definition bind {A B} (m : M A) (k : A -> M B) : M B :=
  fun w =>
    match m w with
    | (Ok a, w') => k a w'
    | (Raise e, w') => (Raise e, w')
    end.

(** [try: m  except Exception: h] *)
Definition try_except {A} (m : M A) (h : pyerr -> M A) : M A :=
  fun w =>
    match m w with
    | (Ok a, w') => (Ok a, w')
    | (Raise e, w') => h e w'
    end.

Definition lift {A} (r : result A) : M A := fun w => (r, w).

Definition gets {A} (f : World -> A) : M A := fun w => (Ok (f w), w).

Definition modify (f : World -> World) : M unit := fun w => (Ok tt, f w).

Definition emit (e : event) : M unit :=
  modify (fun w => set_trace w (trace w ++ [e])).

Notation "x <- c ;; k" := (bind c (fun x => k))
  (at level 100, c at next level, k at level 200, right associativity).
Notation "c ;;; k" := (bind c (fun _ => k))
  (at level 100, k at level 200, right associativity).
Notation "x <~ r ;; k" := (rbind r (fun x => k))
  (at level 100, r at next level, k at level 200, right associativity).

(** A loop that carries an accumulator. *)
Fixpoint fold_m {A S} (l : list A) (acc : S) (body : S -> A -> M S) : M S :=
  match l with
  | [] => ret acc
  | x :: rest => acc' <- body acc x ;; fold_m rest acc' body
  end.

(** [for x in l: body x] *)
Fixpoint for_each {A} (l : list A) (body : A -> M unit) : M unit :=
  match l with
  | [] => ret tt
  | x :: rest => body x ;;; for_each rest body
  end.

(** [None.attr] raises [AttributeError]. *)
Definition attr {A B} (o : option A) (f : A -> B) : result B :=
  match o with
  | Some a => Ok (f a)
  | None => Raise AttributeError
  end.

(** One call of the generation backend. *)
Definition call_backend (rq : request) : M string :=
  fun w =>
    let w' := set_trace (set_backend_calls w (S (backend_calls w)))
                        (trace w ++ [EvBackend rq]) in
    (backend w (backend_calls w) rq, w').

(** The next scheduled write fault, consumed. *)
Definition next_fault : M bool :=
  fun w =>
    match faults w with
    | [] => (Ok false, w)
    | b :: rest => (Ok b, set_faults w rest)
    end.

(** [p.mkdir(parents=True, exist_ok=True)] in the world. *)
Definition mkdir (p : path) : M unit :=
  emit (EvMkdir p) ;;;
  fun w =>
    match mkdir_parents p (fs w) with
    | Ok f => (Ok tt, set_fs w f)
    | Raise e => (Raise e, w)
    end.

(* ===================================================================== *)
(** ** What the sources import from modules that are not among them *)

Class Externals : Type := {
  (** [project_management_an]: [TASK_LIST.key], [REFINED_TASK_LIST.key] *)
  TASK_LIST_key : string;
  REFINED_TASK_LIST_key : string;
  (** [design_api_an]: the keys of the structured design fields *)
  DATA_STRUCTURES_AND_INTERFACES_key : string;
  REFINED_DATA_STRUCTURES_AND_INTERFACES_key : string;
  PROGRAM_CALL_FLOW_key : string;
  REFINED_PROGRAM_CALL_FLOW_key : string;
  (** [metagpt.const] *)
  DATA_API_DESIGN_FILE_REPO : string;
  SEQ_FLOW_FILE_REPO : string;
  BUGFIX_FILENAME : string;
  REQUIREMENT_FILENAME : string;
  (** [write_code_plan_and_change_an.REFINED_TEMPLATE] *)
  REFINED_TEMPLATE : string;
  (** [json.loads]; [None] stands for [JSONDecodeError] *)
  json_loads : string -> option json;
  (** [CodeParser.parse_code(block="", text=...)] *)
  parse_code : string -> string;
  (** [CodingContext.loads], [RunCodeResult.loads]: [None] for a text that
      cannot be decoded (the class methods catch the failure) *)
  CodingContext_loads : string -> option CodingContext;
  RunCodeResult_loads : string -> option RunCodeResult;
  (** [FileRepository.save_pdf(doc)] on a store: the store after the
      export, or the failure of the export *)
  save_pdf : Store -> Document -> result Store;
  (** [Document.root_relative_path] and [str(document)] *)
  root_relative_path : Document -> string;
  doc_str : option Document -> string;
  (** [list(s)] of a Python [set]: some order of its elements *)
  list_of_set : gset string -> list string;
  list_of_set_perm : forall X, list_of_set X ≡ₚ elements X;
}.

(* ===================================================================== *)
(** ** [str.format] with keyword arguments

    The replacement fields of the templates are plain names.  Doubled
    braces are literal braces; a conversion or a format specification in a
    field is outside this model and is reported as [ValueError]. *)

Inductive fmt_mode : Type :=
  | Text
  | Field (name : string).

Definition plain_name_char (c : ascii) : bool :=
  negb (bool_decide (c = "!"%char) || bool_decide (c = ":"%char)
        || bool_decide (c = "."%char) || bool_decide (c = "["%char)).

Fixpoint format_from (kw : list (string * string)) (mode : fmt_mode)
    (s : string) : result string :=
  match mode, s with
  | Text, EmptyString => Ok EmptyString
  | Text, String "{" (String "{" rest) =>
      rbind (format_from kw Text rest) (fun out => Ok (String "{" out))
  | Text, String "{" rest => format_from kw (Field EmptyString) rest
  | Text, String "}" (String "}" rest) =>
      rbind (format_from kw Text rest) (fun out => Ok (String "}" out))
  | Text, String "}" _ => Raise ValueError
  | Text, String c rest =>
      rbind (format_from kw Text rest) (fun out => Ok (String c out))
  | Field _, EmptyString => Raise ValueError
  | Field name, String "}" rest =>
      match dict_lookup name kw with
      | Some v => rbind (format_from kw Text rest) (fun out => Ok (v +:+ out))
      | None => Raise KeyError
      end
  | Field _, String "{" _ => Raise ValueError
  | Field name, String c rest =>
      if plain_name_char c
      then format_from kw (Field (name +:+ String c EmptyString)) rest
      else Raise ValueError
  end.

(** [template.format] with keyword arguments [kw]; those the template does
    not name are ignored. *)
Definition py_format (template : string) (kw : list (string * string))
  : result string :=
  format_from kw Text template.

(* ===================================================================== *)
(** ** Constants of the two modules *)

(** [design_api.REACT_NODE_TEMPLATE] *)
Definition REACT_NODE_TEMPLATE : string :=
"
# React Frontend and Node.js Backend Application Architecture

## Project Structure
```
project_root/
├── frontend/
│   ├── public/
│   │   ├── index.html
│   │   └── favicon.ico
│   ├── src/
│   │   ├── components/
│   │   │   ├── ComponentA.js
│   │   │   └── ComponentB.js
│   │   ├── App.js
│   │   └── index.js
│   └── package.json
├── backend/
│   ├── controllers/
│   │   └── mainController.js
│   ├── routes/
│   │   └── api.js
│   ├── models/
│   │   └── dataModel.js
│   ├── server.js
│   └── package.json
└── README.md
```

## Frontend (React)
- Create actual component files with complete implementations
- Use functional components with React Hooks
- Implement state management appropriate to application complexity
- Build clean component hierarchy with proper props passing
- Apply responsive design principles

## Backend (Node.js/Express)
- Implement complete RESTful API endpoints
- Create actual controller files with full implementations
- Create complete route files with proper endpoints
- Implement error handling middleware
- Include request validation

## Data Flow
1. User interacts with React frontend
2. Frontend makes API calls to backend services
3. Backend processes requests and returns responses
4. Frontend updates UI based on response data

## Development Guidelines
1. Write clean, self-explanatory code without comments
2. Follow single responsibility principle for components
3. Use descriptive variable and function names
4. Only implement requested features - avoid feature creep
5. Ensure proper error handling throughout the application
".

(** [design_api.NEW_REQ_TEMPLATE] *)
Definition NEW_REQ_TEMPLATE : string :=
"
### Legacy Content
{old_design}

### New Requirements
{context}
".

(** [write_code.PROMPT_TEMPLATE] *)
Definition PROMPT_TEMPLATE : string :=
"
# File Generation Task

You are generating exactly ONE file: {filename}

## Project Structure
The project has a specific structure:
- Project root/ (e.g., projectname/)
  - package.json (SINGLE package.json for the entire project)
  - frontend/ (Contains all frontend code)
  - backend/ (Contains all backend code)

## CRITICAL INSTRUCTIONS

1. Generate ONLY the file named: {filename}
2. Place this file EXACTLY at the path shown - DO NOT create any nested directories
3. Create complete, functional code - no placeholders
4. Use RELATIVE imports within the project structure

## IMPORTANT PATH RULES:
- ✅ CORRECT: projectname/package.json
- ✅ CORRECT: projectname/frontend/...
- ✅ CORRECT: projectname/backend/...
- ❌ WRONG: projectname/frontend/package.json
- ❌ WRONG: projectname/backend/package.json
- ❌ WRONG: projectname/frontend/frontend/...
- ❌ WRONG: projectname/backend/backend/...

## SPECIAL CASES:
- If {filename} is " +:+ dq +:+
"package.json" +:+ dq +:+
", include ALL necessary dependencies for BOTH frontend and backend

## Context for This File

Design Information:
{design}

Task Description:
{task}

Related Code:
```
{code}
```

Debug Information:
```
{logs}
```

Feedback:
{feedback}
".

(** The default manifest of [ensure_critical_files], line by line. *)
Definition package_json_lines : list string :=
  [ "{";
    "  " +:+ dq +:+ "name" +:+ dq +:+ ": " +:+ dq +:+ "project" +:+ dq +:+ ",";
    "  " +:+ dq +:+ "version" +:+ dq +:+ ": " +:+ dq +:+ "1.0.0" +:+ dq +:+ ",";
    "  " +:+ dq +:+ "description" +:+ dq +:+ ": " +:+ dq +:+ "A full-stack application" +:+ dq +:+ ",";
    "  " +:+ dq +:+ "scripts" +:+ dq +:+ ": {";
    "    " +:+ dq +:+ "start" +:+ dq +:+ ": " +:+ dq +:+ "concurrently " +:+ bs +:+ dq +:+ "npm run start:frontend" +:+ bs +:+ dq +:+ " " +:+ bs +:+ dq +:+ "npm run start:backend" +:+ bs +:+ dq +:+ dq +:+ ",";
    "    " +:+ dq +:+ "start:frontend" +:+ dq +:+ ": " +:+ dq +:+ "cd frontend && react-scripts start" +:+ dq +:+ ",";
    "    " +:+ dq +:+ "start:backend" +:+ dq +:+ ": " +:+ dq +:+ "cd backend && node server.js" +:+ dq +:+ ",";
    "    " +:+ dq +:+ "build" +:+ dq +:+ ": " +:+ dq +:+ "cd frontend && react-scripts build" +:+ dq +:+ ",";
    "    " +:+ dq +:+ "test" +:+ dq +:+ ": " +:+ dq +:+ "cd frontend && react-scripts test" +:+ dq +:+ ",";
    "    " +:+ dq +:+ "eject" +:+ dq +:+ ": " +:+ dq +:+ "cd frontend && react-scripts eject" +:+ dq;
    "  },";
    "  " +:+ dq +:+ "dependencies" +:+ dq +:+ ": {";
    "    " +:+ dq +:+ "concurrently" +:+ dq +:+ ": " +:+ dq +:+ "^7.6.0" +:+ dq;
    "  },";
    "  " +:+ dq +:+ "frontend" +:+ dq +:+ ": {";
    "    " +:+ dq +:+ "dependencies" +:+ dq +:+ ": {";
    "      " +:+ dq +:+ "react" +:+ dq +:+ ": " +:+ dq +:+ "^18.2.0" +:+ dq +:+ ",";
    "      " +:+ dq +:+ "react-dom" +:+ dq +:+ ": " +:+ dq +:+ "^18.2.0" +:+ dq +:+ ",";
    "      " +:+ dq +:+ "react-scripts" +:+ dq +:+ ": " +:+ dq +:+ "5.0.1" +:+ dq;
    "    }";
    "  },";
    "  " +:+ dq +:+ "backend" +:+ dq +:+ ": {";
    "    " +:+ dq +:+ "dependencies" +:+ dq +:+ ": {";
    "      " +:+ dq +:+ "express" +:+ dq +:+ ": " +:+ dq +:+ "^4.18.2" +:+ dq +:+ ",";
    "      " +:+ dq +:+ "cors" +:+ dq +:+ ": " +:+ dq +:+ "^2.8.5" +:+ dq +:+ ",";
    "      " +:+ dq +:+ "body-parser" +:+ dq +:+ ": " +:+ dq +:+ "^1.20.1" +:+ dq;
    "    }";
    "  },";
    "  " +:+ dq +:+ "browserslist" +:+ dq +:+ ": {";
    "    " +:+ dq +:+ "production" +:+ dq +:+ ": [";
    "      " +:+ dq +:+ ">0.2%" +:+ dq +:+ ",";
    "      " +:+ dq +:+ "not dead" +:+ dq +:+ ",";
    "      " +:+ dq +:+ "not op_mini all" +:+ dq;
    "    ],";
    "    " +:+ dq +:+ "development" +:+ dq +:+ ": [";
    "      " +:+ dq +:+ "last 1 chrome version" +:+ dq +:+ ",";
    "      " +:+ dq +:+ "last 1 firefox version" +:+ dq +:+ ",";
    "      " +:+ dq +:+ "last 1 safari version" +:+ dq;
    "    ]";
    "  }";
    "}" ].

(** [critical_files]: one manifest at the project root. *)
Definition critical_files : list (string * string) :=
  [ ("package.json", join nl package_json_lines) ].


(* ===================================================================== *)
(** ** One concrete set of externals

    Used to run the model on examples.  The constants are those of the
    upstream modules; the decoders cover the fragment of JSON the examples
    use (objects, arrays, strings without escapes, integers, literals). *)

Module Demo.

Definition dq_char : ascii := ascii_of_nat 34.

Definition is_ws (c : ascii) : bool :=
  bool_decide (c = " "%char) || bool_decide (c = ascii_of_nat 10)
  || bool_decide (c = ascii_of_nat 13) || bool_decide (c = ascii_of_nat 9).

Definition is_digit (c : ascii) : bool :=
  bool_decide (48 <= nat_of_ascii c) && bool_decide (nat_of_ascii c <= 57).

Fixpoint skip_ws (s : list ascii) : list ascii :=
  match s with
  | c :: rest => if is_ws c then skip_ws rest else s
  | [] => []
  end.

(** The body of a string up to its closing quote; no escapes. *)
Fixpoint parse_string (s : list ascii) : option (string * list ascii) :=
  match s with
  | [] => None
  | c :: rest =>
      if bool_decide (c = dq_char) then Some (EmptyString, rest)
      else if bool_decide (c = ascii_of_nat 92) then None
      else '(body, rest') ← parse_string rest; Some (String c body, rest')
  end.

Fixpoint parse_digits (s : list ascii) (acc : Z) : Z * list ascii :=
  match s with
  | c :: rest =>
      if is_digit c
      then parse_digits rest (10 * acc + Z.of_nat (nat_of_ascii c - 48))%Z
      else (acc, s)
  | [] => (acc, [])
  end.

Definition parse_int (s : list ascii) : option (json * list ascii) :=
  let '(neg, ds) := match s with
                    | "-"%char :: rest => (true, rest)
                    | _ => (false, s)
                    end in
  match ds with
  | c :: _ =>
      if is_digit c then
        let '(n, rest) := parse_digits ds 0%Z in
        match rest with
        | "."%char :: _ | "e"%char :: _ | "E"%char :: _ => None
        | _ => Some (JInt (if neg : bool then (- n)%Z else n), rest)
        end
      else None
  | [] => None
  end.

Fixpoint parse_value (fuel : nat) (s : list ascii) : option (json * list ascii) :=
  match fuel with
  | 0 => None
  | S fuel =>
      match skip_ws s with
      | "n"%char :: "u"%char :: "l"%char :: "l"%char :: rest => Some (JNull, rest)
      | "t"%char :: "r"%char :: "u"%char :: "e"%char :: rest => Some (JBool true, rest)
      | "f"%char :: "a"%char :: "l"%char :: "s"%char :: "e"%char :: rest =>
          Some (JBool false, rest)
      | "["%char :: rest =>
          match skip_ws rest with
          | "]"%char :: rest' => Some (JArr [], rest')
          | _ => '(items, rest') ← parse_items fuel rest []; Some (JArr items, rest')
          end
      | "{"%char :: rest =>
          match skip_ws rest with
          | "}"%char :: rest' => Some (JObj [], rest')
          | _ => '(kvs, rest') ← parse_members fuel rest []; Some (JObj kvs, rest')
          end
      | c :: rest =>
          if bool_decide (c = dq_char)
          then '(body, rest') ← parse_string rest; Some (JStr body, rest')
          else parse_int (c :: rest)
      | [] => None
      end
  end
with parse_items (fuel : nat) (s : list ascii) (acc : list json)
  : option (list json * list ascii) :=
  match fuel with
  | 0 => None
  | S fuel =>
      '(v, rest) ← parse_value fuel s;
      match skip_ws rest with
      | ","%char :: rest' => parse_items fuel rest' (acc ++ [v])
      | "]"%char :: rest' => Some (acc ++ [v], rest')
      | _ => None
      end
  end
with parse_members (fuel : nat) (s : list ascii) (acc : list (string * json))
  : option (list (string * json) * list ascii) :=
  match fuel with
  | 0 => None
  | S fuel =>
      match skip_ws s with
      | c :: rest =>
          if bool_decide (c = dq_char) then
            '(key, rest1) ← parse_string rest;
            match skip_ws rest1 with
            | ":"%char :: rest2 =>
                '(v, rest3) ← parse_value fuel rest2;
                match skip_ws rest3 with
                | ","%char :: rest' => parse_members fuel rest' (dict_set key v acc)
                | "}"%char :: rest' => Some (dict_set key v acc, rest')
                | _ => None
                end
            | _ => None
            end
          else None
      | [] => None
      end
  end.

Definition json_loads_frag (text : string) : option json :=
  let s := list_ascii_of_string text in
  '(v, rest) ← parse_value (S (length s)) s;
  match skip_ws rest with
  | [] => Some v
  | _ => None
  end.

Definition str_field (kvs : list (string * json)) (k : string) : option string :=
  match dict_lookup k kvs with
  | Some (JStr v) => Some v
  | None => Some EmptyString
  | _ => None
  end.

Definition doc_of_json (v : json) : option Document :=
  match v with
  | JObj kvs =>
      r ← str_field kvs "root_path";
      f ← str_field kvs "filename";
      c ← str_field kvs "content";
      Some {| root_path := r; filename := f; content := c |}
  | _ => None
  end.

Definition opt_doc_field (kvs : list (string * json)) (k : string)
  : option (option Document) :=
  match dict_lookup k kvs with
  | None | Some JNull => Some None
  | Some v => d ← doc_of_json v; Some (Some d)
  end.

Definition loads_coding_context (text : string) : option CodingContext :=
  v ← json_loads_frag text;
  match v with
  | JObj kvs =>
      match dict_lookup "filename" kvs with
      | Some (JStr f) =>
          dd ← opt_doc_field kvs "design_doc";
          td ← opt_doc_field kvs "task_doc";
          cd ← opt_doc_field kvs "code_doc";
          pd ← opt_doc_field kvs "code_plan_and_change_doc";
          Some {| cc_filename := f; design_doc := dd; task_doc := td;
                  code_doc := cd; code_plan_and_change_doc := pd |}
      | _ => None
      end
  | _ => None
  end.

Definition loads_run_code_result (text : string) : option RunCodeResult :=
  v ← json_loads_frag text;
  match v with
  | JObj kvs =>
      match dict_lookup "stdout" kvs, dict_lookup "stderr" kvs with
      | Some (JStr o), Some (JStr e) => Some {| rc_stdout := o; rc_stderr := e |}
      | _, _ => None
      end
  | _ => None
  end.

(** The body of the first fenced block of the usual shape (fence, language
    tag, white space, body, fence); a text without one is returned whole. *)
Fixpoint until_fence (s : string) : option string :=
  match s with
  | EmptyString => None
  | String c rest =>
      if starts_with "```" s then Some EmptyString
      else body ← until_fence rest; Some (String c body)
  end.

Fixpoint after_tag (s : string) : option string :=
  match s with
  | EmptyString => None
  | String c rest =>
      if is_ws c
      then until_fence (string_of_list_ascii (skip_ws (list_ascii_of_string rest)))
      else after_tag rest
  end.

Fixpoint first_fence (s : string) : option string :=
  match s with
  | EmptyString => None
  | String c rest =>
      match s with
      | String "`" (String "`" (String "`" body)) =>
          match after_tag body with
          | Some code => Some code
          | None => first_fence rest
          end
      | _ => first_fence rest
      end
  end.

Definition parse_code_fence (text : string) : string :=
  match first_fence text with
  | Some code => code
  | None => text
  end.

(** A stand-in for the export of a design: the document is stored under
    its own name. *)
Definition export_document (s : Store) (d : Document) : result Store :=
  Ok (store_put s (filename d) (content d) []).2.

(** A stand-in for the refined prompt template, with its nine fields. *)
Definition refined_template : string :=
  "Requirement: {user_requirement}
Plan: {code_plan_and_change}
Design: {design}
Task: {task}
Legacy Code: {code}
Debug logs: {logs}
Bug Feedback logs: {feedback}
Summary: {summary_log}
Write {filename}".

#[export] Instance externals : Externals := {|
  TASK_LIST_key := "Task list";
  REFINED_TASK_LIST_key := "Refined Task list";
  DATA_STRUCTURES_AND_INTERFACES_key := "Data structures and interfaces";
  REFINED_DATA_STRUCTURES_AND_INTERFACES_key :=
    "Refined Data structures and interfaces";
  PROGRAM_CALL_FLOW_key := "Program call flow";
  REFINED_PROGRAM_CALL_FLOW_key := "Refined Program call flow";
  DATA_API_DESIGN_FILE_REPO := "resources/data_api_design";
  SEQ_FLOW_FILE_REPO := "resources/seq_flow";
  BUGFIX_FILENAME := "bugfix.txt";
  REQUIREMENT_FILENAME := "requirement.txt";
  REFINED_TEMPLATE := refined_template;
  json_loads := json_loads_frag;
  parse_code := parse_code_fence;
  CodingContext_loads := loads_coding_context;
  RunCodeResult_loads := loads_run_code_result;
  save_pdf := export_document;
  root_relative_path := fun d => os_path_join (root_path d) (filename d);
  doc_str := fun d => match d with Some x => content x | None => "None" end;
  list_of_set := elements;
  list_of_set_perm := fun X => reflexivity (elements X);
|}.

End Demo.

(* ===================================================================== *)
(** ** Example projects *)

Module Example.
Import Demo.

Definition store_of (wd : path) (root : string) (files : list (string * string))
  : Store :=
  {| store_workdir := wd; store_root := root;
     store_files := list_to_map files; store_deps := ∅ |}.

Definition no_store : Store := store_of [] EmptyString [].

(** JSON text of an object with string-valued or raw members. *)
Definition member (k raw : string) : string := q k +:+ ": " +:+ raw.

Definition object (members : list string) : string :=
  "{" +:+ join ", " members +:+ "}".

Definition array (items : list string) : string :=
  "[" +:+ join ", " items +:+ "]".

Definition doc_json (root name body : string) : string :=
  object [member "root_path" (q root); member "filename" (q name);
          member "content" (q body)].

(** A task document naming three files, in both task lists. *)
Definition task_text : string :=
  object [member "Task list" (array [q "a.js"; q "b.js"; q "c.js"]);
          member "Refined Task list" (array [q "a.js"; q "b.js"; q "c.js"])].

Definition task_document : Document :=
  {| root_path := "docs/task"; filename := "t.json"; content := task_text |}.

(** The same task document, handed over without its content. *)
Definition task_document_unread : Document :=
  {| root_path := "docs/task"; filename := "t.json"; content := EmptyString |}.

(** Current sources [a.js], [b.js]; prior-iteration sources [b.js],
    [c.js]. *)
Definition project : ProjectRepo :=
  {| workdir := ["/"; "ws"];
     docs := no_store;
     prd := store_of ["/"; "ws"; "docs"; "prd"] "docs/prd"
              [("a.md", "the requirements")];
     system_design := store_of ["/"; "ws"; "docs"; "system_design"]
                        "docs/system_design" [];
     task := store_of ["/"; "ws"; "docs"; "task"] "docs/task"
               [("t.json", task_text)];
     code_summary := no_store;
     test_outputs := no_store;
     srcs := store_of ["/"; "ws"; "src"] "src" [("a.js", "A"); ("b.js", "B")];
     old_workspace := store_of ["/"; "ws"; "old"] "old"
                        [("b.js", "OLD B"); ("c.js", "OLD C")];
     resources_system_design :=
       store_of ["/"; "ws"; "resources"; "system_design"]
         "resources/system_design" [] |}.

(** A project with bug feedback in its docs store. *)
Definition project_with_bugfix : ProjectRepo :=
  {| workdir := workdir project;
     docs := store_of ["/"; "ws"; "docs"] "docs" [("bugfix.txt", "it crashes")];
     prd := prd project; system_design := system_design project;
     task := task project; code_summary := code_summary project;
     test_outputs := test_outputs project; srcs := srcs project;
     old_workspace := old_workspace project;
     resources_system_design := resources_system_design project |}.

(** Backends: one that answers every call with [rsp], one that always fails,
    one that fails its first [n] calls. *)
Definition answers (rsp : string) : nat -> request -> result string :=
  fun _ _ => Ok rsp.

Definition always_fails : nat -> request -> result string :=
  fun _ _ => Raise BackendError.

Definition fails_first (n : nat) (rsp : string) : nat -> request -> result string :=
  fun i _ => if bool_decide (i < n) then Raise BackendError else Ok rsp.

Definition world_of (r : ProjectRepo) (prds designs : list string)
    (files : FS) (b : nat -> request -> result string) : World :=
  {| repo := r; changed_prds := prds; changed_system_designs := designs;
     fs := files; config_inc := false; src_workspace := Some ["/"; "ws"; "src"];
     backend := b; backend_calls := 0; faults := []; trace := [] |}.

(** A workspace directory with nothing in it. *)
Definition bare_workspace : FS := {[ ["/"; "ws"] := Dir ]}.

(** A changed requirement file, no design document. *)
Definition changed_prd_world : World :=
  world_of project ["a.md"] [] bare_workspace (answers "{}").

(** A changed design file without a design document, and a backend whose
    result is an empty JSON object. *)
Definition new_design_world : World :=
  world_of project [] ["a.md"] bare_workspace (answers "{}").

Definition code_document (name body : string) : Document :=
  {| root_path := "/ws"; filename := name; content := body |}.

Definition context_of (name : string) (cd : option Document) : CodingContext :=
  {| cc_filename := name; design_doc := None; task_doc := Some task_document;
     code_doc := cd; code_plan_and_change_doc := None |}.

(** A target under a project directory, and a target that is the manifest
    itself. *)
Definition nested_context : CodingContext :=
  context_of "myapp/backend/server.js"
    (Some (code_document "myapp/backend/server.js" "old code")).

Definition manifest_context : CodingContext :=
  context_of "package.json" (Some (code_document "package.json" "{}")).

(** The serialized coding context of a bug-fix run for [main.js]. *)
Definition bugfix_i_context : Document :=
  {| root_path := EmptyString; filename := "main.js";
     content := object [member "filename" (q "main.js");
                        member "code_doc" (doc_json "/ws" "main.js" "old code")] |}.

(** The coding context that text decodes to. *)
Definition context_of_bugfix : CodingContext :=
  {| cc_filename := "main.js"; design_doc := None; task_doc := None;
     code_doc := Some (code_document "main.js" "old code");
     code_plan_and_change_doc := None |}.

Definition bugfix_world : World :=
  world_of project_with_bugfix [] [] bare_workspace (answers "new code").

(** Task documents that cannot be used: not JSON, a JSON list, an object
    whose task list is [null], and an object without a task list. *)
Definition task_of (text : string) : Document :=
  {| root_path := "docs/task"; filename := "t.json"; content := text |}.

Definition null_task_list : string := object [member "Task list" "null"].

Definition other_member : string := object [member "Owner" (q "somebody")].

(** A task document that lists other files. *)
Definition other_task_text : string :=
  object [member "Task list" (array [q "x.js"]);
          member "Refined Task list" (array [q "y.js"; q "z.js"])].

(** A world whose next writes fail as [l] says. *)
Definition faulty (w : World) (l : list bool) : World := set_faults w l.

Definition design_document : Document :=
  {| root_path := "docs/system_design"; filename := "a.md";
     content := "{}" |}.

(** A target that is the manifest itself, with both documents at hand. *)
Definition documented_context : CodingContext :=
  {| cc_filename := "package.json"; design_doc := Some design_document;
     task_doc := Some task_document;
     code_doc := Some (code_document "package.json" "{}");
     code_plan_and_change_doc := None |}.

(** A workspace path taken by a regular file. *)
Definition blocked_workspace : FS := {[ ["/"; "ws"] := File "not a directory" ]}.

(** Serialized coding contexts for [main.js]: with a code document, and
    with a task document handed over without its content. *)
Definition plain_i_context : Document :=
  {| root_path := EmptyString; filename := "main.js";
     content := object [member "filename" (q "main.js");
                        member "task_doc" (doc_json "docs/task" "t.json" "{}");
                        member "code_doc" (doc_json "/ws" "main.js" "old code")] |}.

Definition plain_context : CodingContext :=
  {| cc_filename := "main.js"; design_doc := None;
     task_doc := Some (task_of "{}");
     code_doc := Some (code_document "main.js" "old code");
     code_plan_and_change_doc := None |}.

Definition unread_i_context : Document :=
  {| root_path := EmptyString; filename := "main.js";
     content := object [member "filename" (q "main.js");
                        member "task_doc"
                          (doc_json "docs/task" "t.json" EmptyString)] |}.

Definition unread_context : CodingContext :=
  {| cc_filename := "main.js"; design_doc := None;
     task_doc := Some task_document_unread; code_doc := None;
     code_plan_and_change_doc := None |}.

(** Bug feedback for a coding context that has no code document. *)
Definition bare_i_context : Document :=
  {| root_path := EmptyString; filename := "main.js";
     content := object [member "filename" (q "main.js")] |}.

Definition plain_world : World :=
  world_of project [] [] bare_workspace (answers "new code").

(** A project whose design store has a design for [a.md], and a world in
    which that design file has changed. *)
Definition project_with_design : ProjectRepo :=
  {| workdir := workdir project; docs := docs project; prd := prd project;
     system_design := store_of ["/"; "ws"; "docs"; "system_design"]
                        "docs/system_design" [("a.md", "the old design")];
     task := task project; code_summary := code_summary project;
     test_outputs := test_outputs project; srcs := srcs project;
     old_workspace := old_workspace project;
     resources_system_design := resources_system_design project |}.

Definition refine_world : World :=
  world_of project_with_design [] ["a.md"] bare_workspace (answers "{}").

(** A changed design file [b.md] for which there is no requirement file. *)
Definition orphan_design_world : World :=
  world_of project ["a.md"] ["a.md"; "b.md"] bare_workspace (answers "{}").

(** Design documents with a class diagram, and with a JSON list. *)
Definition diagram_document : Document :=
  {| root_path := "docs/system_design"; filename := "a.json";
     content := object [member "Data structures and interfaces"
                          (q "classDiagram")] |}.

Definition list_document : Document :=
  {| root_path := "docs/system_design"; filename := "a.json";
     content := array [q "classDiagram"] |}.




(** The serialized coding context of a run for the manifest itself, and a
    world in which the backend always fails and the workspace path is taken
    by a regular file. *)
Definition manifest_i_context : Document :=
  {| root_path := EmptyString; filename := "package.json";
     content := object [member "filename" (q "package.json");
                        member "code_doc" (doc_json "/ws" "package.json" "{}")] |}.

Definition exhausted_blocked_world : World :=
  world_of project [] [] blocked_workspace always_fails.

(** The coding context that text decodes to. *)
Definition manifest_context_bare : CodingContext :=
  {| cc_filename := "package.json"; design_doc := None; task_doc := None;
     code_doc := Some (code_document "package.json" "{}");
     code_plan_and_change_doc := None |}.

End Example.

(* ===================================================================== *)
(** ** [design_api.py]: [WriteDesign] *)

Section Actions.
Context `{Ext : Externals}.

(** [json.loads(text)] *)
Definition loads (text : string) : result json :=
  match json_loads text with
  | Some v => Ok v
  | None => Raise JSONDecodeError
  end.

(** [self.repo.docs.system_design.save(filename, content, dependencies)] *)
Definition system_design_save (name body : string) (deps : list string)
  : M Document :=
  emit (EvStoreSave SystemDesignStore name) ;;;
  fun w =>
    let '(d, s') := store_put (system_design (repo w)) name body deps in
    (Ok d, set_repo w (set_system_design (repo w) s')).

(** [save_doc(doc, dependencies)] saves [doc] under its own file name. *)
Definition system_design_save_doc (doc : Document) (deps : list string)
  : M Document :=
  system_design_save (filename doc) (content doc) deps.

(** [_new_system_design]: one [fill] of [DESIGN_API_NODE]; the value is
    [node.instruct_content.model_dump_json()], the JSON text of the
    structured result.  The oracle [backend] answers with any text, so what
    is proved of a design holds in particular of every text the serializer
    can give. *)
Definition _new_system_design (context : string) : M string :=
  call_backend (Fill DESIGN_API_NODE context).

(** [_merge] *)
Definition _merge (prd_doc : option Document) (system_design_doc : Document)
  : M Document :=
  new_context <- lift (
    prd_content <~ attr prd_doc content ;;
    py_format NEW_REQ_TEMPLATE
      [("old_design", content system_design_doc); ("context", prd_content)]) ;;
  node <- call_backend (Fill REFINED_DESIGN_NODE new_context) ;;
  ret (with_content system_design_doc node).

(** [_save_mermaid_file] *)
Definition _save_mermaid_file (data : json) (pathname : path) : M unit :=
  mkdir (path_parent pathname) ;;;
  emit (EvMermaid data pathname).

(** [_save_data_api_design] *)
Definition _save_data_api_design (design_doc : Document) : M unit :=
  m <- lift (loads (content design_doc)) ;;
  first <- lift (py_get m DATA_STRUCTURES_AND_INTERFACES_key JNull) ;;
  second <- lift (py_get m REFINED_DATA_STRUCTURES_AND_INTERFACES_key JNull) ;;
  let data_api_design := py_or first second in
  if negb (json_truthy data_api_design) then ret tt
  else
    wd <- gets (fun w => workdir (repo w)) ;;
    stem <- lift (with_suffix_empty (Path (filename design_doc))) ;;
    let pathname := path_join (path_div wd DATA_API_DESIGN_FILE_REPO) stem in
    _save_mermaid_file data_api_design pathname.

(** [_save_seq_flow] *)
Definition _save_seq_flow (design_doc : Document) : M unit :=
  m <- lift (loads (content design_doc)) ;;
  first <- lift (py_get m PROGRAM_CALL_FLOW_key JNull) ;;
  second <- lift (py_get m REFINED_PROGRAM_CALL_FLOW_key JNull) ;;
  let seq_flow := py_or first second in
  if negb (json_truthy seq_flow) then ret tt
  else
    wd <- gets (fun w => workdir (repo w)) ;;
    stem <- lift (with_suffix_empty (Path (filename design_doc))) ;;
    let pathname := path_join (path_join wd (Path SEQ_FLOW_FILE_REPO)) stem in
    _save_mermaid_file seq_flow pathname.

(** The two branches of [_update_system_design]: no design document yet,
    or one to refine. *)
Definition new_design (name : string) (prd_doc : option Document) : M Document :=
  context <- lift (attr prd_doc content) ;;
  system_design <- _new_system_design context ;;
  dep <- lift (attr prd_doc root_relative_path) ;;
  system_design_save name system_design [dep].

Definition refine_design (prd_doc : option Document) (old_doc : Document)
  : M Document :=
  doc <- _merge prd_doc old_doc ;;
  dep <- lift (attr prd_doc root_relative_path) ;;
  system_design_save_doc doc [dep] ;;;
  ret doc.

(** [self.repo.resources.system_design.save_pdf(doc=doc)]: the export of
    the design into the resources store of the designs. *)
Definition resources_save_pdf (doc : Document) : M unit :=
  emit (EvSavePdf doc) ;;;
  fun w =>
    match save_pdf (resources_system_design (repo w)) doc with
    | Ok s' => (Ok tt, set_repo w (set_resources_system_design (repo w) s'))
    | Raise e => (Raise e, w)
    end.

(** [_update_system_design] *)
Definition _update_system_design (name : string) : M Document :=
  prd_doc <- gets (fun w => store_get (prd (repo w)) name) ;;
  old_system_design_doc <- gets (fun w => store_get (system_design (repo w)) name) ;;
  doc <- match old_system_design_doc with
         | None => new_design name prd_doc
         | Some old_doc => refine_design prd_doc old_doc
         end ;;
  _save_data_api_design doc ;;;
  _save_seq_flow doc ;;;
  resources_save_pdf doc ;;;
  ret doc.

(** The body of the first loop of [run]: a changed requirement file gets
    the fixed template as its design document. *)
Definition save_template (changed_files : list (string * Document))
    (name : string) : M (list (string * Document)) :=
  let doc := {| root_path := EmptyString; filename := name;
                content := REACT_NODE_TEMPLATE |} in
  let changed_files := dict_set name doc changed_files in
  prd_workdir <- gets (fun w => store_workdir (prd (repo w))) ;;
  system_design_save name REACT_NODE_TEMPLATE
    [path_str (path_div prd_workdir name)] ;;;
  ret changed_files.

(** The body of the second loop of [run]: a changed design file that the
    first loop did not handle is updated. *)
Definition update_changed_design (changed_files : list (string * Document))
    (name : string) : M (list (string * Document)) :=
  match dict_lookup name changed_files with
  | Some _ => ret changed_files
  | None =>
      doc <- _update_system_design name ;;
      ret (dict_set name doc changed_files)
  end.

(** [WriteDesign.run]; the value is the [Documents] mapping handed to
    [ActionOutput]. *)
Definition WriteDesign_run : M (list (string * Document)) :=
  prds <- gets changed_prds ;;
  designs <- gets changed_system_designs ;;
  changed_files <- fold_m prds [] save_template ;;
  fold_m designs changed_files update_changed_design.

(* ===================================================================== *)
(** ** [write_code.py]: [WriteCode] *)

(** One attempt of [write_code]: ask the backend, extract the code. *)
Definition write_code_attempt (prompt : string) : M string :=
  code_rsp <- call_backend (Ask prompt) ;;
  ret (parse_code code_rsp).

(** [@retry(stop=stop_after_attempt(n))]: a failed attempt is repeated until
    [n] attempts are used up, then [RetryError] is raised.  The waits between
    attempts take time only. *)
Fixpoint retry {A} (attempts : nat) (m : M A) : M A :=
  match attempts with
  | 0 => raise RetryError
  | S remaining =>
      try_except m (fun _ =>
        match remaining with
        | 0 => raise RetryError
        | S _ => retry remaining m
        end)
  end.

(** [write_code] *)
Definition write_code (prompt : string) : M string :=
  retry 6 (write_code_attempt prompt).

(** Modelled from the spec: [project_repo.srcs.save(filename=str(full_path),
    ...)] persists the file at the path it is given and records it in the
    store with its dependency edges; the store class is not among the
    sources.  A scheduled fault makes the call fail. *)
Definition srcs_save (full_path : path) (body : string) (deps : list string)
  : M Document :=
  emit (EvStoreSave SrcsStore (path_str full_path)) ;;;
  bad <- next_fault ;;
  if bad : bool then raise IOError
  else fun w =>
    match fs_write full_path body (fs w) with
    | Ok f =>
        let '(d, s') := store_put (srcs (repo w)) (path_str full_path) body deps in
        (Ok d, set_repo (set_fs w f) (set_srcs (repo w) s'))
    | Raise e => (Raise e, w)
    end.

(** [with open(full_path, 'w') as f: f.write(content)] *)
Definition direct_write (full_path : path) (body : string) : M unit :=
  emit (EvDirectWrite full_path) ;;;
  bad <- next_fault ;;
  if bad : bool then raise IOError
  else fun w =>
    match fs_write full_path body (fs w) with
    | Ok f => (Ok tt, set_fs w f)
    | Raise e => (Raise e, w)
    end.

Definition well_known_names : list string :=
  ["frontend"; "backend"; "package.json"].

(** One critical file (the body of the loop over [critical_files]): make its
    directory, and write it if it is absent, through the store or, when that
    fails, directly.  The dependencies are [list({design, task})], a list of
    a set. *)
Definition ensure_one (cc : CodingContext) (project_dir : path)
    (added_files : gset string) (item : string * string) : M (gset string) :=
  let '(file_path, body) := item in
  let full_path := path_div project_dir file_path in
  mkdir (path_parent full_path) ;;;
  file_exists <- gets (fun w => fs_exists (fs w) full_path) ;;
  if file_exists : bool then ret added_files
  else
    try_except
      (deps <- lift (
         a <~ attr (design_doc cc) root_relative_path ;;
         b <~ attr (task_doc cc) root_relative_path ;;
         Ok (list_of_set {[ a; b ]})) ;;
       srcs_save full_path body deps ;;;
       ret ({[ path_str full_path ]} ∪ added_files))
      (fun _ =>
         try_except
           (direct_write full_path body ;;;
            ret ({[ path_str full_path ]} ∪ added_files))
           (fun _ => ret added_files)).

(** [ensure_critical_files] *)
Definition ensure_critical_files (cc : CodingContext) : M (gset string) :=
  match code_doc cc with
  | Some cd =>
      if str_truthy (root_relative_path cd) then
        let workspace_path := Path (root_path cd) in
        let filename_parts := Path (cc_filename cc) in
        project_dir <-
          match filename_parts with
          | first :: _ =>
              if bool_decide (first ∈ well_known_names) then ret workspace_path
              else
                let project_name := first in
                let project_dir := path_div workspace_path project_name in
                mkdir (path_div project_dir "frontend") ;;;
                mkdir (path_div project_dir "backend") ;;;
                ret project_dir
          | [] => ret workspace_path
          end ;;
        fold_m critical_files ∅ (ensure_one cc project_dir)
      else ret ∅
  | None => ret ∅
  end.

(** The labelled blocks of [get_codes]. *)
Definition code_block (name body : string) : string :=
  "----- " +:+ name +:+ nl +:+ "```" +:+ body +:+ "```".

Definition rewrite_block (name body : string) : string :=
  "-----Now, " +:+ name +:+ " to be rewritten" +:+ nl
  +:+ "```" +:+ body +:+ "```" +:+ nl +:+ "=====".

(** What [task_doc] is bound to after the re-read of an empty task document:
    [project_repo.docs.task.get(...)] is called without [await], so the name
    is bound to the coroutine, which has no [content]. *)
Inductive task_ref : Type :=
  | TaskDocument (d : Document)
  | TaskCoroutine (name : string).

Definition task_ref_content (t : task_ref) : result string :=
  match t with
  | TaskDocument d => Ok (content d)
  | TaskCoroutine _ => Raise AttributeError
  end.

(** The loop of the incremental scenario over [union_files_list]. *)
Fixpoint inc_codes (exclude : string) (src_file_repo old_file_repo : Store)
    (old_files : list string) (union_files_list : list string)
    (codes : list string) : result (list string) :=
  match union_files_list with
  | [] => Ok codes
  | name :: rest =>
      if bool_decide (name = exclude) then
        if bool_decide (name ∈ old_files) && negb (bool_decide (name = "main.py"))
        then
          body <~ attr (store_get old_file_repo name) content ;;
          inc_codes exclude src_file_repo old_file_repo old_files rest
            (rewrite_block name body :: codes)
        else
          inc_codes exclude src_file_repo old_file_repo old_files rest codes
      else
        match store_get src_file_repo name with
        | None =>
            inc_codes exclude src_file_repo old_file_repo old_files rest codes
        | Some doc =>
            inc_codes exclude src_file_repo old_file_repo old_files rest
              (codes ++ [code_block name (content doc)])
        end
  end.

(** The loop of the normal scenario over [code_filenames]; a store is asked
    for file names, which are strings. *)
Fixpoint normal_codes (exclude : string) (src_file_repo : Store)
    (code_filenames : list json) (codes : list string)
  : result (list string) :=
  match code_filenames with
  | [] => Ok codes
  | name :: rest =>
      if json_eq_str name exclude then
        normal_codes exclude src_file_repo rest codes
      else
        match name with
        | JStr f =>
            match store_get src_file_repo f with
            | None => normal_codes exclude src_file_repo rest codes
            | Some doc =>
                normal_codes exclude src_file_repo rest
                  (codes ++ [code_block f (content doc)])
            end
        | _ => Raise TypeError
        end
  end.

(** [union_files_list = list(set(src_files) | set(old_files))] *)
Definition union_files (src_files old_files : list string) : list string :=
  list_of_set (list_to_set src_files ∪ list_to_set old_files).

(** [get_codes]: reads the stores, changes nothing. *)
Definition get_codes (task_doc : option Document) (exclude : string)
    (project_repo : ProjectRepo) (use_inc : bool) : result string :=
  match task_doc with
  | None => Ok EmptyString
  | Some td =>
      let task_doc :=
        if str_truthy (content td) then TaskDocument td
        else TaskCoroutine (filename td) in
      text <~ task_ref_content task_doc ;;
      m <~ loads text ;;
      code_filenames <~
        (if use_inc then py_get m REFINED_TASK_LIST_key (JArr [])
         else py_get m TASK_LIST_key (JArr [])) ;;
      let src_file_repo := srcs project_repo in
      codes <~
        (if use_inc then
           let src_files := all_files src_file_repo in
           let old_file_repo := old_workspace project_repo in
           let old_files := all_files old_file_repo in
           let union_files_list := union_files src_files old_files in
           inc_codes exclude src_file_repo old_file_repo old_files
             union_files_list []
         else
           names <~ py_iter code_filenames ;;
           normal_codes exclude src_file_repo names []) ;;
      Ok (join nl codes)
  end.

(** [logs]: the [stderr] of the test run of the target, when there is one.
    [RunCodeResult.loads] gives [None] for a text it cannot decode, and
    [test_detail.stderr] is read all the same. *)
Definition run_logs (test_doc : option Document) : result string :=
  match test_doc with
  | Some td => attr (RunCodeResult_loads (content td)) rc_stderr
  | None => Ok EmptyString
  end.

(** [code_context] (the [if bug_feedback / elif inc / else] of [run]).  The
    repository handed to [get_codes] has the same source store in both
    scenarios: [with_src_path] only says where that store is. *)
Definition run_code_context (bug_feedback : option Document)
    (coding_context : CodingContext) (i_context : Document) : M string :=
  match bug_feedback with
  | Some _ => lift (attr (code_doc coding_context) content)
  | None =>
      inc <- gets config_inc ;;
      project_repo <- gets repo ;;
      if inc : bool then
        emit (EvGetCodes true) ;;;
        lift (get_codes (task_doc coding_context) (filename i_context)
                project_repo true)
      else
        emit (EvGetCodes false) ;;;
        lift (get_codes (task_doc coding_context) (filename i_context)
                project_repo false)
  end.

Definition opt_content (d : option Document) : string :=
  match d with
  | Some x => content x
  | None => EmptyString
  end.

(** The keyword arguments of the prompt. *)
Definition prompt_args (inc : bool) (coding_context : CodingContext)
    (i_context : Document)
    (requirement_doc bug_feedback summary_doc : option Document)
    (code_context logs : string) : list (string * string) :=
  (if inc then
     [("user_requirement", opt_content requirement_doc);
      ("code_plan_and_change", doc_str (code_plan_and_change_doc coding_context))]
   else []) ++
  [("design", opt_content (design_doc coding_context));
   ("task", opt_content (task_doc coding_context));
   ("code", code_context);
   ("logs", logs);
   ("feedback", opt_content bug_feedback);
   ("filename", filename i_context);
   ("summary_log", opt_content summary_doc)].

Definition run_prompt (inc : bool) (kw : list (string * string))
  : result string :=
  if inc then py_format REFINED_TEMPLATE kw else py_format PROMPT_TEMPLATE kw.

(** [run] from the call of [write_code] on: a failure of the generation
    becomes empty code, the code document is made if there is none, and the
    critical files are ensured. *)
Definition run_write (coding_context : CodingContext) (prompt : string)
  : M CodingContext :=
  code <- try_except (write_code prompt) (fun _ => ret EmptyString) ;;
  coding_context <-
    match code_doc coding_context with
    | Some cd => ret (with_code_doc coding_context (with_content cd code))
    | None =>
        ws <- gets src_workspace ;;
        let root := match ws with
                    | Some p => path_str p
                    | None => EmptyString
                    end in
        ret (with_code_doc coding_context
               {| root_path := root; filename := cc_filename coding_context;
                  content := code |})
    end ;;
  ensure_critical_files coding_context ;;;
  ret coding_context.

(** [WriteCode.run].  [CodingContext.loads] gives [None] for a text it
    cannot decode; the next line reads [coding_context.filename], which
    raises [AttributeError] then. *)
Definition WriteCode_run (i_context : Document) : M CodingContext :=
  bug_feedback <- gets (fun w => store_get (docs (repo w)) BUGFIX_FILENAME) ;;
  coding_context <- lift (
    match CodingContext_loads (content i_context) with
    | Some c => Ok c
    | None => Raise AttributeError
    end) ;;
  test_doc <- gets (fun w =>
    store_get (test_outputs (repo w))
      ("test_" +:+ cc_filename coding_context +:+ ".json")) ;;
  requirement_doc <- gets (fun w => store_get (docs (repo w)) REQUIREMENT_FILENAME) ;;
  summary_doc <-
    match design_doc coding_context with
    | Some dd =>
        if str_truthy (filename dd)
        then gets (fun w => store_get (code_summary (repo w)) (filename dd))
        else ret None
    | None => ret None
    end ;;
  logs <- lift (run_logs test_doc) ;;
  code_context <- run_code_context bug_feedback coding_context i_context ;;
  inc <- gets config_inc ;;
  prompt <- lift (run_prompt inc
    (prompt_args inc coding_context i_context requirement_doc bug_feedback
       summary_doc code_context logs)) ;;
  run_write coding_context prompt.

End Actions.

(* ===================================================================== *)
(** ** Notions the properties are stated with *)

(** *** What [get_codes] assembles *)

(** The file names that get a plain block: not the excluded one, and present
    in the current source store. *)
Definition kept (exclude : string) (src : Store) (names : list string)
  : list string :=
  filter (fun f => f <> exclude /\ is_Some (store_get src f)) names.

(** The plain block of a file of the current source store. *)
Definition block_of (src : Store) (name : string) : string :=
  code_block name (opt_content (store_get src name)).

(** The rewritten-file marker of the incremental scenario, when there is
    one. *)
Definition marker (exclude : string) (old : Store) : list string :=
  if bool_decide (exclude ∈ all_files old)
     && negb (bool_decide (exclude = "main.py"))
  then match store_get old exclude with
       | Some d => [rewrite_block exclude (content d)]
       | None => []
       end
  else [].

(** *** Directories and files *)

Definition is_file (o : option node) : bool :=
  match o with
  | Some (File _) => true
  | _ => false
  end.

(** No regular file stands at [p] or at a path above it. *)
Definition clear_path (fs : FS) (p : path) : bool :=
  forallb (fun n => negb (is_file (node_at fs (take n p))))
          (seq 0 (S (length p))).

(** Paths that need no entry in the map: the current directory and a root. *)
Definition implicit_dir (p : path) : bool :=
  match p with
  | [] => true
  | [r] => is_root_part r
  | _ => false
  end.

(** [fs'] has what [fs] has, and beyond that only directories at [p] or
    above it. *)
Definition dirs_added (p : path) (fs fs' : FS) : Prop :=
  forall k, fs' !! k = fs !! k
         \/ (fs !! k = None /\ fs' !! k = Some Dir /\ k `prefix_of` p).

(** *** The critical-file pass *)

(** Events of the file system and the stores. *)
Definition storage_event (e : event) : Prop :=
  match e with
  | EvMkdir _ | EvStoreSave _ _ | EvDirectWrite _ => True
  | _ => False
  end.

(** The events of the write of one manifest. *)
Definition manifest_event (full_path : path) (e : event) : Prop :=
  e = EvStoreSave SrcsStore (path_str full_path) \/ e = EvDirectWrite full_path.

(** The project root [ensure_critical_files] infers for a target file name
    under a workspace, and the path of the manifest under it. *)
Definition project_dir_of (workspace_path : path) (target : string) : path :=
  match Path target with
  | first :: _ =>
      if bool_decide (first ∈ well_known_names) then workspace_path
      else path_div workspace_path first
  | [] => workspace_path
  end.

Definition manifest_path (cc : CodingContext) (cd : Document) : path :=
  path_div (project_dir_of (Path (root_path cd)) (cc_filename cc)) "package.json".

(** The first part of the target names a project directory. *)
Definition names_project (target : string) : bool :=
  match Path target with
  | first :: _ => negb (bool_decide (first ∈ well_known_names))
  | [] => false
  end.

(** The step of [ensure_critical_files] that settles the project directory
    and makes its two sub-area directories. *)
Definition project_dir_step (workspace_path filename_parts : path) : M path :=
  match filename_parts with
  | first :: _ =>
      if bool_decide (first ∈ well_known_names) then ret workspace_path
      else
        let project_name := first in
        let project_dir := path_div workspace_path project_name in
        mkdir (path_div project_dir "frontend") ;;;
        mkdir (path_div project_dir "backend") ;;;
        ret project_dir
  | [] => ret workspace_path
  end.

(** No regular file is in the way of the directories the pass makes for
    this coding context. *)
Definition ensure_unobstructed `{Ext : Externals} (cc : CodingContext) (f : FS)
  : bool :=
  match code_doc cc with
  | Some cd =>
      if str_truthy (root_relative_path cd) then
        let pd := project_dir_of (Path (root_path cd)) (cc_filename cc) in
        if names_project (cc_filename cc)
        then clear_path f (path_div pd "frontend")
             && clear_path f (path_div pd "backend")
        else clear_path f pd
      else true
  | None => true
  end.

(** *** Generation with retries, and the rest of [run] *)

(** The world after one more backend call. *)
Definition tick (rq : request) (w : World) : World :=
  set_trace (set_backend_calls w (S (backend_calls w)))
            (trace w ++ [EvBackend rq]).

(** The backend fails on its next [n] calls for [rq]. *)
Definition fails_next (n : nat) (rq : request) (w : World) : Prop :=
  forall i, i < n -> is_ok (backend w (backend_calls w + i) rq) = false.

(** The coding context [run] returns for the code generated. *)
Definition final_context (cc : CodingContext) (code : string)
    (ws : option path) : CodingContext :=
  match code_doc cc with
  | Some cd => with_code_doc cc (with_content cd code)
  | None =>
      with_code_doc cc
        {| root_path := match ws with
                        | Some p => path_str p
                        | None => EmptyString
                        end;
           filename := cc_filename cc; content := code |}
  end.

(** Events a run of [run_write] for [prompt] can add. *)
Definition write_event (prompt : string) (e : event) : Prop :=
  e = EvBackend (Ask prompt) \/ storage_event e.

(** The documents [run] looks up for a coding context. *)
Definition test_doc_of `{Ext : Externals} (w : World) (cc : CodingContext)
  : option Document :=
  store_get (test_outputs (repo w)) ("test_" +:+ cc_filename cc +:+ ".json").

Definition requirement_doc_of `{Ext : Externals} (w : World) : option Document :=
  store_get (docs (repo w)) REQUIREMENT_FILENAME.

Definition summary_doc_of (w : World) (cc : CodingContext) : option Document :=
  match design_doc cc with
  | Some dd =>
      if str_truthy (filename dd)
      then store_get (code_summary (repo w)) (filename dd)
      else None
  | None => None
  end.

(** The prompt of a run with bug feedback [bf], built around [code]. *)
Definition bugfix_prompt `{Ext : Externals} (w : World) (cc : CodingContext)
    (i_context bf : Document) (code logs : string) : result string :=
  run_prompt (config_inc w)
    (prompt_args (config_inc w) cc i_context (requirement_doc_of w) (Some bf)
       (summary_doc_of w cc) code logs).

(** *** Design synthesis *)

(** The merge context of [_merge]: [NEW_REQ_TEMPLATE] filled in. *)
Definition new_req_context (old_design context : string) : string :=
  nl +:+ "### Legacy Content" +:+ nl +:+ old_design +:+ nl +:+ nl
  +:+ "### New Requirements" +:+ nl +:+ context +:+ nl.

(** The world after a save into the design store. *)
Definition design_saved (w : World) (name body : string) (deps : list string)
  : World :=
  set_repo (set_trace w (trace w ++ [EvStoreSave SystemDesignStore name]))
    (set_system_design (repo w)
       (store_put (system_design (repo w)) name body deps).2).

(** The design document the store returns for a save. *)
Definition design_doc_of (w : World) (name body : string) : Document :=
  {| root_path := store_root (system_design (repo w)); filename := name;
     content := body |}.

(** Events of the extraction and export steps. *)
Definition render_event (e : event) : Prop :=
  match e with
  | EvMkdir _ | EvMermaid _ _ | EvSavePdf _ => True
  | _ => False
  end.

(** Two worlds with the same stores and the same count of backend calls. *)
Definition same_stores (w w' : World) : Prop :=
  repo w' = repo w /\ backend_calls w' = backend_calls w
  /\ backend w' = backend w.

(** Two worlds whose stores are the same but for the exports in the
    resources store of the designs, with the same count of backend calls. *)
Definition same_documents (w w' : World) : Prop :=
  set_resources_system_design (repo w') (resources_system_design (repo w))
  = repo w
  /\ backend_calls w' = backend_calls w /\ backend w' = backend w.

(** The steps of [_update_system_design] after the save. *)
Definition after_save `{Ext : Externals} (doc : Document) : M Document :=
  _save_data_api_design doc ;;;
  _save_seq_flow doc ;;;
  resources_save_pdf doc ;;;
  ret doc.

(** [m] relates the world it starts from to the world it ends in by [R],
    whatever its outcome. *)
Definition preserves {A} (R : relation World) (m : M A) : Prop :=
  forall w r w', m w = (r, w') -> R w w'.

(** The world keeps its stores and its count of backend calls, and its
    trace grows by events that satisfy [P]. *)
Definition grows_by (P : event -> Prop) (w w' : World) : Prop :=
  same_stores w w' /\ exists t, trace w' = trace w ++ t /\ Forall P t.

(** The world keeps its documents and its count of backend calls, and its
    trace grows by events that satisfy [P]. *)
Definition exports_by (P : event -> Prop) (w w' : World) : Prop :=
  same_documents w w' /\ exists t, trace w' = trace w ++ t /\ Forall P t.

(** The design store changes at most at [name]; the requirement store and
    the roots of the stores do not change; the trace grows. *)
Definition design_step (name : string) (w w' : World) : Prop :=
  prd (repo w') = prd (repo w)
  /\ store_root (system_design (repo w')) = store_root (system_design (repo w))
  /\ (forall k, k <> name ->
        store_files (system_design (repo w')) !! k
        = store_files (system_design (repo w)) !! k
        /\ store_deps (system_design (repo w')) !! k
           = store_deps (system_design (repo w)) !! k)
  /\ exists t, trace w' = trace w ++ t.

(** What the first loop of [run] saves for a changed requirement file. *)
Definition template_design (w : World) (name : string) : Document :=
  design_doc_of w name REACT_NODE_TEMPLATE.

Definition prd_dep (w : World) (name : string) : string :=
  path_str (path_div (store_workdir (prd (repo w))) name).

(** The world and the mapping after the first loop of [run]. *)
Definition prds_phase (w : World) (prds : list string) : World :=
  fold_left (fun w1 name =>
               design_saved w1 name REACT_NODE_TEMPLATE [prd_dep w1 name])
    prds w.

Definition prds_changed (prds : list string) (acc : list (string * Document))
  : list (string * Document) :=
  fold_left (fun acc1 name =>
               dict_set name {| root_path := EmptyString; filename := name;
                                content := REACT_NODE_TEMPLATE |} acc1)
    prds acc.


(** *** The write of an absent critical file *)

(** The dependency edges of a critical file, [list({design, task})]. *)
Definition manifest_deps `{Ext : Externals} (cc : CodingContext)
  : result (list string) :=
  a <~ attr (design_doc cc) root_relative_path ;;
  b <~ attr (task_doc cc) root_relative_path ;;
  Ok (list_of_set {[ a; b ]}).

(** The [try] of the loop body of [ensure_critical_files] with its two
    handlers: the write of a critical file that is absent. *)
Definition write_absent `{Ext : Externals} (cc : CodingContext)
    (full_path : path) (body : string) (added_files : gset string)
  : M (gset string) :=
  try_except
    (deps <- lift (manifest_deps cc) ;;
     srcs_save full_path body deps ;;;
     ret ({[ path_str full_path ]} ∪ added_files))
    (fun _ =>
       try_except
         (direct_write full_path body ;;;
          ret ({[ path_str full_path ]} ∪ added_files))
         (fun _ => ret added_files)).

(** The paths at which the pass makes directories for a project directory:
    the two sub-area directories and what is above them. *)
Definition made_for (pd k : path) : Prop :=
  k `prefix_of` path_div pd "frontend" \/ k `prefix_of` path_div pd "backend".

Definition is_mkdir (e : event) : Prop :=
  match e with
  | EvMkdir _ => True
  | _ => False
  end.

(** [w0] is [w] with some of the directories of [pd] made: nothing else of
    the world differs, and the trace has grown by [mkdir] events. *)
Definition dirs_made (pd : path) (w w0 : World) : Prop :=
  repo w0 = repo w /\ faults w0 = faults w
  /\ backend_calls w0 = backend_calls w
  /\ (forall k, fs w0 !! k = fs w !! k
             \/ (fs w !! k = None /\ fs w0 !! k = Some Dir /\ made_for pd k))
  /\ exists t, trace w0 = trace w ++ t /\ Forall is_mkdir t.

(** The content of the default manifest. *)
Definition default_manifest : string := join nl package_json_lines.

(** *** A run without bug feedback *)

(** The code context [run] assembles for a coding context. *)
Definition code_context_of `{Ext : Externals} (w : World) (cc : CodingContext)
    (i_context : Document) : result string :=
  get_codes (task_doc cc) (filename i_context) (repo w) (config_inc w).

(** The prompt of a run without bug feedback, built around [code]. *)
Definition plain_prompt `{Ext : Externals} (w : World) (cc : CodingContext)
    (i_context : Document) (code logs : string) : result string :=
  run_prompt (config_inc w)
    (prompt_args (config_inc w) cc i_context (requirement_doc_of w) None
       (summary_doc_of w cc) code logs).

(** The world after the call of [get_codes]. *)
Definition codes_read (w : World) : World :=
  set_trace w (trace w ++ [EvGetCodes (config_inc w)]).

(** *** What a design synthesis writes *)

(** Of the stores, only the design store and the resources store of the
    designs differ, the design store at file names among [names] only. *)
Definition design_writes (names : list string) (w w' : World) : Prop :=
  set_resources_system_design
    (set_system_design (repo w') (system_design (repo w)))
    (resources_system_design (repo w)) = repo w
  /\ store_workdir (system_design (repo w'))
     = store_workdir (system_design (repo w))
  /\ store_root (system_design (repo w')) = store_root (system_design (repo w))
  /\ forall k, k ∉ names ->
       store_files (system_design (repo w')) !! k
       = store_files (system_design (repo w)) !! k
       /\ store_deps (system_design (repo w')) !! k
          = store_deps (system_design (repo w)) !! k.

(** The document [run] puts in its mapping for a changed requirement file. *)
Definition template_entry (name : string) : Document :=
  {| root_path := EmptyString; filename := name;
     content := REACT_NODE_TEMPLATE |}.

(** The changed design files the second loop of [run] has to update. *)
Definition to_update (prds designs : list string) : list string :=
  filter (fun k => k ∉ prds) designs.

(** The file a diagram of a design document is rendered to, under the
    directory [dir] of the workspace. *)
Definition diagram_path (w : World) (dir : path) (stem : path) : path :=
  path_join (path_join (workdir (repo w)) dir) stem.

(** A field of a decoded design that counts as not given: absent, or with
    a value that is false in a condition. *)
Definition not_given (o : option json) : Prop :=
  match o with
  | Some v => json_truthy v = false
  | None => True
  end.

(** [v] is the diagram the design [kvs] gives under the keys [primary] and
    [refined]: the value of [primary] when that is given, else the value of
    [refined] when that is given. *)
Definition diagram_given (kvs : list (string * json)) (primary refined : string)
    (v : json) : Prop :=
  json_truthy v = true
  /\ (dict_lookup primary kvs = Some v
      \/ (not_given (dict_lookup primary kvs)
          /\ dict_lookup refined kvs = Some v)).

(** The world after a diagram [v] was rendered to [pathname], with [f] the
    file system after its directory was made. *)
Definition diagram_rendered (w w' : World) (v : json) (pathname : path)
    (f : FS) : Prop :=
  trace w' = trace w ++ [EvMkdir (path_parent pathname); EvMermaid v pathname]
  /\ fs w' = f /\ repo w' = repo w.

(* ===================================================================== *)
(** ** What [get_codes] assembles *)

Section Assembly.
Context `{Ext : Externals}.

Lemma elem_of_all_files (s : Store) (name : string) :
  name ∈ all_files s <-> is_Some (store_get s name).
Proof.
  unfold all_files, store_get. rewrite fmap_is_Some, list_elem_of_fmap. split.
  - intros [[k d] [-> Hin]]. apply elem_of_map_to_list in Hin. eauto.
  - intros [d Hd]. exists (name, d). split; [done|].
    by apply elem_of_map_to_list.
Qed.

Lemma union_files_NoDup (a b : list string) : NoDup (union_files a b).
Proof.
  unfold union_files. rewrite list_of_set_perm. apply NoDup_elements.
Qed.

Lemma elem_of_union_files (a b : list string) (x : string) :
  x ∈ union_files a b <-> x ∈ a \/ x ∈ b.
Proof.
  unfold union_files. rewrite list_of_set_perm, elem_of_elements.
  rewrite elem_of_union, !elem_of_list_to_set. done.
Qed.

Lemma kept_cons_exclude exclude src rest :
  kept exclude src (exclude :: rest) = kept exclude src rest.
Proof.
  unfold kept. rewrite filter_cons_False; [done|]. intros [? _]. done.
Qed.

Lemma kept_cons_absent exclude src name rest :
  store_get src name = None ->
  kept exclude src (name :: rest) = kept exclude src rest.
Proof.
  intros Hn. unfold kept. rewrite filter_cons_False; [done|].
  intros [_ [d Hd]]. congruence.
Qed.

Lemma kept_cons_present exclude src name d rest :
  name <> exclude -> store_get src name = Some d ->
  kept exclude src (name :: rest) = name :: kept exclude src rest.
Proof.
  intros Hne Hd. unfold kept. rewrite filter_cons_True; [done|].
  split; [done|]. eauto.
Qed.

Lemma not_elem_of_kept_exclude exclude src names :
  exclude ∉ kept exclude src names.
Proof.
  unfold kept. rewrite list_elem_of_filter. intros [[? _] _]. done.
Qed.

Lemma not_elem_of_kept_absent exclude src names name :
  store_get src name = None -> name ∉ kept exclude src names.
Proof.
  intros Hn. unfold kept. rewrite list_elem_of_filter.
  intros [[_ [d Hd]] _]. congruence.
Qed.

(** The normal loop over a list of file names. *)
Lemma normal_codes_names exclude src (names : list string) codes :
  normal_codes exclude src (JStr <$> names) codes
  = Ok (codes ++ (block_of src <$> kept exclude src names)).
Proof.
  revert codes. induction names as [|name rest IH]; intros codes; simpl.
  - by rewrite app_nil_r.
  - case_bool_decide as Heq.
    + subst name. rewrite IH, kept_cons_exclude. done.
    + destruct (store_get src name) as [d|] eqn:Hd.
      * rewrite IH. erewrite kept_cons_present by done.
        rewrite fmap_cons, <- app_assoc. simpl.
        unfold block_of at 2. rewrite Hd. done.
      * rewrite IH. rewrite kept_cons_absent by done. done.
Qed.

(** The incremental loop over a duplicate-free list: the marker, if the
    excluded name is met, goes to the front; plain blocks keep the order of
    the list. *)
Lemma inc_codes_names exclude src old (names : list string) codes :
  NoDup names ->
  inc_codes exclude src old (all_files old) names codes
  = Ok ((if bool_decide (exclude ∈ names) then marker exclude old else [])
        ++ codes ++ (block_of src <$> kept exclude src names)).
Proof.
  intros Hnd. revert codes.
  induction Hnd as [|name rest Hnotin Hnd IH]; intros codes.
  - simpl. by rewrite app_nil_r.
  - cbn [inc_codes]. destruct (decide (name = exclude)) as [Heq|Hne].
    + subst name. rewrite (bool_decide_eq_true_2 (exclude = exclude)) by done.
      rewrite kept_cons_exclude.
      rewrite (bool_decide_eq_true_2 (exclude ∈ exclude :: rest))
        by apply list_elem_of_here.
      unfold marker.
      destruct (bool_decide (exclude ∈ all_files old)
                && negb (bool_decide (exclude = "main.py"))) eqn:Hm.
      * apply andb_prop in Hm as [Hin _].
        apply bool_decide_eq_true_1, elem_of_all_files in Hin.
        destruct Hin as [d Hd]. rewrite Hd. simpl.
        rewrite IH. rewrite bool_decide_eq_false_2 by done. done.
      * rewrite IH. rewrite bool_decide_eq_false_2 by done. done.
    + rewrite (bool_decide_eq_false_2 (name = exclude)) by done.
      assert (bool_decide (exclude ∈ name :: rest)
              = bool_decide (exclude ∈ rest)) as ->.
      { apply bool_decide_ext. rewrite elem_of_cons. intuition congruence. }
      destruct (store_get src name) as [d|] eqn:Hd.
      * rewrite IH. erewrite kept_cons_present by done.
        rewrite fmap_cons, <- !app_assoc. simpl.
        unfold block_of at 2. rewrite Hd. done.
      * rewrite IH. rewrite kept_cons_absent by done. done.
Qed.

Lemma kept_sublist exclude src names : kept exclude src names `sublist_of` names.
Proof. unfold kept. apply sublist_filter. Qed.

Lemma elem_of_kept exclude src names f :
  f ∈ kept exclude src names
  <-> f ∈ names /\ f <> exclude /\ is_Some (store_get src f).
Proof. unfold kept. rewrite list_elem_of_filter. tauto. Qed.

Lemma marker_in_union exclude src old :
  (if bool_decide (exclude ∈ union_files (all_files src) (all_files old))
   then marker exclude old else [])
  = marker exclude old.
Proof.
  case_bool_decide as Hin; [done|].
  unfold marker. case_bool_decide as Hold; [|done].
  exfalso. apply Hin, elem_of_union_files. by right.
Qed.

Lemma marker_present exclude old d :
  store_get old exclude = Some d -> exclude <> "main.py" ->
  marker exclude old = [rewrite_block exclude (content d)].
Proof.
  intros Hd Hne. unfold marker.
  rewrite bool_decide_eq_true_2 by (apply elem_of_all_files; eauto).
  rewrite bool_decide_eq_false_2 by done. simpl. by rewrite Hd.
Qed.

Lemma starts_with_app (p s : string) : starts_with p (p +:+ s) = true.
Proof.
  induction p as [|c p IH]; simpl; [done|].
  rewrite bool_decide_eq_true_2 by done. done.
Qed.

Lemma starts_with_refl (p : string) : starts_with p p = true.
Proof.
  induction p as [|c p IH]; simpl; [done|].
  rewrite bool_decide_eq_true_2 by done. done.
Qed.

Lemma starts_with_join_head sep x rest :
  starts_with x (join sep (x :: rest)) = true.
Proof.
  destruct rest; simpl; [apply starts_with_refl | apply starts_with_app].
Qed.

(** [get_codes] in the incremental scenario, whatever the order of the
    union. *)
Lemma get_codes_inc td exclude project_repo kvs :
  str_truthy (content td) = true ->
  json_loads (content td) = Some (JObj kvs) ->
  get_codes (Some td) exclude project_repo true
  = Ok (join nl
         (marker exclude (old_workspace project_repo)
          ++ (block_of (srcs project_repo)
              <$> kept exclude (srcs project_repo)
                    (union_files (all_files (srcs project_repo))
                       (all_files (old_workspace project_repo)))))).
Proof.
  intros Hc Hm. unfold get_codes, loads. rewrite Hc. simpl. rewrite Hm. simpl.
  rewrite inc_codes_names by apply union_files_NoDup.
  rewrite marker_in_union. simpl. done.
Qed.

(** C7. In the normal scenario the assembled text is made of the blocks of
    the task-list file names that are not the excluded one and are present in
    the source store, in the order of the task list; the excluded file name
    never gets a block. *)
Theorem normal_mode_skips_exclude_keeps_order
    (td : Document) (exclude : string) (project_repo : ProjectRepo)
    (m : json) (names : list string) :
  str_truthy (content td) = true ->
  json_loads (content td) = Some m ->
  py_get m TASK_LIST_key (JArr []) = Ok (JArr (JStr <$> names)) ->
  let included := kept exclude (srcs project_repo) names in
  get_codes (Some td) exclude project_repo false
    = Ok (join nl (block_of (srcs project_repo) <$> included))
  /\ (exclude ∉ included)
  /\ included `sublist_of` names
  /\ (forall f, f ∈ included
        <-> f ∈ names /\ f <> exclude /\ is_Some (store_get (srcs project_repo) f)).
Proof.
  intros Hc Hm Hget included. split; [|split; [|split]].
  - unfold get_codes, loads. rewrite Hc. simpl. rewrite Hm. simpl.
    rewrite Hget. simpl. rewrite normal_codes_names. done.
  - apply not_elem_of_kept_exclude.
  - apply kept_sublist.
  - intros f. apply elem_of_kept.
Qed.

Lemma starts_with_app_r (p s t : string) :
  starts_with p s = true -> starts_with p (s +:+ t) = true.
Proof.
  revert s. induction p as [|c p IH]; intros s; [done|].
  destruct s as [|a s]; simpl; [done|].
  intros [-> Hp]%andb_prop. by rewrite IH.
Qed.

Lemma contains_starts_with (p s : string) :
  starts_with p s = true -> contains p s = true.
Proof. intros H. destruct s; simpl; by rewrite H. Qed.

Lemma contains_app_l (p s t : string) :
  contains p s = true -> contains p (s +:+ t) = true.
Proof.
  induction s as [|c s IH].
  - destruct p; [|done]. intros _. by apply contains_starts_with.
  - cbn [contains]. intros [Hhere|Hlater]%orb_prop.
    + apply contains_starts_with.
      by apply (starts_with_app_r p (String c s) t).
    + change (String c s +:+ t) with (String c (s +:+ t)). cbn [contains].
      rewrite (IH Hlater). by rewrite orb_true_r.
Qed.

Lemma contains_app_r (p a s : string) :
  contains p s = true -> contains p (a +:+ s) = true.
Proof.
  intros H. induction a as [|c a IH]; [done|].
  change (String c a +:+ s) with (String c (a +:+ s)). cbn [contains].
  rewrite IH. by rewrite orb_true_r.
Qed.

Lemma contains_join_head (sep p x : string) (rest : list string) :
  contains p x = true -> contains p (join sep (x :: rest)) = true.
Proof.
  intros H. destruct rest; cbn [join]; [done|]. by apply contains_app_l.
Qed.

(** C6. In the incremental scenario, when the excluded file is in the
    prior-iteration store and is not [main.py], the assembled text starts
    with its rewritten-file marker, whatever the order of the union: the
    line [-----Now, <name> to be rewritten], the prior-iteration content of
    the file between two fences, and the closing line [=====].  The plain
    blocks, each the line [----- <name>] and the content in the current
    source store between two fences, follow in the order of the union. *)
Theorem incremental_marker_first
    (td : Document) (exclude : string) (project_repo : ProjectRepo)
    (kvs : list (string * json)) (d : Document) :
  str_truthy (content td) = true ->
  json_loads (content td) = Some (JObj kvs) ->
  store_get (old_workspace project_repo) exclude = Some d ->
  exclude <> "main.py" ->
  let union_files_list :=
    union_files (all_files (srcs project_repo))
      (all_files (old_workspace project_repo)) in
  let others := kept exclude (srcs project_repo) union_files_list in
  let marker_text :=
    "-----Now, " +:+ exclude +:+ " to be rewritten" +:+ nl
    +:+ "```" +:+ content d +:+ "```" +:+ nl +:+ "=====" in
  let plain_block name :=
    "----- " +:+ name +:+ nl
    +:+ "```" +:+ opt_content (store_get (srcs project_repo) name) +:+ "```" in
  exists text,
    get_codes (Some td) exclude project_repo true = Ok text
    /\ text = join nl (marker_text :: (plain_block <$> others))
    /\ starts_with marker_text text = true
    /\ contains (content d) marker_text = true
    /\ contains (content d) text = true
    /\ others `sublist_of` union_files_list.
Proof.
  intros Hc Hm Hd Hne names others marker_text plain_block.
  assert (contains (content d) marker_text = true) as Hin.
  { unfold marker_text. do 5 apply contains_app_r.
    apply contains_starts_with, starts_with_app. }
  eexists. split; [|split; [|split; [|split; [|split]]]].
  - rewrite (get_codes_inc _ _ _ kvs) by done.
    rewrite (marker_present _ _ d) by done. reflexivity.
  - reflexivity.
  - apply starts_with_join_head.
  - exact Hin.
  - by apply contains_join_head.
  - apply kept_sublist.
Qed.

(** C2 (as amended). In the incremental scenario a file name of the
    prior-iteration store that is not the excluded one and is absent from
    the current source store gets no block: the text is the marker, if any,
    and the blocks of the files of the current source store. *)
Theorem incremental_absent_from_src_skipped
    (td : Document) (exclude : string) (project_repo : ProjectRepo)
    (kvs : list (string * json)) (name : string) :
  str_truthy (content td) = true ->
  json_loads (content td) = Some (JObj kvs) ->
  name ∈ all_files (old_workspace project_repo) ->
  name <> exclude ->
  store_get (srcs project_repo) name = None ->
  let union_files_list :=
    union_files (all_files (srcs project_repo))
      (all_files (old_workspace project_repo)) in
  let others := kept exclude (srcs project_repo) union_files_list in
  name ∈ union_files_list
  /\ (name ∉ others)
  /\ get_codes (Some td) exclude project_repo true
     = Ok (join nl (marker exclude (old_workspace project_repo)
                    ++ (block_of (srcs project_repo) <$> others))).
Proof.
  intros Hc Hm Hold Hne Habs names others. split; [|split].
  - apply elem_of_union_files. by right.
  - by apply not_elem_of_kept_absent.
  - by apply (get_codes_inc _ _ _ kvs).
Qed.


(** *** Further properties of [get_codes] *)

Lemma join_nonempty_head (sep x : string) (rest : list string) :
  x <> EmptyString -> join sep (x :: rest) <> EmptyString.
Proof.
  intros Hx. destruct rest as [|y rest]; simpl; [done|].
  destruct x as [|c x]; [done|]. discriminate.
Qed.

Lemma code_block_nonempty (name body : string) :
  code_block name body <> EmptyString.
Proof. unfold code_block. discriminate. Qed.

Lemma rewrite_block_nonempty (name body : string) :
  rewrite_block name body <> EmptyString.
Proof. unfold rewrite_block. discriminate. Qed.

Lemma join_blocks_empty (src : Store) (names : list string) :
  join nl (block_of src <$> names) = EmptyString <-> names = [].
Proof.
  split; [|by intros ->]. destruct names as [|name names]; [done|].
  intros H. exfalso. revert H. rewrite fmap_cons.
  apply join_nonempty_head, code_block_nonempty.
Qed.

(** X1. In the normal scenario a task document without the task-list key
    gives the empty text, and, for a task list of file names, the text is
    empty exactly when no listed file other than the excluded one is in the
    source store. *)
Theorem normal_mode_empty_text
    (td : Document) (exclude : string) (project_repo : ProjectRepo) :
  str_truthy (content td) = true ->
  (forall kvs,
     json_loads (content td) = Some (JObj kvs) ->
     dict_lookup TASK_LIST_key kvs = None ->
     get_codes (Some td) exclude project_repo false = Ok EmptyString)
  /\ (forall m names,
        json_loads (content td) = Some m ->
        py_get m TASK_LIST_key (JArr []) = Ok (JArr (JStr <$> names)) ->
        (get_codes (Some td) exclude project_repo false = Ok EmptyString
         <-> kept exclude (srcs project_repo) names = [])).
Proof.
  intros Hc. split.
  - intros kvs Hm Hkey. unfold get_codes, loads. rewrite Hc. simpl.
    rewrite Hm. simpl. by rewrite Hkey.
  - intros m names Hm Hget.
    assert (get_codes (Some td) exclude project_repo false
            = Ok (join nl (block_of (srcs project_repo)
                           <$> kept exclude (srcs project_repo) names))) as ->.
    { unfold get_codes, loads. rewrite Hc. simpl. rewrite Hm. simpl.
      rewrite Hget. simpl. by rewrite normal_codes_names. }
    rewrite <- join_blocks_empty. split; [by intros [= ->]|by intros ->].
Qed.

(** X2. [get_codes] handles no failure of its own: a task document whose
    content is not JSON raises the decoding error, one whose JSON is not an
    object raises [AttributeError], in both scenarios; in the normal
    scenario a task list that cannot be iterated raises [TypeError]. *)
Theorem get_codes_unreadable_task_doc
    (td : Document) (exclude : string) (project_repo : ProjectRepo) :
  str_truthy (content td) = true ->
  (json_loads (content td) = None ->
   forall use_inc,
     get_codes (Some td) exclude project_repo use_inc = Raise JSONDecodeError)
  /\ (forall m,
        json_loads (content td) = Some m ->
        (forall kvs, m <> JObj kvs) ->
        forall use_inc,
          get_codes (Some td) exclude project_repo use_inc = Raise AttributeError)
  /\ (forall kvs v,
        json_loads (content td) = Some (JObj kvs) ->
        dict_lookup TASK_LIST_key kvs = Some v ->
        py_iter v = Raise TypeError ->
        get_codes (Some td) exclude project_repo false = Raise TypeError).
Proof.
  intros Hc. split; [|split].
  - intros Hbad use_inc. unfold get_codes, loads. rewrite Hc. simpl.
    by rewrite Hbad.
  - intros m Hm Hnot use_inc. unfold get_codes, loads. rewrite Hc. simpl.
    rewrite Hm. simpl.
    destruct m; try (by destruct use_inc). by destruct (Hnot members).
  - intros kvs v Hm Hkey Hiter. unfold get_codes, loads. rewrite Hc. simpl.
    rewrite Hm. simpl. rewrite Hkey. simpl. by rewrite Hiter.
Qed.

(** X3. In the incremental scenario the task lists play no part: two
    readable task documents give the same text, whatever they list. *)
Theorem incremental_ignores_task_lists
    (td td' : Document) (exclude : string) (project_repo : ProjectRepo)
    (kvs kvs' : list (string * json)) :
  str_truthy (content td) = true ->
  json_loads (content td) = Some (JObj kvs) ->
  str_truthy (content td') = true ->
  json_loads (content td') = Some (JObj kvs') ->
  get_codes (Some td) exclude project_repo true
  = get_codes (Some td') exclude project_repo true.
Proof.
  intros Hc Hm Hc' Hm'.
  by rewrite (get_codes_inc _ _ _ kvs), (get_codes_inc _ _ _ kvs').
Qed.

(** X4. In the incremental scenario the excluded file gets no marker when it
    is [main.py] or when the prior-iteration store does not have it; the text
    is then made of the blocks of the other files of the current source store
    only, so that nothing of the excluded file is in it. *)
Theorem incremental_without_marker
    (td : Document) (exclude : string) (project_repo : ProjectRepo)
    (kvs : list (string * json)) :
  str_truthy (content td) = true ->
  json_loads (content td) = Some (JObj kvs) ->
  exclude = "main.py" \/ store_get (old_workspace project_repo) exclude = None ->
  let others :=
    kept exclude (srcs project_repo)
      (union_files (all_files (srcs project_repo))
         (all_files (old_workspace project_repo))) in
  get_codes (Some td) exclude project_repo true
  = Ok (join nl (block_of (srcs project_repo) <$> others))
  /\ (exclude ∉ others).
Proof.
  intros Hc Hm Hcase others. split; [|apply not_elem_of_kept_exclude].
  rewrite (get_codes_inc _ _ _ kvs) by done.
  assert (marker exclude (old_workspace project_repo) = []) as ->; [|done].
  unfold marker. destruct Hcase as [-> | Hnone].
  - rewrite (bool_decide_eq_true_2 ("main.py" = "main.py")) by done.
    by rewrite andb_false_r.
  - rewrite Hnone. by destruct (_ && _).
Qed.

End Assembly.

(* ===================================================================== *)
(** ** Directories and files *)

Section FileSystem.

Lemma node_at_lookup (fs : FS) (p : path) :
  node_at fs p = if implicit_dir p then Some Dir else fs !! p.
Proof. by destruct p as [|r [|r' p]]. Qed.

Lemma clear_path_take (fs : FS) (p : path) n :
  clear_path fs p = true -> is_file (node_at fs (take n p)) = false.
Proof.
  unfold clear_path. rewrite forallb_forall. intros H.
  destruct (decide (n <= length p)) as [Hle|Hgt].
  - apply negb_true_iff, H, in_seq. lia.
  - rewrite take_ge by lia. rewrite <- (firstn_all p) at 1.
    apply negb_true_iff, H, in_seq. lia.
Qed.

Lemma clear_path_intro (fs : FS) (p : path) :
  (forall n, is_file (node_at fs (take n p)) = false) -> clear_path fs p = true.
Proof.
  intros H. unfold clear_path. apply forallb_forall. intros n _.
  by rewrite H.
Qed.

Lemma clear_path_self (fs : FS) (p : path) :
  clear_path fs p = true -> is_file (node_at fs p) = false.
Proof.
  intros H. rewrite <- (firstn_all p) at 1. by apply clear_path_take.
Qed.

Lemma path_parent_take (p : path) : path_parent p = take (length p - 1) p
                           \/ path_parent p = p.
Proof.
  destruct p as [|r [|r' p]]; [by right| |].
  - simpl. destruct (is_root_part r); auto.
  - left. unfold path_parent. rewrite removelast_firstn_len.
    done.
Qed.

Lemma path_parent_prefix (p : path) : path_parent p `prefix_of` p.
Proof.
  destruct (path_parent_take p) as [-> | ->]; [|done].
  apply prefix_take.
Qed.

Lemma path_parent_length (p : path) : path_parent p <> p -> length (path_parent p) < length p.
Proof.
  intros Hne. destruct (path_parent_take p) as [H|H]; [|done].
  rewrite H, length_take. destruct p; simpl in *; [|lia].
  exfalso. by apply Hne.
Qed.

Lemma implicit_dir_parent (p : path) : implicit_dir p = true -> path_parent p = p.
Proof.
  destruct p as [|r [|r' p]]; simpl; try done. by intros ->.
Qed.

Lemma path_parent_fixed (p : path) : path_parent p = p -> implicit_dir p = true.
Proof.
  destruct p as [|r [|r' p]]; [done| |].
  - simpl. by destruct (is_root_part r).
  - unfold path_parent. rewrite removelast_firstn_len.
    intros H. apply (f_equal length) in H. rewrite length_take in H.
    simpl in H. lia.
Qed.

Lemma clear_path_parent (fs : FS) (p : path) :
  clear_path fs p = true -> clear_path fs (path_parent p) = true.
Proof.
  intros H. apply clear_path_intro. intros n.
  destruct (path_parent_take p) as [-> | ->].
  - rewrite take_take. by apply clear_path_take.
  - by apply clear_path_take.
Qed.

Lemma dirs_added_refl (p : path) (fs : FS) : dirs_added p fs fs.
Proof. intros k. by left. Qed.

Lemma dirs_added_trans (p : path) (fs1 fs2 fs3 : FS) :
  dirs_added p fs1 fs2 -> dirs_added p fs2 fs3 -> dirs_added p fs1 fs3.
Proof.
  intros H12 H23 k. destruct (H12 k) as [E1|(N1 & D1 & P1)];
    destruct (H23 k) as [E2|(N2 & D2 & P2)].
  - left. by rewrite E2.
  - right. rewrite <- E1. done.
  - right. rewrite E2. done.
  - rewrite D1 in N2. done.
Qed.

Lemma dirs_added_weaken (p p' : path) (fs fs' : FS) :
  p `prefix_of` p' -> dirs_added p fs fs' -> dirs_added p' fs fs'.
Proof.
  intros Hp H k. destruct (H k) as [E|(N & D & P)]; [by left|].
  right. repeat split; try done. by etrans.
Qed.

Lemma dirs_added_subseteq (p : path) (fs fs' : FS) : dirs_added p fs fs' -> fs ⊆ fs'.
Proof.
  intros H. apply map_subseteq_spec. intros k n Hk.
  destruct (H k) as [E|(N & _)]; congruence.
Qed.

Lemma dirs_added_is_file (p : path) (fs fs' : FS) (k : path) :
  dirs_added p fs fs' -> is_file (node_at fs' k) = is_file (node_at fs k).
Proof.
  intros H. rewrite !node_at_lookup. destruct (implicit_dir k); [done|].
  destruct (H k) as [->|(-> & -> & _)]; done.
Qed.

Lemma dirs_added_clear (p : path) (fs fs' : FS) (k : path) :
  dirs_added p fs fs' -> clear_path fs k = true -> clear_path fs' k = true.
Proof.
  intros H Hc. apply clear_path_intro. intros n.
  rewrite (dirs_added_is_file p fs) by done. by apply clear_path_take.
Qed.

Lemma subseteq_is_dir (fs fs' : FS) (p : path) :
  fs ⊆ fs' -> fs_is_dir fs p = true -> fs_is_dir fs' p = true.
Proof.
  unfold fs_is_dir. rewrite !node_at_lookup. destruct (implicit_dir p); [done|].
  intros Hsub. destruct (fs !! p) as [[|]|] eqn:E; try done.
  by rewrite (lookup_weaken _ _ _ _ E Hsub).
Qed.

Lemma subseteq_exists (fs fs' : FS) (p : path) :
  fs ⊆ fs' -> fs_exists fs p = true -> fs_exists fs' p = true.
Proof.
  unfold fs_exists. rewrite !node_at_lookup. destruct (implicit_dir p); [done|].
  intros Hsub. destruct (fs !! p) as [n|] eqn:E; try done.
  by rewrite (lookup_weaken _ _ _ _ E Hsub).
Qed.

(** [os.mkdir] adds one directory, at a path that had nothing. *)
Lemma os_mkdir_ok (p : path) (fs fs' : FS) :
  os_mkdir p fs = Ok fs' ->
  fs' = <[p := Dir]> fs /\ fs !! p = None /\ implicit_dir p = false.
Proof.
  unfold os_mkdir. rewrite (node_at_lookup fs p).
  destruct (implicit_dir p); [done|].
  destruct (fs !! p) eqn:E; [done|].
  destruct (node_at fs (path_parent p)) as [[|]|]; try done.
  intros [= <-]. done.
Qed.

Lemma os_mkdir_dirs_added (p : path) (fs fs' : FS) :
  os_mkdir p fs = Ok fs' -> dirs_added p fs fs' /\ fs_is_dir fs' p = true.
Proof.
  intros (-> & Hnone & Himp)%os_mkdir_ok. split.
  - intros k. destruct (decide (k = p)) as [->|Hne].
    + right. by rewrite lookup_insert_eq.
    + left. by rewrite lookup_insert_ne.
  - unfold fs_is_dir. rewrite node_at_lookup, Himp, lookup_insert_eq. done.
Qed.

Lemma mkdir_exist_ok_dirs_added (p : path) (fs fs' : FS) :
  mkdir_exist_ok p fs = Ok fs' -> dirs_added p fs fs' /\ fs_is_dir fs' p = true.
Proof.
  unfold mkdir_exist_ok. destruct (os_mkdir p fs) as [fs1|e] eqn:E.
  - intros [= <-]. by apply os_mkdir_dirs_added.
  - destruct e; try done;
      (destruct (fs_is_dir fs p) eqn:Hd; [|done]; intros [= <-];
       split; [apply dirs_added_refl | done]).
Qed.

(** A successful [mkdir(parents=True, exist_ok=True)] leaves a directory at
    [p], and changes nothing but absent paths above [p]. *)
Lemma mkdir_rec_dirs_added (depth : nat) (p : path) (fs fs' : FS) :
  mkdir_rec depth p fs = Ok fs' -> dirs_added p fs fs' /\ fs_is_dir fs' p = true.
Proof.
  revert p fs fs'. induction depth as [|depth IH]; intros p fs fs'; simpl.
  - destruct (os_mkdir p fs) as [fs1|e] eqn:E.
    + intros [= <-]. by apply os_mkdir_dirs_added.
    + destruct e; try done;
        (destruct (fs_is_dir fs p) eqn:Hd; [|done]; intros [= <-];
         split; [apply dirs_added_refl | done]).
  - destruct (os_mkdir p fs) as [fs1|e] eqn:E.
    + intros [= <-]. by apply os_mkdir_dirs_added.
    + destruct e; try done;
        try (destruct (fs_is_dir fs p) eqn:Hd; [|done]; intros [= <-];
             split; [apply dirs_added_refl | done]).
      case_bool_decide as Hpar; [done|].
      destruct (mkdir_rec depth (path_parent p) fs) as [fs1|e] eqn:E1; [|done].
      simpl. intros H2.
      apply IH in E1 as [Ha1 _].
      apply mkdir_exist_ok_dirs_added in H2 as [Ha2 Hd2].
      split; [|done].
      eapply dirs_added_trans; [|done].
      eapply dirs_added_weaken; [apply path_parent_prefix | done].
Qed.

Lemma mkdir_parents_dirs_added (p : path) (fs fs' : FS) :
  mkdir_parents p fs = Ok fs' -> dirs_added p fs fs' /\ fs_is_dir fs' p = true.
Proof. apply mkdir_rec_dirs_added. Qed.

(** Making a directory that is there changes nothing. *)
Lemma mkdir_parents_is_dir (p : path) (fs : FS) :
  fs_is_dir fs p = true -> mkdir_parents p fs = Ok fs.
Proof.
  unfold mkdir_parents, fs_is_dir. intros Hd.
  assert (os_mkdir p fs = Raise FileExistsError) as E.
  { unfold os_mkdir. by destruct (node_at fs p) as [[|]|]. }
  destruct (length p); simpl; rewrite E; unfold fs_is_dir;
    by destruct (node_at fs p) as [[|]|].
Qed.

(** With no regular file in the way, [mkdir(parents=True, exist_ok=True)]
    succeeds. *)
Lemma mkdir_rec_clear (depth : nat) (p : path) (fs : FS) :
  length p <= depth -> clear_path fs p = true ->
  exists fs', mkdir_rec depth p fs = Ok fs'.
Proof.
  revert p fs. induction depth as [|depth IH]; intros p fs Hlen Hclear.
  - destruct p; [|simpl in Hlen; lia]. by exists fs.
  - pose proof (clear_path_self _ _ Hclear) as Hself.
    simpl. unfold os_mkdir.
    destruct (node_at fs p) as [[body|]|] eqn:Hp; [done| |].
    { unfold fs_is_dir. rewrite Hp. eauto. }
    pose proof (clear_path_self _ _ (clear_path_parent _ _ Hclear)) as Hpar.
    destruct (node_at fs (path_parent p)) as [[body|]|] eqn:Hpp; [done|eauto|].
    assert (implicit_dir p = false) as Himp.
    { rewrite node_at_lookup in Hp. by destruct (implicit_dir p). }
    assert (path_parent p <> p) as Hne.
    { intros Heq%path_parent_fixed. congruence. }
    rewrite bool_decide_eq_false_2 by done.
    pose proof (path_parent_length _ Hne) as Hlt.
    destruct (IH (path_parent p) fs) as [fs1 Hfs1];
      [lia | by apply clear_path_parent |].
    rewrite Hfs1. simpl.
    apply mkdir_rec_dirs_added in Hfs1 as [Hadd Hdir].
    unfold mkdir_exist_ok, os_mkdir.
    assert (node_at fs1 p = None) as ->.
    { rewrite node_at_lookup, Himp. rewrite node_at_lookup, Himp in Hp.
      destruct (Hadd p) as [->|(_ & _ & Hpre)]; [done|].
      apply prefix_length in Hpre. lia. }
    unfold fs_is_dir in Hdir.
    destruct (node_at fs1 (path_parent p)) as [[|]|]; try done. eauto.
Qed.

Lemma mkdir_parents_clear (p : path) (fs : FS) :
  clear_path fs p = true ->
  exists fs', mkdir_parents p fs = Ok fs'
              /\ dirs_added p fs fs' /\ fs_is_dir fs' p = true.
Proof.
  intros Hclear.
  destruct (mkdir_rec_clear (length p) p fs) as [fs' Hfs']; [done..|].
  exists fs'. split; [done|]. by apply mkdir_parents_dirs_added.
Qed.

End FileSystem.

(* ===================================================================== *)
(** ** The critical-file pass *)

Section CriticalFiles.
Context `{Ext : Externals}.

Lemma manifest_event_save (full_path : path) :
  manifest_event full_path (EvStoreSave SrcsStore (path_str full_path)).
Proof. by left. Qed.

Lemma manifest_event_write (full_path : path) :
  manifest_event full_path (EvDirectWrite full_path).
Proof. by right. Qed.

Create HintDb manifest_events.
#[local] Hint Resolve manifest_event_save manifest_event_write Forall_nil_2
  Forall_cons_2 : manifest_events.

Lemma mkdir_run (p : path) (w : World) :
  mkdir p w
  = match mkdir_parents p (fs w) with
    | Ok f => (Ok tt, set_fs (set_trace w (trace w ++ [EvMkdir p])) f)
    | Raise e => (Raise e, set_trace w (trace w ++ [EvMkdir p]))
    end.
Proof. unfold mkdir, bind, emit, modify. simpl. by destruct (mkdir_parents p (fs w)). Qed.

Lemma fs_write_absent (p : path) (body : string) (f : FS) :
  fs_exists f p = false -> fs_is_dir f (path_parent p) = true ->
  fs_write p body f = Ok (<[p := File body]> f) /\ f !! p = None.
Proof.
  unfold fs_exists, fs_is_dir, fs_write. intros Hex Hdir.
  destruct (node_at f p) as [n|] eqn:Hp; [done|].
  destruct (node_at f (path_parent p)) as [[|]|]; try done.
  split; [done|]. rewrite node_at_lookup in Hp. by destruct (implicit_dir p).
Qed.

Lemma srcs_save_outcome (full_path : path) (body : string)
    (deps : list string) (w : World) (f : FS) :
  fs_write full_path body (fs w) = Ok f ->
  exists r w',
    srcs_save full_path body deps w = (r, w')
    /\ trace w' = trace w ++ [EvStoreSave SrcsStore (path_str full_path)]
    /\ ((is_ok r = true /\ fs w' = f) \/ (is_ok r = false /\ fs w' = fs w)).
Proof.
  intros Hw. unfold srcs_save, bind, emit, modify, next_fault, raise. simpl.
  destruct (faults w) as [|[|] rest]; simpl; rewrite ?Hw;
    try destruct (store_put _ _ _ _) as [d s'];
    eexists _, _; (split; [reflexivity|]); simpl; auto.
Qed.

Lemma direct_write_outcome (full_path : path) (body : string)
    (w : World) (f : FS) :
  fs_write full_path body (fs w) = Ok f ->
  exists r w',
    direct_write full_path body w = (r, w')
    /\ trace w' = trace w ++ [EvDirectWrite full_path]
    /\ ((is_ok r = true /\ fs w' = f) \/ (is_ok r = false /\ fs w' = fs w)).
Proof.
  intros Hw. unfold direct_write, bind, emit, modify, next_fault, raise. simpl.
  destruct (faults w) as [|[|] rest]; simpl; rewrite ?Hw;
    eexists _, _; (split; [reflexivity|]); simpl; auto.
Qed.

(** The fallback of the write of one manifest. *)
Lemma direct_write_fallback (full_path : path) (body : string)
    (added : gset string) (w : World) (f : FS) :
  fs_write full_path body (fs w) = Ok f ->
  exists a w',
    try_except
      (direct_write full_path body ;;; ret ({[ path_str full_path ]} ∪ added))
      (fun _ => ret added) w = (Ok a, w')
    /\ trace w' = trace w ++ [EvDirectWrite full_path]
    /\ ((a = {[ path_str full_path ]} ∪ added /\ fs w' = f)
        \/ (a = added /\ fs w' = fs w)).
Proof.
  intros Hw.
  destruct (direct_write_outcome full_path body w f Hw)
    as (r & w' & Hrun & Htr & Hfs).
  unfold try_except, bind. rewrite Hrun.
  destruct r as [[]|e]; simpl in Hfs; unfold ret;
    eexists _, _; (split; [reflexivity|]); (split; [done|]);
    destruct Hfs as [[? ?]|[? ?]]; try done; auto.
Qed.

(** One critical file whose directory can be made: the pass goes through,
    and at most the manifest is added, at a path that had nothing. *)
Lemma ensure_one_ok (cc : CodingContext) (project_dir : path) (added : gset string)
    (file_path body : string) (w : World) (f1 : FS) :
  let full_path := path_div project_dir file_path in
  mkdir_parents (path_parent full_path) (fs w) = Ok f1 ->
  exists a w' t,
    ensure_one cc project_dir added (file_path, body) w = (Ok a, w')
    /\ trace w' = trace w ++ EvMkdir (path_parent full_path) :: t
    /\ Forall (manifest_event full_path) t
    /\ (fs w' = f1
        \/ (f1 !! full_path = None /\ fs w' = <[full_path := File body]> f1))
    /\ (a = added \/ a = {[ path_str full_path ]} ∪ added)
    /\ (fs_exists f1 full_path = true -> a = added /\ t = [] /\ fs w' = f1).
Proof.
  intros full_path Hmk.
  pose proof (mkdir_parents_dirs_added _ _ _ Hmk) as [_ Hdir].
  unfold ensure_one. fold full_path.
  unfold bind at 1. rewrite mkdir_run, Hmk.
  unfold bind at 1. unfold gets at 1. cbn [fs set_fs].
  destruct (fs_exists f1 full_path) eqn:Hex.
  { eexists _, _, []. unfold ret. cbn [trace set_fs set_trace fs].
    repeat split; eauto. }
  destruct (fs_write_absent full_path body f1 Hex Hdir) as [Hw Hnone].
  set (w1 := set_fs (set_trace w (trace w ++ [EvMkdir (path_parent full_path)])) f1).
  assert (fs w1 = f1) as Hfs1 by done.
  assert (trace w1 = trace w ++ [EvMkdir (path_parent full_path)]) as Htr1 by done.
  clearbody w1.
  unfold try_except at 1. unfold bind at 1. unfold lift at 1.
  destruct (rbind (attr (design_doc cc) root_relative_path) _) as [deps|e].
  - unfold bind at 1.
    destruct (srcs_save_outcome full_path body deps w1 (<[full_path := File body]> f1))
      as (r & w2 & Hrun & Htr2 & Hfs2); [by rewrite Hfs1|].
    rewrite Hrun. destruct r as [d|e].
    + unfold ret. eexists _, w2, [_]. split; [reflexivity|].
      destruct Hfs2 as [[_ Hf]|[? _]]; [|done].
      rewrite Htr2, Htr1, <- app_assoc. simpl.
      split; [reflexivity|]. split; [by eauto with manifest_events|].
      split; [by auto|]. split; [by auto|]. done.
    + destruct Hfs2 as [[? _]|[_ Hf]]; [done|].
      destruct (direct_write_fallback full_path body added w2
                  (<[full_path := File body]> f1))
        as (a & w3 & Hrun3 & Htr3 & Hres3); [by rewrite Hf, Hfs1|].
      rewrite Hrun3. eexists a, w3, [_; _]. split; [reflexivity|].
      rewrite Htr3, Htr2, Htr1, <- !app_assoc. simpl.
      split; [reflexivity|]. split; [by eauto 6 with manifest_events|].
      destruct Hres3 as [[-> ->]|[-> ->]]; rewrite ?Hf, ?Hfs1;
        (split; [by auto|]); (split; [by auto|]); done.
  - destruct (direct_write_fallback full_path body added w1
                (<[full_path := File body]> f1))
      as (a & w3 & Hrun3 & Htr3 & Hres3); [by rewrite Hfs1|].
    rewrite Hrun3. eexists a, w3, [_]. split; [reflexivity|].
    rewrite Htr3, Htr1, <- !app_assoc. simpl.
    split; [reflexivity|]. split; [by eauto with manifest_events|].
    destruct Hres3 as [[-> ->]|[-> ->]]; rewrite ?Hfs1;
      (split; [by auto|]); (split; [by auto|]); done.
Qed.

(** One critical file whose directory cannot be made: the failure of
    [mkdir] is the failure of the pass. *)
Lemma ensure_one_raise (cc : CodingContext) (project_dir : path)
    (added : gset string) (file_path body : string) (w : World) (e : pyerr) :
  let full_path := path_div project_dir file_path in
  mkdir_parents (path_parent full_path) (fs w) = Raise e ->
  ensure_one cc project_dir added (file_path, body) w
  = (Raise e, set_trace w (trace w ++ [EvMkdir (path_parent full_path)])).
Proof.
  intros full_path Hmk. unfold ensure_one. fold full_path.
  unfold bind at 1. by rewrite mkdir_run, Hmk.
Qed.

Lemma ensure_critical_files_unfold (cc : CodingContext) (cd : Document) :
  code_doc cc = Some cd -> str_truthy (root_relative_path cd) = true ->
  ensure_critical_files cc
  = (project_dir <- project_dir_step (Path (root_path cd)) (Path (cc_filename cc)) ;;
     fold_m critical_files ∅ (ensure_one cc project_dir)).
Proof. intros Hcd Hrrp. unfold ensure_critical_files. by rewrite Hcd, Hrrp. Qed.

Lemma path_div_name (p : path) (name : string) :
  Path name = [name] -> is_root_part name = false ->
  path_div p name = p ++ [name] /\ path_parent (p ++ [name]) = p.
Proof.
  intros HP Hr. unfold path_div, path_join. rewrite HP. simpl. rewrite Hr.
  split; [done|]. destruct p as [|x p]; simpl; [by rewrite Hr|].
  destruct p as [|y p]; [done|]. simpl.
  change (x :: removelast (y :: p ++ [name]) = x :: y :: p). f_equal.
  change (y :: p ++ [name]) with ((y :: p) ++ [name]).
  by rewrite removelast_last.
Qed.

Lemma manifest_parent (pd : path) :
  path_parent (path_div pd "package.json") = pd.
Proof.
  destruct (path_div_name pd "package.json") as [-> ->]; done.
Qed.

Lemma frontend_div (pd : path) : path_div pd "frontend" = pd ++ ["frontend"].
Proof. by destruct (path_div_name pd "frontend") as [-> _]. Qed.

Lemma backend_div (pd : path) : path_div pd "backend" = pd ++ ["backend"].
Proof. by destruct (path_div_name pd "backend") as [-> _]. Qed.

(** The project-directory step: its value is [project_dir_of]; it makes the
    two sub-area directories exactly when the first part names a project, and
    otherwise does nothing at all. *)
Lemma project_dir_step_run (ws : path) (target : string) (w : World) :
  let pd := project_dir_of ws target in
  if names_project target then
    match mkdir_parents (path_div pd "frontend") (fs w) with
    | Raise e =>
        project_dir_step ws (Path target) w
        = (Raise e, set_trace w (trace w ++ [EvMkdir (path_div pd "frontend")]))
    | Ok fa =>
        match mkdir_parents (path_div pd "backend") fa with
        | Raise e =>
            exists w', project_dir_step ws (Path target) w = (Raise e, w')
              /\ fs w' = fa
              /\ trace w' = trace w ++ [EvMkdir (path_div pd "frontend");
                                         EvMkdir (path_div pd "backend")]
        | Ok fb =>
            exists w', project_dir_step ws (Path target) w = (Ok pd, w')
              /\ fs w' = fb
              /\ trace w' = trace w ++ [EvMkdir (path_div pd "frontend");
                                         EvMkdir (path_div pd "backend")]
        end
    end
  else project_dir_step ws (Path target) w = (Ok pd, w).
Proof.
  unfold names_project, project_dir_of, project_dir_step.
  destruct (Path target) as [|first rest]; [done|].
  destruct (bool_decide (first ∈ well_known_names)); cbn [negb]; [done|].
  destruct (mkdir_parents _ (fs w)) as [fa|e] eqn:Ha.
  - destruct (mkdir_parents _ fa) as [fb|e] eqn:Hb.
    + eexists. unfold bind at 1. rewrite mkdir_run, Ha.
      unfold bind at 1. rewrite mkdir_run. cbn [fs set_fs set_trace].
      rewrite Hb. split; [reflexivity|]. simpl. by rewrite <- app_assoc.
    + eexists. unfold bind at 1. rewrite mkdir_run, Ha.
      unfold bind at 1. rewrite mkdir_run. cbn [fs set_fs set_trace].
      rewrite Hb. split; [reflexivity|]. simpl. by rewrite <- app_assoc.
  - unfold bind at 1. by rewrite mkdir_run, Ha.
Qed.

(** The pass over [critical_files], from a world [w]: with the project
    directory made, the manifest is written if it is absent; otherwise the
    failure of [mkdir] ends the pass. *)
Lemma manifest_pass (cc : CodingContext) (pd : path) (w : World) :
  let full_path := path_div pd "package.json" in
  match mkdir_parents pd (fs w) with
  | Ok f1 =>
      exists a w' t,
        fold_m critical_files ∅ (ensure_one cc pd) w = (Ok a, w')
        /\ trace w' = trace w ++ EvMkdir pd :: t
        /\ Forall (manifest_event full_path) t
        /\ (fs w' = f1
            \/ (f1 !! full_path = None
                /\ fs w' = <[full_path := File (join nl package_json_lines)]> f1))
        /\ (a = ∅ \/ a = {[ path_str full_path ]})
        /\ (fs_exists f1 full_path = true -> a = ∅ /\ t = [] /\ fs w' = f1)
  | Raise e =>
      fold_m critical_files ∅ (ensure_one cc pd) w
      = (Raise e, set_trace w (trace w ++ [EvMkdir pd]))
  end.
Proof.
  intros full_path. unfold critical_files. cbn [fold_m].
  destruct (mkdir_parents pd (fs w)) as [f1|e] eqn:Hmk.
  - destruct (ensure_one_ok cc pd ∅ "package.json"
                (join nl package_json_lines) w f1)
      as (a & w' & t & Hrun & Htr & Hev & Hfs & Ha & Hex).
    { by rewrite manifest_parent. }
    rewrite manifest_parent in Htr.
    exists a, w', t. unfold bind at 1. rewrite Hrun. unfold ret.
    split; [done|]. split; [done|]. split; [done|]. split; [|split].
    + done.
    + destruct Ha as [->| ->]; [by left|right]. by rewrite union_empty_r_L.
    + done.
  - unfold bind at 1. rewrite ensure_one_raise with (e := e).
    + by rewrite manifest_parent.
    + by rewrite manifest_parent.
Qed.

(** Once the directories and the manifest are there, the pass changes no
    file and reports nothing created. *)
Lemma ensure_settled (cc : CodingContext) (cd : Document) (w : World) :
  code_doc cc = Some cd ->
  let pd := project_dir_of (Path (root_path cd)) (cc_filename cc) in
  (names_project (cc_filename cc) = true ->
   fs_is_dir (fs w) (path_div pd "frontend") = true
   /\ fs_is_dir (fs w) (path_div pd "backend") = true) ->
  fs_is_dir (fs w) pd = true ->
  fs_exists (fs w) (manifest_path cc cd) = true ->
  exists w2, ensure_critical_files cc w = (Ok ∅, w2) /\ fs w2 = fs w.
Proof.
  intros Hcd pd Hsub Hpd Hex.
  destruct (str_truthy (root_relative_path cd)) eqn:Hrrp; cycle 1.
  { exists w. unfold ensure_critical_files. by rewrite Hcd, Hrrp. }
  rewrite (ensure_critical_files_unfold cc cd) by done.
  pose proof (project_dir_step_run (Path (root_path cd)) (cc_filename cc) w)
    as Hstep. fold pd in Hstep. cbv zeta in Hstep.
  assert (exists w0, project_dir_step (Path (root_path cd))
                       (Path (cc_filename cc)) w = (Ok pd, w0)
                     /\ fs w0 = fs w) as (w0 & Hrun0 & Hfs0).
  { destruct (names_project (cc_filename cc)); [|by exists w].
    destruct Hsub as [Hfe Hbe]; [done|].
    rewrite (mkdir_parents_is_dir _ _ Hfe) in Hstep.
    rewrite (mkdir_parents_is_dir _ _ Hbe) in Hstep.
    destruct Hstep as (w0 & ? & ? & _). by exists w0. }
  unfold bind at 1. rewrite Hrun0.
  pose proof (manifest_pass cc pd w0) as Hpass. cbv zeta in Hpass.
  rewrite Hfs0, (mkdir_parents_is_dir _ _ Hpd) in Hpass.
  destruct Hpass as (a & w2 & t & Hrun & _ & _ & _ & _ & Hsame).
  destruct Hsame as (-> & _ & Hfs2); [done|].
  by exists w2.
Qed.

(** What a run of the pass leaves behind: every node that was there, and,
    when the pass returns, the directories it needed. *)
Lemma ensure_run (cc : CodingContext) (cd : Document) (w w1 : World)
    (r1 : result (gset string)) :
  code_doc cc = Some cd ->
  str_truthy (root_relative_path cd) = true ->
  ensure_critical_files cc w = (r1, w1) ->
  let pd := project_dir_of (Path (root_path cd)) (cc_filename cc) in
  fs w ⊆ fs w1
  /\ (is_ok r1 = true ->
      fs_is_dir (fs w1) pd = true
      /\ (names_project (cc_filename cc) = true ->
          fs_is_dir (fs w1) (path_div pd "frontend") = true
          /\ fs_is_dir (fs w1) (path_div pd "backend") = true)).
Proof.
  intros Hcd Hrrp Hrun pd.
  rewrite (ensure_critical_files_unfold cc cd) in Hrun by done.
  pose proof (project_dir_step_run (Path (root_path cd)) (cc_filename cc) w)
    as Hstep. fold pd in Hstep. cbv zeta in Hstep.
  unfold bind at 1 in Hrun.
  (* the world [w0] after the project-directory step *)
  assert (forall w0 : World,
    fs w ⊆ fs w0 ->
    (names_project (cc_filename cc) = true ->
     fs_is_dir (fs w0) (path_div pd "frontend") = true
     /\ fs_is_dir (fs w0) (path_div pd "backend") = true) ->
    fold_m critical_files ∅ (ensure_one cc pd) w0 = (r1, w1) ->
    fs w ⊆ fs w1
    /\ (is_ok r1 = true ->
        fs_is_dir (fs w1) pd = true
        /\ (names_project (cc_filename cc) = true ->
            fs_is_dir (fs w1) (path_div pd "frontend") = true
            /\ fs_is_dir (fs w1) (path_div pd "backend") = true))) as Hfold.
  { intros w0 Hsub0 Hdirs0 Hrun0.
    pose proof (manifest_pass cc pd w0) as Hpass. cbv zeta in Hpass.
    destruct (mkdir_parents pd (fs w0)) as [f1|e] eqn:Hmk.
    - destruct Hpass as (a & w' & t & Hrun' & _ & _ & Hfs & _).
      rewrite Hrun' in Hrun0. injection Hrun0 as <- <-.
      apply mkdir_parents_dirs_added in Hmk as [Hadd Hdir].
      apply dirs_added_subseteq in Hadd.
      assert (f1 ⊆ fs w') as Hsub1.
      { destruct Hfs as [->|[? ->]]; [done|]. by apply insert_subseteq. }
      split; [by etrans; [|etrans]|]. intros _. split.
      + by apply (subseteq_is_dir f1).
      + intros Hnp. destruct (Hdirs0 Hnp) as [Hfe Hbe].
        split; (apply (subseteq_is_dir (fs w0)); [by etrans|done]).
    - rewrite Hpass in Hrun0. injection Hrun0 as <- <-. split; done. }
  destruct (names_project (cc_filename cc)) eqn:Hnp.
  - destruct (mkdir_parents (path_div pd "frontend") (fs w)) as [fa|e] eqn:Ha.
    + apply mkdir_parents_dirs_added in Ha as [Hadd_a Hdir_a].
      apply dirs_added_subseteq in Hadd_a.
      destruct (mkdir_parents (path_div pd "backend") fa) as [fb|e] eqn:Hb.
      * destruct Hstep as (w0 & Hrun0 & Hfs0 & _). rewrite Hrun0 in Hrun.
        apply mkdir_parents_dirs_added in Hb as [Hadd_b Hdir_b].
        apply dirs_added_subseteq in Hadd_b.
        apply (Hfold w0); [by rewrite Hfs0; etrans| |done].
        intros _. rewrite Hfs0. split; [by apply (subseteq_is_dir fa)|done].
      * destruct Hstep as (w0 & Hrun0 & Hfs0 & _). rewrite Hrun0 in Hrun.
        injection Hrun as <- <-. rewrite Hfs0. split; done.
    + rewrite Hstep in Hrun. injection Hrun as <- <-. split; done.
  - rewrite Hstep in Hrun. apply (Hfold w); done.
Qed.

(** The pass never changes a node of the file system that is there. *)
Lemma ensure_keeps_files (cc : CodingContext) (w w1 : World)
    (r1 : result (gset string)) :
  ensure_critical_files cc w = (r1, w1) -> fs w ⊆ fs w1.
Proof.
  intros Hrun. destruct (code_doc cc) as [cd|] eqn:Hcd.
  - destruct (str_truthy (root_relative_path cd)) eqn:Hrrp.
    + by destruct (ensure_run cc cd w w1 r1 Hcd Hrrp Hrun).
    + unfold ensure_critical_files in Hrun. rewrite Hcd, Hrrp in Hrun.
      by injection Hrun as <- <-.
  - unfold ensure_critical_files in Hrun. rewrite Hcd in Hrun.
    by injection Hrun as <- <-.
Qed.

(** C8. The critical-file pass never overwrites: every node of the file
    system that was there is there unchanged after the pass; and once the
    manifest is there after a pass that returned, a second pass on the same
    target leaves the file system as it is and reports no file created. *)
Theorem ensure_critical_files_idempotent
    (cc : CodingContext) (cd : Document) (w w1 : World)
    (r1 : result (gset string)) :
  code_doc cc = Some cd ->
  ensure_critical_files cc w = (r1, w1) ->
  fs w ⊆ fs w1
  /\ (forall (k : path) (body : string),
        fs w !! k = Some (File body) -> fs w1 !! k = Some (File body))
  /\ (is_ok r1 = true ->
      fs_exists (fs w1) (manifest_path cc cd) = true ->
      exists w2, ensure_critical_files cc w1 = (Ok ∅, w2) /\ fs w2 = fs w1).
Proof.
  intros Hcd Hrun.
  pose proof (ensure_keeps_files cc w w1 r1 Hrun) as Hsub.
  split; [done|]. split.
  { intros k body Hk. by eapply lookup_weaken. }
  intros Hok Hex.
  destruct (str_truthy (root_relative_path cd)) eqn:Hrrp; cycle 1.
  { exists w1. unfold ensure_critical_files. by rewrite Hcd, Hrrp. }
  destruct (ensure_run cc cd w w1 r1 Hcd Hrrp Hrun) as [_ Hdirs].
  destruct (Hdirs Hok) as [Hpd Hsubdirs].
  by apply (ensure_settled cc cd w1).
Qed.

(** A target under a project directory, with no regular file in the way of
    the two sub-area directories: the pass returns, and has made them before
    it turns to the manifest. *)
Lemma ensure_nested_ok (cc : CodingContext) (cd : Document) (w : World) :
  code_doc cc = Some cd ->
  str_truthy (root_relative_path cd) = true ->
  names_project (cc_filename cc) = true ->
  let pd := project_dir_of (Path (root_path cd)) (cc_filename cc) in
  let frontend_dir := path_div pd "frontend" in
  let backend_dir := path_div pd "backend" in
  clear_path (fs w) frontend_dir = true ->
  clear_path (fs w) backend_dir = true ->
  exists a w' t,
    ensure_critical_files cc w = (Ok a, w')
    /\ fs_is_dir (fs w') frontend_dir = true
    /\ fs_is_dir (fs w') backend_dir = true
    /\ trace w' = trace w ++ EvMkdir frontend_dir :: EvMkdir backend_dir
                             :: EvMkdir pd :: t
    /\ Forall (manifest_event (path_div pd "package.json")) t.
Proof.
  intros Hcd Hrrp Hnp pd frontend_dir backend_dir Hclear_fe Hclear_be.
  pose proof (project_dir_step_run (Path (root_path cd)) (cc_filename cc) w)
    as Hstep.
  fold pd in Hstep. cbv zeta in Hstep.
  rewrite (ensure_critical_files_unfold cc cd) by done.
  rewrite Hnp in Hstep.
  destruct (mkdir_parents_clear frontend_dir (fs w) Hclear_fe)
    as (fa & Ha & Hadd_a & Hdir_a).
  fold frontend_dir backend_dir in Hstep. rewrite Ha in Hstep.
  destruct (mkdir_parents_clear backend_dir fa) as (fb & Hb & Hadd_b & Hdir_b).
  { by eapply dirs_added_clear. }
  rewrite Hb in Hstep. destruct Hstep as (w0 & Hrun0 & Hfs0 & Htr0).
  assert (clear_path fb pd = true) as Hclear_pd.
  { eapply dirs_added_clear; [done|]. eapply dirs_added_clear; [done|].
    replace pd with (path_parent frontend_dir); [by apply clear_path_parent|].
    unfold frontend_dir. rewrite frontend_div.
    by destruct (path_div_name pd "frontend") as [_ ->]. }
  destruct (mkdir_parents_clear pd fb Hclear_pd) as (f1 & H1 & Hadd_1 & Hdir_1).
  pose proof (manifest_pass cc pd w0) as Hpass. cbv zeta in Hpass.
  rewrite Hfs0, H1 in Hpass.
  destruct Hpass as (a & w' & t & Hrun & Htr & Hev & Hfs & _).
  exists a, w', t. unfold bind at 1. rewrite Hrun0. split; [done|].
  assert (fb ⊆ fs w') as Hsub.
  { etrans; [by eapply dirs_added_subseteq|].
    destruct Hfs as [->|[? ->]]; [done|]. by apply insert_subseteq. }
  split; [|split; [|split]].
  - apply (subseteq_is_dir fa); [|done].
    etrans; [by eapply dirs_added_subseteq|done].
  - by apply (subseteq_is_dir fb).
  - rewrite Htr, Htr0, <- app_assoc. done.
  - done.
Qed.

(** A target right under the workspace: whatever the outcome, the pass
    makes the workspace directory and turns to the manifest, and the paths of
    the two sub-area directories are as they were. *)
Lemma ensure_flat_run (cc : CodingContext) (cd : Document) (w w' : World)
    (r : result (gset string)) :
  code_doc cc = Some cd ->
  str_truthy (root_relative_path cd) = true ->
  names_project (cc_filename cc) = false ->
  let ws := Path (root_path cd) in
  project_dir_of ws (cc_filename cc) = ws ->
  ensure_critical_files cc w = (r, w') ->
  (exists t, trace w' = trace w ++ EvMkdir ws :: t
             /\ Forall (manifest_event (path_div ws "package.json")) t)
  /\ fs w' !! path_div ws "frontend" = fs w !! path_div ws "frontend"
  /\ fs w' !! path_div ws "backend" = fs w !! path_div ws "backend"
  /\ (clear_path (fs w) ws = true -> is_ok r = true).
Proof.
  intros Hcd Hrrp Hnp ws Hpd Hrun.
  pose proof (project_dir_step_run ws (cc_filename cc) w) as Hstep.
  cbv zeta in Hstep.
  rewrite (ensure_critical_files_unfold cc cd) in Hrun by done. fold ws in Hrun.
  rewrite Hnp, Hpd in Hstep. unfold bind at 1 in Hrun. rewrite Hstep in Hrun.
  pose proof (manifest_pass cc ws w) as Hpass. cbv zeta in Hpass.
  destruct (mkdir_parents ws (fs w)) as [f1|e] eqn:Hmk.
  - destruct Hpass as (a & w1 & t & Hrun' & Htr & Hev & Hfs & _).
    rewrite Hrun' in Hrun. injection Hrun as <- <-.
    split; [by exists t|].
    apply mkdir_parents_dirs_added in Hmk as [Hadd _].
    assert (forall name : string,
      Path name = [name] -> is_root_part name = false ->
      name <> "package.json" ->
      fs w1 !! path_div ws name = fs w !! path_div ws name) as Hsame.
    { intros name HP Hroot Hne.
      destruct (path_div_name ws name HP Hroot) as [Hdiv _].
      assert (fs w1 !! path_div ws name = f1 !! path_div ws name) as ->.
      { destruct Hfs as [->|[_ ->]]; [done|].
        apply lookup_insert_ne.
        destruct (path_div_name ws "package.json") as [-> _]; [done..|].
        rewrite Hdiv. intros [_ ?]%app_inj_tail. done. }
      destruct (Hadd (path_div ws name)) as [->|(_ & _ & Hpre)]; [done|].
      apply prefix_length in Hpre. rewrite Hdiv, length_app in Hpre.
      simpl in Hpre. lia. }
    split; [by apply Hsame|]. split; [by apply Hsame|]. done.
  - rewrite Hpass in Hrun. injection Hrun as <- <-.
    split; [by exists []|]. split; [done|]. split; [done|].
    intros Hclear. destruct (mkdir_parents_clear ws (fs w) Hclear) as (? & ? & _).
    congruence.
Qed.

Lemma names_project_cons (target first : string) (rest : path) :
  Path target = first :: rest ->
  names_project target = negb (bool_decide (first ∈ well_known_names)).
Proof. intros HP. unfold names_project. by rewrite HP. Qed.

Lemma project_dir_of_cons (ws : path) (target first : string) (rest : path) :
  Path target = first :: rest ->
  project_dir_of ws target
  = if bool_decide (first ∈ well_known_names) then ws else path_div ws first.
Proof. intros HP. unfold project_dir_of. by rewrite HP. Qed.

(** C9. The first part of the target file name, when it is none of
    [frontend], [backend], [package.json], names the project directory under
    the workspace, and the two sub-area directories are made under it before
    the manifest is written; when it is one of those names, the project
    directory is the workspace itself and the pass makes no sub-area
    directory. *)
Theorem ensure_project_root
    (cc : CodingContext) (cd : Document) (w : World) :
  code_doc cc = Some cd ->
  str_truthy (root_relative_path cd) = true ->
  let ws := Path (root_path cd) in
  let pd := project_dir_of ws (cc_filename cc) in
  let frontend_dir := path_div pd "frontend" in
  let backend_dir := path_div pd "backend" in
  (forall first rest,
     Path (cc_filename cc) = first :: rest -> first ∉ well_known_names ->
     pd = path_div ws first
     /\ (clear_path (fs w) frontend_dir = true ->
         clear_path (fs w) backend_dir = true ->
         exists a w' t,
           ensure_critical_files cc w = (Ok a, w')
           /\ fs_is_dir (fs w') frontend_dir = true
           /\ fs_is_dir (fs w') backend_dir = true
           /\ trace w' = trace w ++ EvMkdir frontend_dir :: EvMkdir backend_dir
                                    :: EvMkdir pd :: t
           /\ Forall (manifest_event (path_div pd "package.json")) t))
  /\ (forall first rest,
        Path (cc_filename cc) = first :: rest -> first ∈ well_known_names ->
        pd = ws
        /\ forall r w',
             ensure_critical_files cc w = (r, w') ->
             (exists t, trace w' = trace w ++ EvMkdir ws :: t
                        /\ Forall (manifest_event (path_div ws "package.json")) t)
             /\ fs w' !! path_div ws "frontend" = fs w !! path_div ws "frontend"
             /\ fs w' !! path_div ws "backend" = fs w !! path_div ws "backend").
Proof.
  intros Hcd Hrrp ws pd frontend_dir backend_dir. split.
  - intros first rest Hparts Hfirst.
    assert (pd = path_div ws first) as Hpd.
    { unfold pd. rewrite (project_dir_of_cons _ _ _ _ Hparts).
      by rewrite bool_decide_eq_false_2. }
    split; [done|]. intros Hclear_fe Hclear_be.
    apply (ensure_nested_ok cc cd w); try done.
    rewrite (names_project_cons _ _ _ Hparts).
    by rewrite bool_decide_eq_false_2.
  - intros first rest Hparts Hfirst.
    assert (pd = ws) as Hpd.
    { unfold pd. rewrite (project_dir_of_cons _ _ _ _ Hparts).
      by rewrite bool_decide_eq_true_2. }
    split; [done|]. intros r w' Hrun.
    destruct (ensure_flat_run cc cd w w' r) as (Ht & Hfe & Hbe & _); try done.
    rewrite (names_project_cons _ _ _ Hparts).
    by rewrite bool_decide_eq_true_2.
Qed.

(** The pass returns when no regular file is in the way of the directories
    it makes. *)
Lemma ensure_total (cc : CodingContext) (w : World) :
  ensure_unobstructed cc (fs w) = true ->
  exists a w', ensure_critical_files cc w = (Ok a, w').
Proof.
  unfold ensure_unobstructed. intros Hclear.
  destruct (code_doc cc) as [cd|] eqn:Hcd; cycle 1.
  { exists ∅, w. unfold ensure_critical_files. by rewrite Hcd. }
  destruct (str_truthy (root_relative_path cd)) eqn:Hrrp; cycle 1.
  { exists ∅, w. unfold ensure_critical_files. by rewrite Hcd, Hrrp. }
  destruct (names_project (cc_filename cc)) eqn:Hnp.
  - apply andb_prop in Hclear as [Hfe Hbe].
    destruct (ensure_nested_ok cc cd w) as (a & w' & _ & Hrun & _); try done.
    by exists a, w'.
  - destruct (ensure_critical_files cc w) as [r w'] eqn:Hrun.
    assert (project_dir_of (Path (root_path cd)) (cc_filename cc)
            = Path (root_path cd)) as Hpd.
    { unfold names_project in Hnp. unfold project_dir_of.
      destruct (Path (cc_filename cc)) as [|first rest]; [done|].
      by destruct (bool_decide (first ∈ well_known_names)). }
    rewrite Hpd in Hclear.
    destruct (ensure_flat_run cc cd w w' r) as (_ & _ & _ & Hok); try done.
    destruct r as [a|e]; [by exists a, w'|]. by specialize (Hok Hclear).
Qed.

(** Whatever its outcome, the pass adds storage events only. *)
Lemma ensure_trace (cc : CodingContext) (w w' : World)
    (r : result (gset string)) :
  ensure_critical_files cc w = (r, w') ->
  exists t, trace w' = trace w ++ t /\ Forall storage_event t.
Proof.
  intros Hrun.
  assert (forall p t, Forall (manifest_event p) t -> Forall storage_event t)
    as Hmanifest.
  { intros p t H. eapply Forall_impl; [done|]. by intros e [-> | ->]. }
  destruct (code_doc cc) as [cd|] eqn:Hcd; cycle 1.
  { unfold ensure_critical_files in Hrun. rewrite Hcd in Hrun.
    injection Hrun as <- <-. exists []. by rewrite app_nil_r. }
  destruct (str_truthy (root_relative_path cd)) eqn:Hrrp; cycle 1.
  { unfold ensure_critical_files in Hrun. rewrite Hcd, Hrrp in Hrun.
    injection Hrun as <- <-. exists []. by rewrite app_nil_r. }
  rewrite (ensure_critical_files_unfold cc cd) in Hrun by done.
  pose proof (project_dir_step_run (Path (root_path cd)) (cc_filename cc) w)
    as Hstep. cbv zeta in Hstep.
  set (pd := project_dir_of (Path (root_path cd)) (cc_filename cc)) in *.
  unfold bind at 1 in Hrun.
  assert (forall w0 t0, trace w0 = trace w ++ t0 -> Forall storage_event t0 ->
    fold_m critical_files ∅ (ensure_one cc pd) w0 = (r, w') ->
    exists t, trace w' = trace w ++ t /\ Forall storage_event t) as Hfold.
  { intros w0 t0 Htr0 Hev0 Hrun0.
    pose proof (manifest_pass cc pd w0) as Hpass. cbv zeta in Hpass.
    destruct (mkdir_parents pd (fs w0)) as [f1|e].
    - destruct Hpass as (a & w1 & t & Hrun1 & Htr1 & Hev1 & _).
      rewrite Hrun1 in Hrun0. injection Hrun0 as <- <-.
      exists (t0 ++ EvMkdir pd :: t). rewrite Htr1, Htr0, <- app_assoc.
      split; [done|]. apply Forall_app. split; [done|].
      constructor; [done|]. by eapply Hmanifest.
    - rewrite Hpass in Hrun0. injection Hrun0 as <- <-.
      exists (t0 ++ [EvMkdir pd]). cbn [trace set_trace].
      rewrite Htr0, <- app_assoc. split; [done|].
      apply Forall_app. split; [done|]. by repeat constructor. }
  destruct (names_project (cc_filename cc)).
  - destruct (mkdir_parents (path_div pd "frontend") (fs w)) as [fa|e].
    + destruct (mkdir_parents (path_div pd "backend") fa) as [fb|e].
      * destruct Hstep as (w0 & Hrun0 & _ & Htr0). rewrite Hrun0 in Hrun.
        eapply Hfold; [done| |done]. by repeat constructor.
      * destruct Hstep as (w0 & Hrun0 & _ & Htr0). rewrite Hrun0 in Hrun.
        injection Hrun as <- <-. eexists. split; [done|]. by repeat constructor.
    + rewrite Hstep in Hrun. injection Hrun as <- <-.
      eexists. split; [done|]. by repeat constructor.
  - rewrite Hstep in Hrun. apply (Hfold w []); [by rewrite app_nil_r|done|done].
Qed.

(** *** The write of the manifest, case by case *)

Lemma ensure_one_unfold (cc : CodingContext) (pd : path) (added : gset string)
    (file_path body : string) :
  ensure_one cc pd added (file_path, body)
  = (mkdir (path_parent (path_div pd file_path)) ;;;
     file_exists <- gets (fun w => fs_exists (fs w) (path_div pd file_path)) ;;
     if file_exists : bool then ret added
     else write_absent cc (path_div pd file_path) body added).
Proof. reflexivity. Qed.

Lemma dirs_made_refl (pd : path) (w : World) : dirs_made pd w w.
Proof.
  repeat split; auto. exists []. by rewrite app_nil_r.
Qed.

Lemma dirs_made_trans (pd : path) (w1 w2 w3 : World) :
  dirs_made pd w1 w2 -> dirs_made pd w2 w3 -> dirs_made pd w1 w3.
Proof.
  intros (Hr1 & Hf1 & Hb1 & Hk1 & t1 & Ht1 & He1)
         (Hr2 & Hf2 & Hb2 & Hk2 & t2 & Ht2 & He2).
  split; [congruence|]. split; [congruence|]. split; [congruence|]. split.
  - intros k. destruct (Hk1 k) as [E1|(N1 & D1 & M1)],
      (Hk2 k) as [E2|(N2 & D2 & M2)].
    + left. congruence.
    + right. split; [congruence|]. done.
    + right. split; [done|]. split; [congruence|]. done.
    + congruence.
  - exists (t1 ++ t2). rewrite Ht2, Ht1, <- app_assoc. split; [done|].
    by apply Forall_app.
Qed.

(** One [mkdir]: on success the directories it adds are at its path or
    above; on failure only the trace has grown. *)
Lemma mkdir_made (pd p : path) (w w' : World) (r : result unit) :
  made_for pd p ->
  mkdir p w = (r, w') ->
  dirs_made pd w w'
  /\ trace w' = trace w ++ [EvMkdir p]
  /\ match r with
     | Ok _ => fs_is_dir (fs w') p = true
     | Raise e => mkdir_parents p (fs w) = Raise e
     end.
Proof.
  intros Hp. rewrite mkdir_run.
  destruct (mkdir_parents p (fs w)) as [f|e] eqn:Hmk; intros [= <- <-].
  - apply mkdir_parents_dirs_added in Hmk as [Hadd Hdir].
    split; [|done]. repeat split; try done.
    + intros k. destruct (Hadd k) as [?|(? & ? & Hpre)]; [by left|right].
      split; [done|]. split; [done|].
      destruct Hp as [Hp|Hp]; [left|right]; by etrans.
    + exists [EvMkdir p]. split; [done|]. by repeat constructor.
  - split; [|done]. repeat split; try done.
    + intros k. by left.
    + exists [EvMkdir p]. split; [done|]. by repeat constructor.
Qed.

Lemma made_for_frontend (pd : path) : made_for pd (path_div pd "frontend").
Proof. by left. Qed.

Lemma made_for_backend (pd : path) : made_for pd (path_div pd "backend").
Proof. by right. Qed.

Lemma made_for_project_dir (pd : path) : made_for pd pd.
Proof. left. rewrite frontend_div. by apply prefix_app_r. Qed.

(** The manifest is at none of the paths at which directories are made. *)
Lemma manifest_not_made (pd : path) :
  ~ made_for pd (path_div pd "package.json").
Proof.
  destruct (path_div_name pd "package.json") as [-> _]; [done..|].
  unfold made_for. rewrite frontend_div, backend_div.
  intros [H|H]; apply prefix_app_inv in H; by apply prefix_cons_inv_1 in H.
Qed.

Lemma manifest_absent (pd : path) (f : FS) :
  fs_exists f (path_div pd "package.json") = false
  <-> f !! path_div pd "package.json" = None.
Proof.
  unfold fs_exists. rewrite node_at_lookup.
  destruct (path_div_name pd "package.json") as [-> _]; [done..|].
  assert (implicit_dir (pd ++ ["package.json"]) = false) as ->.
  { by destruct pd as [|x [|y pd]]. }
  by destruct (f !! (pd ++ ["package.json"])).
Qed.

(** The project-directory step makes directories and nothing else. *)
Lemma project_dir_step_made (ws : path) (target : string) (w w0 : World)
    (r : result path) :
  project_dir_step ws (Path target) w = (r, w0) ->
  let pd := project_dir_of ws target in
  dirs_made pd w w0 /\ (forall pd', r = Ok pd' -> pd' = pd).
Proof.
  unfold project_dir_of, project_dir_step.
  destruct (Path target) as [|first rest].
  { intros [= <- <-]. split; [apply dirs_made_refl|]. by intros ? [= <-]. }
  destruct (bool_decide (first ∈ well_known_names)).
  { intros [= <- <-]. split; [apply dirs_made_refl|]. by intros ? [= <-]. }
  set (pd := path_div ws first). cbv zeta. unfold bind at 1.
  destruct (mkdir (path_div pd "frontend") w) as [[[]|e] w1] eqn:H1.
  - apply (mkdir_made pd) in H1 as (Hm1 & _); [|apply made_for_frontend].
    unfold bind at 1.
    destruct (mkdir (path_div pd "backend") w1) as [[[]|e] w2] eqn:H2;
      apply (mkdir_made pd) in H2 as (Hm2 & _); try apply made_for_backend;
      intros [= <- <-]; (split; [by eapply dirs_made_trans|]); by intros ? [= <-].
  - apply (mkdir_made pd) in H1 as (Hm1 & _); [|apply made_for_frontend].
    intros [= <- <-]. split; [done|]. by intros ? [=].
Qed.

(** A run of the pass inside its guard: either a [mkdir] has failed, or the
    directories are made and the manifest, if it is absent then, is
    written. *)
Lemma ensure_critical_files_cases (cc : CodingContext) (cd : Document)
    (w w' : World) (r : result (gset string)) :
  code_doc cc = Some cd ->
  str_truthy (root_relative_path cd) = true ->
  ensure_critical_files cc w = (r, w') ->
  let pd := project_dir_of (Path (root_path cd)) (cc_filename cc) in
  (is_ok r = false /\ dirs_made pd w w')
  \/ exists w0,
       dirs_made pd w w0 /\ fs_is_dir (fs w0) pd = true
       /\ (r, w') = if fs_exists (fs w0) (manifest_path cc cd) then (Ok ∅, w0)
                    else write_absent cc (manifest_path cc cd)
                           default_manifest ∅ w0.
Proof.
  intros Hcd Hrrp Hrun pd.
  rewrite (ensure_critical_files_unfold cc cd) in Hrun by done.
  unfold bind at 1 in Hrun.
  destruct (project_dir_step _ _ w) as [[pd'|e] w1] eqn:Hstep;
    apply project_dir_step_made in Hstep as [Hm1 Hpd]; fold pd in Hm1, Hpd;
    cycle 1.
  { injection Hrun as <- <-. by left. }
  rewrite (Hpd pd' eq_refl) in Hrun. clear Hpd pd'.
  unfold critical_files in Hrun. cbn [fold_m] in Hrun.
  unfold bind at 1 in Hrun. rewrite ensure_one_unfold in Hrun.
  unfold bind at 1 in Hrun. rewrite manifest_parent in Hrun.
  destruct (mkdir pd w1) as [[[]|e] w2] eqn:H2;
    apply (mkdir_made pd) in H2 as (Hm2 & _ & Hdir);
    try apply made_for_project_dir; cycle 1.
  { injection Hrun as <- <-. left. split; [done|]. by eapply dirs_made_trans. }
  right. exists w2. split; [by eapply dirs_made_trans|]. split; [done|].
  unfold bind at 1, gets at 1 in Hrun. unfold manifest_path. fold pd.
  fold default_manifest in Hrun.
  destruct (fs_exists (fs w2) (path_div pd "package.json")).
  - unfold ret in Hrun. by injection Hrun as <- <-.
  - destruct (write_absent _ _ _ _ w2) as [[a|e] w3];
      unfold ret in Hrun; by injection Hrun as <- <-.
Qed.

(** The write goes through the store when both documents are there and the
    save does not fail. *)
Lemma write_absent_store (cc : CodingContext) (p : path) (body : string)
    (added : gset string) (w : World) (deps : list string) :
  manifest_deps cc = Ok deps ->
  hd false (faults w) = false ->
  fs_exists (fs w) p = false -> fs_is_dir (fs w) (path_parent p) = true ->
  exists w',
    write_absent cc p body added w = (Ok ({[ path_str p ]} ∪ added), w')
    /\ fs w' = <[p := File body]> (fs w)
    /\ repo w' = set_srcs (repo w)
                   (store_put (srcs (repo w)) (path_str p) body deps).2
    /\ trace w' = trace w ++ [EvStoreSave SrcsStore (path_str p)].
Proof.
  intros Hdeps Hfault Hex Hdir.
  destruct (fs_write_absent p body (fs w) Hex Hdir) as [Hw _].
  unfold write_absent, try_except, bind, lift. rewrite Hdeps.
  unfold srcs_save, bind, emit, modify, next_fault. cbn [faults set_trace].
  destruct (faults w) as [|[|] rest]; [|done|]; cbn [fs set_trace set_faults];
    rewrite Hw; unfold store_put, ret; eexists; (split; [reflexivity|]); done.
Qed.

(** The write is made directly when the store cannot be used, because a
    document is missing or because the save fails, and the direct write
    does not fail: the store is left as it is. *)
Lemma write_absent_direct (cc : CodingContext) (p : path) (body : string)
    (added : gset string) (w : World) :
  (is_ok (manifest_deps cc) = false /\ hd false (faults w) = false)
  \/ (is_ok (manifest_deps cc) = true
      /\ exists rest, faults w = true :: rest /\ hd false rest = false) ->
  fs_exists (fs w) p = false -> fs_is_dir (fs w) (path_parent p) = true ->
  exists w',
    write_absent cc p body added w = (Ok ({[ path_str p ]} ∪ added), w')
    /\ fs w' = <[p := File body]> (fs w)
    /\ repo w' = repo w
    /\ trace w'
       = trace w ++ (if is_ok (manifest_deps cc)
                     then [EvStoreSave SrcsStore (path_str p)] else [])
                 ++ [EvDirectWrite p].
Proof.
  intros Hcase Hex Hdir.
  destruct (fs_write_absent p body (fs w) Hex Hdir) as [Hw _].
  unfold write_absent, try_except, bind, lift.
  destruct (manifest_deps cc) as [deps|e]; cbn [is_ok] in *.
  - destruct Hcase as [[? _]|[_ (rest & Hf & Hrest)]]; [done|].
    unfold srcs_save, direct_write, bind, emit, modify, next_fault, raise.
    cbn [faults set_trace]. rewrite Hf. cbn [faults set_faults set_trace].
    destruct rest as [|[|] rest']; [|done|]; cbn [fs set_trace set_faults];
      rewrite Hw; unfold ret; eexists; (split; [reflexivity|]);
      cbn [fs repo trace set_fs set_trace set_faults]; by rewrite <- app_assoc.
  - destruct Hcase as [[_ Hf]|[? _]]; [|done].
    unfold direct_write, bind, emit, modify, next_fault, raise.
    cbn [faults set_trace].
    destruct (faults w) as [|[|] rest']; [|done|]; cbn [fs set_trace set_faults];
      rewrite Hw; unfold ret; eexists; (split; [reflexivity|]); done.
Qed.

(** When the direct write fails as well, nothing is written and nothing is
    raised. *)
Lemma write_absent_nothing (cc : CodingContext) (p : path) (body : string)
    (added : gset string) (w : World) :
  (is_ok (manifest_deps cc) = false /\ hd false (faults w) = true)
  \/ (is_ok (manifest_deps cc) = true
      /\ exists rest, faults w = true :: true :: rest) ->
  exists w',
    write_absent cc p body added w = (Ok added, w')
    /\ fs w' = fs w /\ repo w' = repo w.
Proof.
  intros Hcase. unfold write_absent, try_except, bind, lift.
  destruct (manifest_deps cc) as [deps|e]; cbn [is_ok] in *.
  - destruct Hcase as [[? _]|[_ (rest & Hf)]]; [done|].
    unfold srcs_save, direct_write, bind, emit, modify, next_fault, raise.
    cbn [faults set_trace]. rewrite Hf. cbn [faults set_faults set_trace].
    unfold ret. by eexists.
  - destruct Hcase as [[_ Hf]|[? _]]; [|done].
    unfold direct_write, bind, emit, modify, next_fault, raise.
    cbn [faults set_trace]. destruct (faults w) as [|[|] rest']; try done.
    unfold ret. by eexists.
Qed.

(** Whatever fails, the write of an absent file returns: the file is
    written and reported, or neither. *)
Lemma write_absent_outcome (cc : CodingContext) (p : path) (body : string)
    (added : gset string) (w : World) :
  fs_exists (fs w) p = false -> fs_is_dir (fs w) (path_parent p) = true ->
  exists a w',
    write_absent cc p body added w = (Ok a, w')
    /\ ((a = {[ path_str p ]} ∪ added /\ fs w' = <[p := File body]> (fs w))
        \/ (a = added /\ fs w' = fs w)).
Proof.
  intros Hex Hdir.
  destruct (manifest_deps cc) as [deps|e] eqn:Hdeps.
  - destruct (faults w) as [|[|] [|[|] rest]] eqn:Hf.
    + destruct (write_absent_store cc p body added w deps)
        as (w' & -> & ? & _); try done; [by rewrite Hf|]. eauto 6.
    + destruct (write_absent_direct cc p body added w)
        as (w' & -> & ? & _); try done; [|by eauto 6].
      right. rewrite Hdeps. by eauto.
    + destruct (write_absent_nothing cc p body added w)
        as (w' & -> & ? & _); [|by eauto 6].
      right. rewrite Hdeps. by eauto.
    + destruct (write_absent_direct cc p body added w)
        as (w' & -> & ? & _); try done; [|by eauto 6].
      right. rewrite Hdeps. by eauto.
    + destruct (write_absent_store cc p body added w deps)
        as (w' & -> & ? & _); try done; [by rewrite Hf|]. eauto 6.
    + destruct (write_absent_store cc p body added w deps)
        as (w' & -> & ? & _); try done; [by rewrite Hf|]. eauto 6.
    + destruct (write_absent_store cc p body added w deps)
        as (w' & -> & ? & _); try done; [by rewrite Hf|]. eauto 6.
  - destruct (hd false (faults w)) eqn:Hf.
    + destruct (write_absent_nothing cc p body added w)
        as (w' & -> & ? & _); [|by eauto 6].
      left. by rewrite Hdeps.
    + destruct (write_absent_direct cc p body added w)
        as (w' & -> & ? & _); try done; [|by eauto 6].
      left. by rewrite Hdeps.
Qed.

Lemma write_absent_repo (cc : CodingContext) (p : path) (body : string)
    (added : gset string) (w w' : World) (r : result (gset string)) :
  write_absent cc p body added w = (r, w') ->
  repo w' = repo w
  \/ exists deps,
       manifest_deps cc = Ok deps
       /\ repo w' = set_srcs (repo w)
                      (store_put (srcs (repo w)) (path_str p) body deps).2.
Proof.
  unfold write_absent, try_except, bind, lift.
  unfold srcs_save, direct_write, bind, emit, modify, next_fault, raise, ret.
  unfold store_put. intros H.
  destruct (manifest_deps cc) as [deps|e];
    repeat (cbn [fs faults repo set_repo set_trace set_faults set_fs] in *;
            case_match; simplify_eq);
    cbn [fs faults repo set_repo set_trace set_faults set_fs]; eauto.
Qed.

(** An absent manifest with nothing in the way: the pass reaches the write
    with the directories made and the manifest still absent. *)
Lemma ensure_reaches_write (cc : CodingContext) (cd : Document) (w : World) :
  code_doc cc = Some cd ->
  str_truthy (root_relative_path cd) = true ->
  ensure_unobstructed cc (fs w) = true ->
  fs_exists (fs w) (manifest_path cc cd) = false ->
  let pd := project_dir_of (Path (root_path cd)) (cc_filename cc) in
  exists w0,
    dirs_made pd w w0 /\ fs_is_dir (fs w0) pd = true
    /\ fs_exists (fs w0) (manifest_path cc cd) = false
    /\ ensure_critical_files cc w
       = write_absent cc (manifest_path cc cd) default_manifest ∅ w0.
Proof.
  intros Hcd Hrrp Hclear Hex pd.
  destruct (ensure_total cc w Hclear) as (a & w' & Hrun).
  destruct (ensure_critical_files_cases cc cd w w' (Ok a) Hcd Hrrp Hrun)
    as [[? _]|(w0 & Hmade & Hdir & Hres)]; [done|].
  fold pd in Hmade, Hdir. exists w0.
  assert (fs_exists (fs w0) (manifest_path cc cd) = false) as Hex0.
  { unfold manifest_path in *. fold pd in Hex |- *.
    apply manifest_absent. apply manifest_absent in Hex.
    destruct Hmade as (_ & _ & _ & Hk & _).
    destruct (Hk (path_div pd "package.json")) as [->|(_ & _ & Hm)]; [done|].
    by apply manifest_not_made in Hm. }
  rewrite Hex0 in Hres. rewrite Hrun. done.
Qed.

(** What the pass can change, whatever its outcome. *)
Lemma ensure_frame
    (cc : CodingContext) (cd : Document) (w w' : World)
    (r : result (gset string)) :
  code_doc cc = Some cd ->
  ensure_critical_files cc w = (r, w') ->
  let pd := project_dir_of (Path (root_path cd)) (cc_filename cc) in
  let manifest := manifest_path cc cd in
  (forall k : path,
     fs w' !! k = fs w !! k
     \/ (fs w !! k = None /\ fs w' !! k = Some Dir /\ made_for pd k)
     \/ (fs w !! k = None /\ k = manifest
         /\ fs w' !! k = Some (File default_manifest)))
  /\ (repo w' = repo w
      \/ exists deps,
           repo w' = set_srcs (repo w)
                       (store_put (srcs (repo w)) (path_str manifest)
                          default_manifest deps).2).
Proof.
  intros Hcd Hrun pd manifest.
  destruct (str_truthy (root_relative_path cd)) eqn:Hrrp; cycle 1.
  { unfold ensure_critical_files in Hrun. rewrite Hcd, Hrrp in Hrun.
    injection Hrun as <- <-. split; [by left|by left]. }
  destruct (ensure_critical_files_cases cc cd w w' r Hcd Hrrp Hrun)
    as [[_ Hmade]|(w0 & Hmade & Hdir & Hres)]; fold pd in Hmade.
  { destruct Hmade as (Hrepo & _ & _ & Hk & _). split; [|by left].
    intros k. destruct (Hk k) as [?|?]; auto. }
  fold pd manifest in Hdir, Hres.
  destruct Hmade as (Hrepo & _ & _ & Hk & _).
  destruct (fs_exists (fs w0) manifest) eqn:Hex.
  { injection Hres as -> ->. split; [|by left].
    intros k. destruct (Hk k) as [?|?]; auto. }
  destruct (write_absent_outcome cc manifest default_manifest ∅ w0)
    as (a & w1 & Hw & Hout); [done| |].
  { unfold manifest, manifest_path. fold pd. by rewrite manifest_parent. }
  pose proof (write_absent_repo _ _ _ _ _ _ _ Hw) as Hrepo1.
  rewrite Hw in Hres. injection Hres as -> ->. split.
  - intros k. destruct Hout as [[_ Hfs]|[_ Hfs]]; rewrite Hfs.
    + destruct (decide (k = manifest)) as [->|Hne].
      * right. right. rewrite lookup_insert_eq.
        assert (fs w0 !! manifest = None) as Hnone by by apply manifest_absent.
        destruct (Hk manifest) as [E|(? & ? & _)]; [|congruence].
        split; [congruence|done].
      * rewrite lookup_insert_ne by done. destruct (Hk k) as [?|?]; auto.
    + destruct (Hk k) as [?|?]; auto.
  - rewrite <- Hrepo. destruct Hrepo1 as [->|(deps & _ & ->)]; [by left|].
    right. by exists deps.
Qed.

(** X5. The pass reports exactly what it created: a path is in the set it
    returns if and only if it is the manifest path, nothing was there before
    the pass, and the default manifest is there after it. *)
Theorem ensure_reports_what_it_created
    (cc : CodingContext) (cd : Document) (w w' : World) (a : gset string) :
  code_doc cc = Some cd ->
  str_truthy (root_relative_path cd) = true ->
  ensure_critical_files cc w = (Ok a, w') ->
  let manifest := manifest_path cc cd in
  forall p : string,
    p ∈ a <-> p = path_str manifest
              /\ fs w !! manifest = None
              /\ fs w' !! manifest = Some (File default_manifest).
Proof.
  intros Hcd Hrrp Hrun manifest p.
  set (pd := project_dir_of (Path (root_path cd)) (cc_filename cc)).
  destruct (ensure_critical_files_cases cc cd w w' (Ok a) Hcd Hrrp Hrun)
    as [[? _]|(w0 & Hmade & Hdir & Hres)]; [done|].
  fold pd manifest in Hmade, Hdir, Hres.
  destruct Hmade as (_ & _ & _ & Hk & _).
  destruct (fs_exists (fs w0) manifest) eqn:Hex.
  { injection Hres as -> ->. split; [by intros ?%elem_of_empty|].
    intros (_ & Hnone & Hfile).
    destruct (Hk manifest) as [E|(_ & E & _)]; congruence. }
  destruct (write_absent_outcome cc manifest default_manifest ∅ w0)
    as (a1 & w1 & Hw & Hout); [done| |].
  { unfold manifest, manifest_path. fold pd. by rewrite manifest_parent. }
  rewrite Hw in Hres. injection Hres as -> ->.
  assert (fs w0 !! manifest = None) as Hnone by by apply manifest_absent.
  destruct Hout as [[-> Hfs]|[-> Hfs]]; rewrite Hfs.
  - rewrite lookup_insert_eq, union_empty_r_L, elem_of_singleton.
    split; [|by intros (-> & _)]. intros ->.
    split; [done|]. split; [|done].
    destruct (Hk manifest) as [E|(? & _)]; congruence.
  - split; [by intros ?%elem_of_empty|]. intros (_ & _ & ?). congruence.
Qed.

(** X6. With the design and the task document at hand and a save that does
    not fail, an absent manifest is saved through the source store: the file
    is on disk with the default content and is reported, the store has its
    record with the two documents as dependencies, and no direct write is
    made. *)
Theorem manifest_saved_through_store
    (cc : CodingContext) (cd dd td : Document) (w : World) :
  code_doc cc = Some cd ->
  str_truthy (root_relative_path cd) = true ->
  ensure_unobstructed cc (fs w) = true ->
  fs_exists (fs w) (manifest_path cc cd) = false ->
  design_doc cc = Some dd -> task_doc cc = Some td ->
  hd false (faults w) = false ->
  let manifest := manifest_path cc cd in
  exists w' t,
    ensure_critical_files cc w = (Ok {[ path_str manifest ]}, w')
    /\ fs w' !! manifest = Some (File default_manifest)
    /\ store_get (srcs (repo w')) (path_str manifest)
       = Some {| root_path := store_root (srcs (repo w));
                 filename := path_str manifest;
                 content := default_manifest |}
    /\ store_deps (srcs (repo w')) !! path_str manifest
       = Some (list_of_set {[ root_relative_path dd; root_relative_path td ]})
    /\ trace w' = trace w ++ t ++ [EvStoreSave SrcsStore (path_str manifest)]
    /\ Forall is_mkdir t.
Proof.
  intros Hcd Hrrp Hclear Hex Hdd Htd Hfault manifest.
  destruct (ensure_reaches_write cc cd w Hcd Hrrp Hclear Hex)
    as (w0 & Hmade & Hdir & Hex0 & ->).
  destruct Hmade as (Hrepo & Hfaults & _ & _ & t & Htr & Hev).
  fold manifest in Hex0 |- *.
  destruct (write_absent_store cc manifest default_manifest ∅ w0
              (list_of_set {[ root_relative_path dd; root_relative_path td ]}))
    as (w' & -> & Hfs & Hrepo' & Htr'); try done.
  { unfold manifest_deps. by rewrite Hdd, Htd. }
  { by rewrite Hfaults. }
  { unfold manifest, manifest_path. by rewrite manifest_parent. }
  exists w', t. rewrite union_empty_r_L. split; [done|].
  rewrite Hfs, Hrepo', Htr', Htr, Hrepo, lookup_insert_eq, <- app_assoc.
  unfold store_get. cbn. by rewrite !lookup_insert_eq.
Qed.

(** X7. When the store cannot be used, because the design or the task
    document is missing or because the save fails, and the direct write
    does not fail, an absent manifest is written directly: it is on disk and
    reported, but no store has a record of it; with a document missing the
    save is not even tried. *)
Theorem manifest_written_directly
    (cc : CodingContext) (cd : Document) (w : World) :
  code_doc cc = Some cd ->
  str_truthy (root_relative_path cd) = true ->
  ensure_unobstructed cc (fs w) = true ->
  fs_exists (fs w) (manifest_path cc cd) = false ->
  ((design_doc cc = None \/ task_doc cc = None) /\ hd false (faults w) = false)
  \/ (is_Some (design_doc cc) /\ is_Some (task_doc cc)
      /\ exists rest, faults w = true :: rest /\ hd false rest = false) ->
  let manifest := manifest_path cc cd in
  exists w' t,
    ensure_critical_files cc w = (Ok {[ path_str manifest ]}, w')
    /\ fs w' !! manifest = Some (File default_manifest)
    /\ repo w' = repo w
    /\ trace w'
       = trace w ++ t
         ++ (if is_ok (manifest_deps cc)
             then [EvStoreSave SrcsStore (path_str manifest)] else [])
         ++ [EvDirectWrite manifest]
    /\ Forall is_mkdir t
    /\ (is_ok (manifest_deps cc) = true
        <-> is_Some (design_doc cc) /\ is_Some (task_doc cc)).
Proof.
  intros Hcd Hrrp Hclear Hex Hcase manifest.
  assert (is_ok (manifest_deps cc) = true
          <-> is_Some (design_doc cc) /\ is_Some (task_doc cc)) as Hdeps.
  { unfold manifest_deps.
    destruct (design_doc cc), (task_doc cc); cbn; split; try done;
      intros [[? ?] [? ?]]; done. }
  destruct (ensure_reaches_write cc cd w Hcd Hrrp Hclear Hex)
    as (w0 & Hmade & Hdir & Hex0 & ->).
  destruct Hmade as (Hrepo & Hfaults & _ & _ & t & Htr & Hev).
  fold manifest in Hex0 |- *.
  destruct (write_absent_direct cc manifest default_manifest ∅ w0)
    as (w' & -> & Hfs & Hrepo' & Htr'); try done.
  { rewrite Hfaults.
    destruct Hcase as [[Hmiss Hf]|(Hd & Ht & Hf)]; [left|right].
    - split; [|done]. destruct (is_ok (manifest_deps cc)); [|done].
      destruct Hdeps as [[[? Hd] [? Ht]] _]; [done|].
      destruct Hmiss; congruence.
    - split; [by apply Hdeps|done]. }
  { unfold manifest, manifest_path. by rewrite manifest_parent. }
  exists w', t. rewrite union_empty_r_L. split; [done|].
  rewrite Hfs, Hrepo', Htr', Htr, Hrepo, lookup_insert_eq, <- !app_assoc.
  done.
Qed.

(** X8. When the save and the direct write both fail (or, with a document
    missing, the direct write fails), the pass still returns normally: it
    reports nothing, the manifest is still absent, and the stores are as
    they were. *)
Theorem manifest_write_failures_swallowed
    (cc : CodingContext) (cd : Document) (w : World) :
  code_doc cc = Some cd ->
  str_truthy (root_relative_path cd) = true ->
  ensure_unobstructed cc (fs w) = true ->
  fs_exists (fs w) (manifest_path cc cd) = false ->
  ((design_doc cc = None \/ task_doc cc = None) /\ hd false (faults w) = true)
  \/ (is_Some (design_doc cc) /\ is_Some (task_doc cc)
      /\ exists rest, faults w = true :: true :: rest) ->
  exists w',
    ensure_critical_files cc w = (Ok ∅, w')
    /\ fs_exists (fs w') (manifest_path cc cd) = false
    /\ repo w' = repo w.
Proof.
  intros Hcd Hrrp Hclear Hex Hcase.
  destruct (ensure_reaches_write cc cd w Hcd Hrrp Hclear Hex)
    as (w0 & Hmade & Hdir & Hex0 & ->).
  destruct Hmade as (Hrepo & Hfaults & _).
  destruct (write_absent_nothing cc (manifest_path cc cd) default_manifest ∅ w0)
    as (w' & -> & Hfs & Hrepo').
  { rewrite Hfaults. unfold manifest_deps.
    destruct Hcase as [[Hmiss Hf]|([? Hd] & [? Ht] & Hf)]; [left|right].
    - split; [|done]. destruct Hmiss as [-> | ->]; [done|].
      by destruct (design_doc cc).
    - by rewrite Hd, Ht. }
  exists w'. split; [done|]. rewrite Hfs, Hrepo'. done.
Qed.

Lemma mkdir_parents_file (p : path) (f : FS) (body : string) :
  node_at f p = Some (File body) ->
  mkdir_parents p f = Raise FileExistsError.
Proof.
  intros Hp. unfold mkdir_parents.
  assert (os_mkdir p f = Raise FileExistsError) as Hos.
  { unfold os_mkdir. by rewrite Hp. }
  assert (fs_is_dir f p = false) as Hdir.
  { unfold fs_is_dir. by rewrite Hp. }
  destruct (length p); cbn [mkdir_rec]; by rewrite Hos, Hdir.
Qed.

(** The directories are made outside any handler: a regular file at the
    first directory the pass makes (the [frontend] directory of a named
    project, the workspace otherwise) makes the pass raise
    [FileExistsError] at once, with nothing written. *)
Lemma ensure_obstructed
    (cc : CodingContext) (cd : Document) (w : World) (body : string) :
  code_doc cc = Some cd ->
  str_truthy (root_relative_path cd) = true ->
  let pd := project_dir_of (Path (root_path cd)) (cc_filename cc) in
  let first_dir :=
    if names_project (cc_filename cc) then path_div pd "frontend" else pd in
  node_at (fs w) first_dir = Some (File body) ->
  ensure_critical_files cc w
  = (Raise FileExistsError, set_trace w (trace w ++ [EvMkdir first_dir])).
Proof.
  intros Hcd Hrrp pd first_dir Hfile.
  apply mkdir_parents_file in Hfile.
  rewrite (ensure_critical_files_unfold cc cd) by done.
  pose proof (project_dir_step_run (Path (root_path cd)) (cc_filename cc) w)
    as Hstep. fold pd in Hstep. cbv zeta in Hstep.
  unfold first_dir in *. unfold bind at 1.
  destruct (names_project (cc_filename cc)).
  - rewrite Hfile in Hstep. by rewrite Hstep.
  - rewrite Hstep. pose proof (manifest_pass cc pd w) as Hpass.
    cbv zeta in Hpass. rewrite Hfile in Hpass. done.
Qed.

Lemma write_absent_backend_calls (cc : CodingContext) (p : path)
    (body : string) (added : gset string) (w w' : World)
    (r : result (gset string)) :
  write_absent cc p body added w = (r, w') ->
  backend_calls w' = backend_calls w.
Proof.
  unfold write_absent, try_except, bind, lift.
  unfold srcs_save, direct_write, bind, emit, modify, next_fault, raise, ret.
  unfold store_put. intros H.
  destruct (manifest_deps cc) as [deps|e];
    repeat (cbn [fs faults repo set_repo set_trace set_faults set_fs] in *;
            case_match; simplify_eq);
    done.
Qed.

(** The pass makes no backend call. *)
Lemma ensure_critical_files_backend (cc : CodingContext) (w w' : World)
    (r : result (gset string)) :
  ensure_critical_files cc w = (r, w') ->
  backend_calls w' = backend_calls w.
Proof.
  intros Hrun. destruct (code_doc cc) as [cd|] eqn:Hcd; cycle 1.
  { unfold ensure_critical_files in Hrun. rewrite Hcd in Hrun.
    by injection Hrun as <- <-. }
  destruct (str_truthy (root_relative_path cd)) eqn:Hrrp; cycle 1.
  { unfold ensure_critical_files in Hrun. rewrite Hcd, Hrrp in Hrun.
    by injection Hrun as <- <-. }
  destruct (ensure_critical_files_cases cc cd w w' r Hcd Hrrp Hrun)
    as [[_ Hmade]|(w0 & Hmade & _ & Hres)];
    destruct Hmade as (_ & _ & Hcalls & _); [done|].
  destruct (fs_exists (fs w0) (manifest_path cc cd)).
  - by injection Hres as -> ->.
  - symmetry in Hres. apply write_absent_backend_calls in Hres. congruence.
Qed.

(** X9. The critical-file pass touches the file system at its own paths
    only: whatever its outcome, a path that differs after the pass had
    nothing before, and has now either a directory at or above one of the two
    sub-area directories of the project directory, or the default manifest at
    the manifest path.  Of the stores, at most the source store changes, by
    the record of the manifest. *)
Theorem ensure_touches_only_project_paths
    (cc : CodingContext) (cd : Document) (w w' : World)
    (r : result (gset string)) :
  code_doc cc = Some cd ->
  ensure_critical_files cc w = (r, w') ->
  let pd := project_dir_of (Path (root_path cd)) (cc_filename cc) in
  let manifest := manifest_path cc cd in
  (forall k : path,
     fs w' !! k = fs w !! k
     \/ (fs w !! k = None /\ fs w' !! k = Some Dir /\ made_for pd k)
     \/ (fs w !! k = None /\ k = manifest
         /\ fs w' !! k = Some (File default_manifest)))
  /\ (repo w' = repo w
      \/ exists deps,
           repo w' = set_srcs (repo w)
                       (store_put (srcs (repo w)) (path_str manifest)
                          default_manifest deps).2).
Proof. exact (ensure_frame cc cd w w' r). Qed.

(** The same, for any coding context and without the places. *)
Lemma ensure_frame_any (cc : CodingContext) (w w' : World)
    (r : result (gset string)) :
  ensure_critical_files cc w = (r, w') ->
  (forall k : path,
     fs w' !! k = fs w !! k
     \/ (fs w !! k = None
         /\ (fs w' !! k = Some Dir
             \/ fs w' !! k = Some (File default_manifest))))
  /\ (repo w' = repo w
      \/ exists name deps,
           repo w' = set_srcs (repo w)
                       (store_put (srcs (repo w)) name default_manifest deps).2).
Proof.
  intros Hrun. destruct (code_doc cc) as [cd|] eqn:Hcd; cycle 1.
  { unfold ensure_critical_files in Hrun. rewrite Hcd in Hrun.
    injection Hrun as <- <-. split; [by left|by left]. }
  destruct (ensure_frame cc cd w w' r Hcd Hrun) as [Hfs Hrepo]. split.
  - intros k. destruct (Hfs k) as [?|[(? & ? & _)|(? & _ & ?)]]; auto.
  - destruct Hrepo as [?|[deps ?]]; [by left|right; eauto].
Qed.

End CriticalFiles.

(* ===================================================================== *)
(** ** Generation with retries, and the rest of [run] *)

Section Generation.
Context `{Ext : Externals}.

Lemma write_code_attempt_run (prompt : string) (w : World) :
  write_code_attempt prompt w
  = (match backend w (backend_calls w) (Ask prompt) with
     | Ok code_rsp => Ok (parse_code code_rsp)
     | Raise e => Raise e
     end, tick (Ask prompt) w).
Proof.
  unfold write_code_attempt, bind, call_backend, ret, tick.
  by destruct (backend w (backend_calls w) (Ask prompt)).
Qed.

Lemma tick_iter_backend (n : nat) (rq : request) (w : World) :
  backend (Nat.iter n (tick rq) w) = backend w
  /\ backend_calls (Nat.iter n (tick rq) w) = backend_calls w + n
  /\ fs (Nat.iter n (tick rq) w) = fs w
  /\ faults (Nat.iter n (tick rq) w) = faults w
  /\ repo (Nat.iter n (tick rq) w) = repo w
  /\ src_workspace (Nat.iter n (tick rq) w) = src_workspace w
  /\ trace (Nat.iter n (tick rq) w) = trace w ++ replicate n (EvBackend rq).
Proof.
  induction n as [|n (Hb & Hc & Hf & Hfa & Hr & Hs & Ht)]; simpl.
  - rewrite Nat.add_0_r, app_nil_r. done.
  - repeat split; try done.
    + rewrite Hc. lia.
    + rewrite Ht, <- app_assoc. f_equal. by rewrite replicate_cons_app.
Qed.

Lemma tick_iter_shift (n : nat) (rq : request) (w : World) :
  Nat.iter n (tick rq) (tick rq w) = Nat.iter (S n) (tick rq) w.
Proof. induction n as [|n IH]; simpl; [done|]. by rewrite IH. Qed.

(** [k] failures and then a success within the attempts allowed: the value
    of the successful attempt is returned after [k + 1] backend calls. *)
Lemma retry_fail_then_ok (attempts k : nat) (prompt rsp : string) (w : World) :
  k < attempts ->
  fails_next k (Ask prompt) w ->
  backend w (backend_calls w + k) (Ask prompt) = Ok rsp ->
  retry attempts (write_code_attempt prompt) w
  = (Ok (parse_code rsp), Nat.iter (S k) (tick (Ask prompt)) w).
Proof.
  revert k w. induction attempts as [|attempts IH]; intros k w Hlt Hfail Hok;
    [lia|].
  cbn [retry]. unfold try_except. rewrite write_code_attempt_run.
  destruct k as [|k].
  - rewrite Nat.add_0_r in Hok. rewrite Hok. done.
  - pose proof (Hfail 0 ltac:(lia)) as H0. rewrite Nat.add_0_r in H0.
    destruct (backend w (backend_calls w) (Ask prompt)) as [?|e]; [done|].
    destruct attempts as [|attempts]; [lia|].
    rewrite (IH k); [by rewrite tick_iter_shift|lia| |].
    + intros i Hi. specialize (Hfail (S i) ltac:(lia)).
      rewrite <- Hfail. cbn [tick backend backend_calls set_trace set_backend_calls].
      do 2 f_equal. lia.
    + rewrite <- Hok. cbn [tick backend backend_calls set_trace set_backend_calls].
      f_equal. lia.
Qed.

(** Failures on all the attempts allowed: [RetryError] after that many
    backend calls. *)
Lemma retry_all_fail (attempts : nat) (prompt : string) (w : World) :
  0 < attempts ->
  fails_next attempts (Ask prompt) w ->
  retry attempts (write_code_attempt prompt) w
  = (Raise RetryError, Nat.iter attempts (tick (Ask prompt)) w).
Proof.
  revert w. induction attempts as [|attempts IH]; intros w Hpos Hfail; [lia|].
  cbn [retry]. unfold try_except. rewrite write_code_attempt_run.
  pose proof (Hfail 0 ltac:(lia)) as H0. rewrite Nat.add_0_r in H0.
  destruct (backend w (backend_calls w) (Ask prompt)) as [?|e]; [done|].
  destruct attempts as [|attempts]; [done|].
  rewrite IH; [by rewrite tick_iter_shift|lia|].
  intros i Hi. specialize (Hfail (S i) ltac:(lia)).
  rewrite <- Hfail. cbn [tick backend backend_calls set_trace set_backend_calls].
  do 2 f_equal. lia.
Qed.

(** Whatever its outcome, [retry] only calls the backend, some number of
    times. *)
Lemma retry_ticks (attempts : nat) (prompt : string) (w w' : World)
    (r : result string) :
  retry attempts (write_code_attempt prompt) w = (r, w') ->
  exists k, w' = Nat.iter k (tick (Ask prompt)) w /\ (0 < attempts -> 0 < k).
Proof.
  revert w. induction attempts as [|attempts IH]; intros w Hrun.
  - injection Hrun as <- <-. exists 0. split; [done|lia].
  - cbn [retry] in Hrun. unfold try_except in Hrun.
    rewrite write_code_attempt_run in Hrun.
    destruct (backend w (backend_calls w) (Ask prompt)) as [rsp|e].
    + injection Hrun as <- <-. exists 1. split; [done|lia].
    + destruct attempts as [|attempts].
      * injection Hrun as <- <-. exists 1. split; [done|lia].
      * apply IH in Hrun as [k [-> _]]. exists (S k).
        rewrite tick_iter_shift. split; [done|lia].
Qed.

(** [run_write] once the generation has settled on [code] in world [w1]. *)
Lemma run_write_settled (cc : CodingContext) (prompt code : string)
    (w w1 : World) :
  try_except (write_code prompt) (fun _ => ret EmptyString) w = (Ok code, w1) ->
  run_write cc prompt w
  = (let cc' := final_context cc code (src_workspace w1) in
     match ensure_critical_files cc' w1 with
     | (Ok _, w2) => (Ok cc', w2)
     | (Raise e, w2) => (Raise e, w2)
     end).
Proof.
  intros Hgen. unfold run_write. unfold bind at 1. rewrite Hgen.
  unfold final_context. destruct (code_doc cc) as [cd|].
  - unfold bind at 1. unfold ret at 1. unfold bind.
    by destruct (ensure_critical_files _ w1) as [[a|e] w2].
  - unfold bind at 1. unfold bind at 1. unfold gets at 1. unfold ret at 1.
    unfold bind. by destruct (ensure_critical_files _ w1) as [[a|e] w2].
Qed.

(** The generation step of [run] never fails; it only calls the backend, at
    least once. *)
Lemma generation_settles (prompt : string) (w : World) :
  exists code k,
    try_except (write_code prompt) (fun _ => ret EmptyString) w
    = (Ok code, Nat.iter (S k) (tick (Ask prompt)) w).
Proof.
  unfold try_except, write_code.
  destruct (retry 6 (write_code_attempt prompt) w) as [r w1] eqn:Hrun.
  apply retry_ticks in Hrun as [k [-> Hk]].
  destruct k as [|k]; [lia|]. destruct r as [code|e].
  - by exists code, k.
  - by exists EmptyString, k.
Qed.

(** Whatever its outcome, [run_write] first calls the backend with its
    prompt, and then adds further such calls and storage events, nothing
    else. *)
Lemma run_write_trace (cc : CodingContext) (prompt : string) (w w' : World)
    (r : result CodingContext) :
  run_write cc prompt w = (r, w') ->
  exists t, trace w' = trace w ++ EvBackend (Ask prompt) :: t
            /\ Forall (write_event prompt) t.
Proof.
  intros Hrun. destruct (generation_settles prompt w) as (code & k & Hgen).
  rewrite (run_write_settled cc prompt code w _ Hgen) in Hrun.
  cbv zeta in Hrun.
  destruct (ensure_critical_files _ _) as [r2 w2] eqn:Hens.
  apply ensure_trace in Hens as (t & Htr & Hev).
  destruct (tick_iter_backend (S k) (Ask prompt) w)
    as (_ & _ & _ & _ & _ & _ & Htk).
  exists (replicate k (EvBackend (Ask prompt)) ++ t).
  assert (trace w2 = trace w ++ EvBackend (Ask prompt)
                               :: replicate k (EvBackend (Ask prompt)) ++ t) as Ht.
  { rewrite Htr, Htk, <- app_assoc. done. }
  assert (Forall (write_event prompt)
            (replicate k (EvBackend (Ask prompt)) ++ t)) as Hall.
  { apply Forall_app. split.
    - apply Forall_replicate. by left.
    - eapply Forall_impl; [done|]. intros e He. by right. }
  destruct r2 as [a|e]; injection Hrun as <- <-; done.
Qed.

(** C5 (as amended). When the backend fails five times and then answers,
    [write_code] returns the code of the sixth answer; when it fails six
    times, [write_code] raises, and [run] goes on with empty code: it
    returns the coding context, whose code document has empty content,
    provided that no regular file is in the way of the directories the
    critical-file pass makes afterwards. *)
Theorem generation_retries_then_downgrade :
  (forall (prompt rsp : string) (w : World),
     fails_next 5 (Ask prompt) w ->
     backend w (backend_calls w + 5) (Ask prompt) = Ok rsp ->
     write_code prompt w
     = (Ok (parse_code rsp), Nat.iter 6 (tick (Ask prompt)) w))
  /\ (forall (prompt : string) (w : World),
        fails_next 6 (Ask prompt) w ->
        write_code prompt w
        = (Raise RetryError, Nat.iter 6 (tick (Ask prompt)) w)
        /\ forall cc : CodingContext,
             let cc' := final_context cc EmptyString (src_workspace w) in
             ensure_unobstructed cc' (fs w) = true ->
             (exists d, code_doc cc' = Some d /\ content d = EmptyString)
             /\ exists w', run_write cc prompt w = (Ok cc', w')).
Proof.
  split.
  - intros prompt rsp w Hfail Hok. unfold write_code.
    by apply retry_fail_then_ok; [lia|..].
  - intros prompt w Hfail.
    assert (write_code prompt w
            = (Raise RetryError, Nat.iter 6 (tick (Ask prompt)) w)) as Hraise.
    { unfold write_code. by apply retry_all_fail; [lia|]. }
    split; [done|]. intros cc cc' Hclear. split.
    { unfold cc', final_context. destruct (code_doc cc); eauto. }
    destruct (tick_iter_backend 6 (Ask prompt) w)
      as (_ & _ & Hfs & _ & _ & Hws & _).
    rewrite (run_write_settled cc prompt EmptyString w
               (Nat.iter 6 (tick (Ask prompt)) w)).
    + cbv zeta. rewrite Hws. fold cc'.
      destruct (ensure_total cc' (Nat.iter 6 (tick (Ask prompt)) w))
        as (a & w' & Hens); [by rewrite Hfs|].
      rewrite Hens. by exists w'.
    + unfold try_except. by rewrite Hraise.
Qed.

(** [run] with bug feedback, up to the call of [run_write]. *)
Lemma WriteCode_run_bugfix (i_context bf : Document) (cc : CodingContext)
    (cd : Document) (w : World) :
  store_get (docs (repo w)) BUGFIX_FILENAME = Some bf ->
  CodingContext_loads (content i_context) = Some cc ->
  code_doc cc = Some cd ->
  WriteCode_run i_context w
  = match run_logs (test_doc_of w cc) with
    | Raise e => (Raise e, w)
    | Ok logs =>
        match bugfix_prompt w cc i_context bf (content cd) logs with
        | Raise e => (Raise e, w)
        | Ok prompt => run_write cc prompt w
        end
    end.
Proof.
  intros Hbf Hcc Hcd. unfold WriteCode_run.
  unfold bind at 1. unfold gets at 1. rewrite Hbf.
  unfold bind at 1. unfold lift at 1. rewrite Hcc.
  unfold bind at 1. unfold gets at 1.
  unfold bind at 1. unfold gets at 1.
  unfold bind at 1.
  assert ((match design_doc cc with
           | Some dd =>
               if str_truthy (filename dd)
               then gets (fun w0 => store_get (code_summary (repo w0)) (filename dd))
               else ret None
           | None => ret None
           end) w = (Ok (summary_doc_of w cc), w)) as ->.
  { unfold summary_doc_of. destruct (design_doc cc) as [dd|]; [|done].
    by destruct (str_truthy (filename dd)). }
  unfold bind at 1. unfold lift at 1. fold (test_doc_of w cc).
  destruct (run_logs (test_doc_of w cc)) as [logs|e]; [|done].
  unfold bind at 1. unfold run_code_context, lift at 1, attr. rewrite Hcd.
  unfold bind at 1. unfold gets at 1.
  unfold bind at 1. unfold lift at 1.
  unfold bugfix_prompt, requirement_doc_of.
  by destruct (run_prompt _ _).
Qed.

(** C10. With a bug-feedback document in the docs store, the code context
    of the prompt is the content of the code document of the coding context:
    [get_codes] is called in neither scenario, and every prompt the backend
    is asked is the template filled with that content. *)
Theorem bugfix_code_context_is_code_doc
    (i_context bf : Document) (cc : CodingContext) (cd : Document) (w : World) :
  store_get (docs (repo w)) BUGFIX_FILENAME = Some bf ->
  CodingContext_loads (content i_context) = Some cc ->
  code_doc cc = Some cd ->
  run_code_context (Some bf) cc i_context w = (Ok (content cd), w)
  /\ (forall r w',
        WriteCode_run i_context w = (r, w') ->
        exists t, trace w' = trace w ++ t
                  /\ forall use_inc, EvGetCodes use_inc ∉ t)
  /\ (forall logs prompt,
        run_logs (test_doc_of w cc) = Ok logs ->
        bugfix_prompt w cc i_context bf (content cd) logs = Ok prompt ->
        exists r w' t,
          WriteCode_run i_context w = (r, w')
          /\ trace w' = trace w ++ EvBackend (Ask prompt) :: t
          /\ Forall (write_event prompt) t).
Proof.
  intros Hbf Hcc Hcd. split; [|split].
  - unfold run_code_context, lift, attr. by rewrite Hcd.
  - intros r w' Hrun.
    rewrite (WriteCode_run_bugfix i_context bf cc cd w) in Hrun by done.
    assert (exists t, trace w = trace w ++ t
                      /\ forall use_inc, EvGetCodes use_inc ∉ t) as Hnil.
    { exists []. rewrite app_nil_r. split; [done|]. intros ?.
      apply not_elem_of_nil. }
    destruct (run_logs (test_doc_of w cc)) as [logs|e];
      [|by injection Hrun as <- <-].
    destruct (bugfix_prompt w cc i_context bf (content cd) logs) as [prompt|e];
      [|by injection Hrun as <- <-].
    apply run_write_trace in Hrun as (t & Htr & Hev).
    exists (EvBackend (Ask prompt) :: t). split; [done|].
    intros use_inc [Heq|Hin]%elem_of_cons; [done|].
    rewrite Forall_forall in Hev. by destruct (Hev _ Hin).
  - intros logs prompt Hlogs Hprompt.
    destruct (WriteCode_run i_context w) as [r w'] eqn:Hrun.
    rewrite (WriteCode_run_bugfix i_context bf cc cd w) in Hrun by done.
    rewrite Hlogs, Hprompt in Hrun.
    apply run_write_trace in Hrun as (t & Htr & Hev). by exists r, w', t.
Qed.

(** *** Further properties of [write_code] and [run] *)

(** Among the next [n] calls for [rq], either one answers, or all fail. *)
Lemma first_answer (n : nat) (rq : request) (w : World) :
  (exists k rsp, k < n /\ fails_next k rq w
                 /\ backend w (backend_calls w + k) rq = Ok rsp)
  \/ fails_next n rq w.
Proof.
  induction n as [|n IH]; [right; intros i Hi; lia|].
  destruct IH as [(k & rsp & Hk & Hfail & Hok)|Hfail].
  { left. exists k, rsp. split; [lia|done]. }
  destruct (backend w (backend_calls w + n) rq) as [rsp|e] eqn:Hn.
  - left. exists n, rsp. split; [lia|done].
  - right. intros i Hi. destruct (decide (i = n)) as [->|Hne].
    + by rewrite Hn.
    + apply Hfail. lia.
Qed.

(** X10. [write_code] asks the backend between one and six times, always
    with the same prompt, and changes nothing else; it stops at the first
    answer, whose extracted code is its value, and it raises, [RetryError]
    only, exactly when six calls in a row have failed. *)
Theorem write_code_outcome (prompt : string) (w w' : World) (r : result string) :
  write_code prompt w = (r, w') ->
  exists k,
    k < 6
    /\ w' = Nat.iter (S k) (tick (Ask prompt)) w
    /\ fails_next k (Ask prompt) w
    /\ match r with
       | Ok code =>
           exists rsp, backend w (backend_calls w + k) (Ask prompt) = Ok rsp
                       /\ code = parse_code rsp
       | Raise e =>
           e = RetryError /\ k = 5 /\ fails_next 6 (Ask prompt) w
       end.
Proof.
  unfold write_code. intros Hrun.
  destruct (first_answer 6 (Ask prompt) w)
    as [(k & rsp & Hk & Hfail & Hok)|Hfail].
  - rewrite (retry_fail_then_ok 6 k prompt rsp w Hk Hfail Hok) in Hrun.
    injection Hrun as <- <-. exists k. split; [done|]. split; [done|].
    split; [done|]. by exists rsp.
  - rewrite (retry_all_fail 6 prompt w) in Hrun by (done || lia).
    injection Hrun as <- <-. exists 5. split; [lia|]. split; [done|].
    split; [|done]. intros i Hi. apply Hfail. lia.
Qed.

(** [run], step by step up to the call of [write_code]. *)
Lemma WriteCode_run_unfold (i_context : Document) (w : World) :
  WriteCode_run i_context w
  = match CodingContext_loads (content i_context) with
    | None => (Raise AttributeError, w)
    | Some cc =>
        match run_logs (test_doc_of w cc) with
        | Raise e => (Raise e, w)
        | Ok logs =>
            let bug_feedback := store_get (docs (repo w)) BUGFIX_FILENAME in
            match run_code_context bug_feedback cc i_context w with
            | (Raise e, w1) => (Raise e, w1)
            | (Ok code, w1) =>
                match run_prompt (config_inc w1)
                        (prompt_args (config_inc w1) cc i_context
                           (requirement_doc_of w) bug_feedback
                           (summary_doc_of w cc) code logs) with
                | Raise e => (Raise e, w1)
                | Ok prompt => run_write cc prompt w1
                end
            end
        end
    end.
Proof.
  unfold WriteCode_run.
  unfold bind at 1. unfold gets at 1.
  unfold bind at 1. unfold lift at 1.
  destruct (CodingContext_loads (content i_context)) as [cc|]; [|done].
  unfold bind at 1. unfold gets at 1.
  unfold bind at 1. unfold gets at 1.
  unfold bind at 1.
  assert ((match design_doc cc with
           | Some dd =>
               if str_truthy (filename dd)
               then gets (fun w0 => store_get (code_summary (repo w0)) (filename dd))
               else ret None
           | None => ret None
           end) w = (Ok (summary_doc_of w cc), w)) as ->.
  { unfold summary_doc_of. destruct (design_doc cc) as [dd|]; [|done].
    by destruct (str_truthy (filename dd)). }
  unfold bind at 1. unfold lift at 1. fold (test_doc_of w cc).
  destruct (run_logs (test_doc_of w cc)) as [logs|e]; [|done].
  unfold bind at 1. cbv zeta.
  destruct (run_code_context _ cc i_context w) as [[code|e] w1]; [|done].
  unfold bind at 1. unfold gets at 1.
  unfold bind at 1. unfold lift at 1. unfold requirement_doc_of.
  by destruct (run_prompt _ _).
Qed.

Lemma run_code_context_plain (cc : CodingContext) (i_context : Document)
    (w : World) :
  run_code_context None cc i_context w
  = (code_context_of w cc i_context, codes_read w).
Proof.
  unfold run_code_context, code_context_of, codes_read.
  unfold bind at 1. unfold gets at 1. unfold bind at 1. unfold gets at 1.
  by destruct (config_inc w).
Qed.

(** X11. [run] validates nothing itself: a context that cannot be decoded
    and a test report that cannot be decoded come back from their [loads] as
    [None], and [run] raises [AttributeError] at the next attribute access;
    so does bug feedback for a coding context without a code document.  In
    each case nothing has been done yet. *)
Theorem run_rejects_bad_input (i_context : Document) (w : World) :
  (CodingContext_loads (content i_context) = None ->
   WriteCode_run i_context w = (Raise AttributeError, w))
  /\ (forall cc td,
        CodingContext_loads (content i_context) = Some cc ->
        test_doc_of w cc = Some td ->
        RunCodeResult_loads (content td) = None ->
        WriteCode_run i_context w = (Raise AttributeError, w))
  /\ (forall cc bf logs,
        CodingContext_loads (content i_context) = Some cc ->
        run_logs (test_doc_of w cc) = Ok logs ->
        store_get (docs (repo w)) BUGFIX_FILENAME = Some bf ->
        code_doc cc = None ->
        WriteCode_run i_context w = (Raise AttributeError, w)).
Proof.
  rewrite WriteCode_run_unfold. split; [|split].
  - by intros ->.
  - intros cc td -> Htd Hbad. unfold run_logs. by rewrite Htd, Hbad.
  - intros cc bf logs -> -> Hbf Hcd. cbv zeta. rewrite Hbf.
    unfold run_code_context, lift, attr. by rewrite Hcd.
Qed.

(** X12. Without bug feedback, a failure of [get_codes] is the failure of
    [run], before the prompt is built: the backend is not called and
    nothing is written.  So a task document handed over with empty content
    makes [run] raise [AttributeError]. *)
Theorem run_aborts_when_context_fails
    (i_context : Document) (cc : CodingContext) (logs : string) (w : World) :
  store_get (docs (repo w)) BUGFIX_FILENAME = None ->
  CodingContext_loads (content i_context) = Some cc ->
  run_logs (test_doc_of w cc) = Ok logs ->
  (forall e,
     code_context_of w cc i_context = Raise e ->
     WriteCode_run i_context w = (Raise e, codes_read w))
  /\ (forall td,
        task_doc cc = Some td -> content td = EmptyString ->
        WriteCode_run i_context w = (Raise AttributeError, codes_read w)).
Proof.
  intros Hbf Hcc Hlogs.
  assert (forall e, code_context_of w cc i_context = Raise e ->
            WriteCode_run i_context w = (Raise e, codes_read w)) as Hfail.
  { intros e He. rewrite WriteCode_run_unfold, Hcc, Hlogs. cbv zeta.
    by rewrite Hbf, run_code_context_plain, He. }
  split; [done|]. intros td Htd Hempty. apply Hfail.
  unfold code_context_of, get_codes. by rewrite Htd, Hempty.
Qed.

(** X13. A run without bug feedback whose inputs are readable and whose
    first backend call answers: the backend is called once, with the
    template formatted around the text [get_codes] gave, and [run] returns
    the coding context with the extracted code as the content of its code
    document (given that no regular file is in the way of the directories of
    the critical-file pass). *)
Theorem run_generates_from_context
    (i_context : Document) (cc : CodingContext)
    (logs code prompt rsp : string) (w : World) :
  store_get (docs (repo w)) BUGFIX_FILENAME = None ->
  CodingContext_loads (content i_context) = Some cc ->
  run_logs (test_doc_of w cc) = Ok logs ->
  code_context_of w cc i_context = Ok code ->
  plain_prompt w cc i_context code logs = Ok prompt ->
  backend w (backend_calls w) (Ask prompt) = Ok rsp ->
  let cc' := final_context cc (parse_code rsp) (src_workspace w) in
  ensure_unobstructed cc' (fs w) = true ->
  exists w' t,
    WriteCode_run i_context w = (Ok cc', w')
    /\ (exists d, code_doc cc' = Some d /\ content d = parse_code rsp)
    /\ backend_calls w' = S (backend_calls w)
    /\ trace w' = trace w ++ EvGetCodes (config_inc w)
                          :: EvBackend (Ask prompt) :: t
    /\ Forall storage_event t.
Proof.
  intros Hbf Hcc Hlogs Hcode Hprompt Hrsp cc' Hclear.
  rewrite WriteCode_run_unfold, Hcc, Hlogs. cbv zeta.
  rewrite Hbf, run_code_context_plain, Hcode.
  change (config_inc (codes_read w)) with (config_inc w).
  fold (plain_prompt w cc i_context code logs). rewrite Hprompt.
  set (w0 := codes_read w).
  assert (write_code prompt w0 = (Ok (parse_code rsp), tick (Ask prompt) w0))
    as Hgen.
  { apply (retry_fail_then_ok 6 0 prompt rsp w0); [lia| |].
    - intros i Hi. lia.
    - by rewrite Nat.add_0_r. }
  rewrite (run_write_settled cc prompt (parse_code rsp) w0 (tick (Ask prompt) w0))
    by (unfold try_except; by rewrite Hgen).
  cbv zeta. change (src_workspace (tick (Ask prompt) w0)) with (src_workspace w).
  fold cc'.
  destruct (ensure_total cc' (tick (Ask prompt) w0)) as (a & w' & Hrun); [done|].
  rewrite Hrun. pose proof (ensure_trace _ _ _ _ Hrun) as (t & Htr & Hev).
  pose proof (ensure_critical_files_backend _ _ _ _ Hrun) as Hcalls.
  exists w', t. split; [done|]. split.
  { unfold cc', final_context. destruct (code_doc cc); by eexists. }
  split; [by rewrite Hcalls|]. split; [|done].
  rewrite Htr. cbn [trace tick set_trace set_backend_calls codes_read w0].
  by rewrite <- !app_assoc.
Qed.

(** X14. In the normal scenario the prompt can always be built: every
    replacement field of [PROMPT_TEMPLATE] is among the keyword arguments
    [run] passes, and the text the documents hold is not scanned for
    fields, so no content of a document makes the formatting fail. *)
Theorem normal_prompt_always_formats
    (cc : CodingContext) (i_context : Document)
    (requirement_doc bug_feedback summary_doc : option Document)
    (code_context logs : string) :
  is_ok (run_prompt false
           (prompt_args false cc i_context requirement_doc bug_feedback
              summary_doc code_context logs)) = true.
Proof.
  unfold run_prompt, prompt_args. cbn [app].
  generalize (opt_content (design_doc cc)) (opt_content (task_doc cc))
    (opt_content bug_feedback) (filename i_context) (opt_content summary_doc).
  intros design task feedback name summary_log.
  vm_compute. reflexivity.
Qed.

(** X15. The critical-file pass is outside the handler of the generation:
    when a regular file stands where the pass makes its first directory,
    [run_write] calls the backend and then raises [FileExistsError]; the
    code generated is not returned. *)
Theorem run_write_obstructed_raises
    (cc : CodingContext) (cd : Document) (prompt body : string) (w : World) :
  code_doc cc = Some cd ->
  (forall code, str_truthy (root_relative_path (with_content cd code)) = true) ->
  let pd := project_dir_of (Path (root_path cd)) (cc_filename cc) in
  let first_dir :=
    if names_project (cc_filename cc) then path_div pd "frontend" else pd in
  node_at (fs w) first_dir = Some (File body) ->
  exists w' k,
    run_write cc prompt w = (Raise FileExistsError, w')
    /\ backend_calls w' = backend_calls w + S k
    /\ trace w' = trace w ++ replicate (S k) (EvBackend (Ask prompt))
                          ++ [EvMkdir first_dir]
    /\ fs w' = fs w.
Proof.
  intros Hcd Hrrp pd first_dir Hfile.
  destruct (generation_settles prompt w) as (code & k & Hgen).
  rewrite (run_write_settled cc prompt code w _ Hgen). cbv zeta.
  destruct (tick_iter_backend (S k) (Ask prompt) w)
    as (_ & Hcalls & Hfs & _ & _ & _ & Htr).
  set (w1 := Nat.iter (S k) (tick (Ask prompt)) w) in *.
  assert (final_context cc code (src_workspace w1)
          = with_code_doc cc (with_content cd code)) as ->.
  { unfold final_context. by rewrite Hcd. }
  rewrite (ensure_obstructed _ (with_content cd code) w1 body);
    [| done | apply Hrrp | by rewrite Hfs].
  eexists _, k. split; [reflexivity|].
  cbn [backend_calls trace fs set_trace]. rewrite Htr, <- app_assoc. done.
Qed.

(** The generation step of [run]: its value is the empty text or the code
    extracted from an answer of the backend to the prompt. *)
Lemma generation_code (prompt : string) (w : World) :
  exists code k,
    try_except (write_code prompt) (fun _ => ret EmptyString) w
    = (Ok code, Nat.iter (S k) (tick (Ask prompt)) w)
    /\ (code = EmptyString
        \/ exists rsp, backend w (backend_calls w + k) (Ask prompt) = Ok rsp
                       /\ code = parse_code rsp).
Proof.
  unfold try_except, write_code.
  destruct (first_answer 6 (Ask prompt) w)
    as [(k & rsp & Hk & Hfail & Hok)|Hfail].
  - rewrite (retry_fail_then_ok 6 k prompt rsp w Hk Hfail Hok).
    exists (parse_code rsp), k. split; [done|]. right. by exists rsp.
  - rewrite (retry_all_fail 6 prompt w) by (done || lia).
    exists EmptyString, 5. split; [done|]. by left.
Qed.

Lemma run_code_context_world (bug_feedback : option Document)
    (cc : CodingContext) (i_context : Document) (w w1 : World)
    (r : result string) :
  run_code_context bug_feedback cc i_context w = (r, w1) ->
  fs w1 = fs w /\ repo w1 = repo w /\ backend w1 = backend w
  /\ src_workspace w1 = src_workspace w.
Proof.
  destruct bug_feedback as [bf|].
  - unfold run_code_context, lift. by intros [= <- <-].
  - rewrite run_code_context_plain. by intros [= <- <-].
Qed.

(** What [run_write] comes to: the code, the context built around it, and
    the world the critical-file pass starts from. *)
Lemma run_write_cases (cc : CodingContext) (prompt : string) (w w' : World)
    (r : result CodingContext) :
  run_write cc prompt w = (r, w') ->
  exists code k ra,
    let w1 := Nat.iter (S k) (tick (Ask prompt)) w in
    let cc' := final_context cc code (src_workspace w) in
    (code = EmptyString
     \/ exists rsp, backend w (backend_calls w + k) (Ask prompt) = Ok rsp
                    /\ code = parse_code rsp)
    /\ ensure_critical_files cc' w1 = (ra, w')
    /\ forall c, r = Ok c -> c = cc'.
Proof.
  intros Hrun. destruct (generation_code prompt w) as (code & k & Hgen & Hcode).
  rewrite (run_write_settled cc prompt code w _ Hgen) in Hrun. cbv zeta in Hrun.
  destruct (tick_iter_backend (S k) (Ask prompt) w)
    as (_ & _ & _ & _ & _ & Hws & _).
  rewrite Hws in Hrun.
  destruct (ensure_critical_files _ _) as [ra w2] eqn:Hens.
  exists code, k, ra. cbv zeta. split; [done|].
  destruct ra as [a|e]; injection Hrun as <- <-; (split; [done|]).
  - by intros c [= <-].
  - by intros c [=].
Qed.

(** X16. [run] itself puts the generated code nowhere but in the coding
    context it returns: whatever its outcome, a path of the file system that
    differs after the run had nothing before and has a directory or the
    default manifest now, and of the stores at most the source store has
    changed, by a record of the default manifest. *)
Theorem run_writes_no_code (i_context : Document) (w w' : World)
    (r : result CodingContext) :
  WriteCode_run i_context w = (r, w') ->
  (forall k : path,
     fs w' !! k = fs w !! k
     \/ (fs w !! k = None
         /\ (fs w' !! k = Some Dir
             \/ fs w' !! k = Some (File default_manifest))))
  /\ (repo w' = repo w
      \/ exists name deps,
           repo w' = set_srcs (repo w)
                       (store_put (srcs (repo w)) name default_manifest deps).2).
Proof.
  rewrite WriteCode_run_unfold.
  destruct (CodingContext_loads (content i_context)) as [cc|];
    [|intros [= <- <-]; split; by left].
  destruct (run_logs (test_doc_of w cc)) as [logs|e];
    [|intros [= <- <-]; split; by left].
  cbv zeta.
  destruct (run_code_context _ cc i_context w) as [[code|e] w1] eqn:Hctx;
    apply run_code_context_world in Hctx as (Hfs & Hrepo & _);
    [|intros [= <- <-]; rewrite Hfs, Hrepo; split; by left].
  destruct (run_prompt _ _) as [prompt|e];
    [|intros [= <- <-]; rewrite Hfs, Hrepo; split; by left].
  intros Hrun. apply run_write_cases in Hrun
    as (gen & k & ra & _ & Hens & _). cbv zeta in Hens.
  destruct (tick_iter_backend (S k) (Ask prompt) w1)
    as (_ & _ & Hfs2 & _ & Hrepo2 & _).
  apply ensure_frame_any in Hens. rewrite Hfs2, Hrepo2, Hfs, Hrepo in Hens.
  exact Hens.
Qed.

(** X17. When [run] returns, it returns the decoded coding context with
    its code document replaced: the content is the empty text or the code
    extracted from an answer of the backend, and the name and the other
    documents of the context are as they were decoded. *)
Theorem run_returns_context_with_code
    (i_context : Document) (w w' : World) (cc' : CodingContext) :
  WriteCode_run i_context w = (Ok cc', w') ->
  exists cc code,
    CodingContext_loads (content i_context) = Some cc
    /\ cc' = final_context cc code (src_workspace w)
    /\ cc_filename cc' = cc_filename cc
    /\ design_doc cc' = design_doc cc /\ task_doc cc' = task_doc cc
    /\ (exists d, code_doc cc' = Some d /\ content d = code)
    /\ (code = EmptyString
        \/ exists n prompt rsp,
             backend w n (Ask prompt) = Ok rsp /\ code = parse_code rsp).
Proof.
  rewrite WriteCode_run_unfold.
  destruct (CodingContext_loads (content i_context)) as [cc|]; [|done].
  destruct (run_logs (test_doc_of w cc)) as [logs|e]; [|done].
  cbv zeta.
  destruct (run_code_context _ cc i_context w) as [[ctx|e] w1] eqn:Hctx;
    [|done].
  apply run_code_context_world in Hctx as (_ & _ & Hbackend & Hws).
  destruct (run_prompt _ _) as [prompt|e]; [|done].
  intros Hrun. apply run_write_cases in Hrun
    as (code & k & ra & Hcode & _ & Hval). cbv zeta in Hval.
  rewrite (Hval cc' eq_refl), Hws. exists cc, code.
  split; [done|]. split; [done|].
  unfold final_context.
  destruct (code_doc cc) as [cd|]; cbn; (split; [done|]); (split; [done|]);
    (split; [done|]); (split; [by eexists|]);
    (destruct Hcode as [->|(rsp & Hrsp & ->)]; [by left|right]);
    rewrite Hbackend in Hrsp; by eauto.
Qed.

End Generation.

(* ===================================================================== *)
(** ** Design synthesis *)

Section Design.
Context `{Ext : Externals}.

Lemma preserves_ret {A} (R : relation World) `{!Reflexive R} (a : A) :
  preserves R (ret a).
Proof. intros w r w' [= <- <-]. done. Qed.

Lemma preserves_raise {A} (R : relation World) `{!Reflexive R} (e : pyerr) :
  preserves R (raise (A := A) e).
Proof. intros w r w' [= <- <-]. done. Qed.

Lemma preserves_lift {A} (R : relation World) `{!Reflexive R} (x : result A) :
  preserves R (lift x).
Proof. intros w r w' [= <- <-]. done. Qed.

Lemma preserves_gets {A} (R : relation World) `{!Reflexive R} (f : World -> A) :
  preserves R (gets f).
Proof. intros w r w' [= <- <-]. done. Qed.

Lemma preserves_bind {A B} (R : relation World) `{!Transitive R}
    (m : M A) (k : A -> M B) :
  preserves R m -> (forall a, preserves R (k a)) -> preserves R (bind m k).
Proof.
  intros Hm Hk w r w' Hrun. unfold bind in Hrun.
  destruct (m w) as [[a|e] w1] eqn:Hmw.
  - etrans; [by eapply Hm|by eapply Hk].
  - injection Hrun as <- <-. by eapply Hm.
Qed.

Lemma preserves_fold_m {A S} (R : relation World) `{!PreOrder R}
    (l : list A) (acc : S) (body : S -> A -> M S) :
  (forall acc x, preserves R (body acc x)) -> preserves R (fold_m l acc body).
Proof.
  intros Hbody. revert acc. induction l as [|x l IH]; intros acc; simpl.
  - apply preserves_ret. apply _.
  - apply preserves_bind; [apply _|apply Hbody|]. intros acc'. apply IH.
Qed.

#[local] Instance same_stores_preorder : PreOrder same_stores.
Proof.
  split.
  - by intros w.
  - intros w1 w2 w3 (H1 & H2 & H3) (H4 & H5 & H6). unfold same_stores.
    by rewrite H4, H5, H6.
Qed.

#[local] Instance grows_by_preorder (P : event -> Prop) : PreOrder (grows_by P).
Proof.
  split.
  - intros w. split; [done|]. exists []. by rewrite app_nil_r.
  - intros w1 w2 w3 [Hs1 (t1 & Ht1 & Hp1)] [Hs2 (t2 & Ht2 & Hp2)].
    split; [by etrans|]. exists (t1 ++ t2).
    rewrite Ht2, Ht1, <- app_assoc. split; [done|]. by apply Forall_app.
Qed.

#[local] Instance design_step_preorder (name : string) :
  PreOrder (design_step name).
Proof.
  split.
  - intros w. repeat split; try done. exists []. by rewrite app_nil_r.
  - intros w1 w2 w3 (H1 & H2 & H3 & t1 & Ht1) (H4 & H5 & H6 & t2 & Ht2).
    unfold design_step. rewrite H4, H5. split; [done|]. split; [done|]. split.
    + intros k Hk. destruct (H3 k Hk) as [<- <-]. by apply H6.
    + exists (t1 ++ t2). by rewrite Ht2, Ht1, <- app_assoc.
Qed.

Lemma grows_by_emit (P : event -> Prop) (e : event) :
  P e -> preserves (grows_by P) (emit e).
Proof.
  intros He w r w' [= <- <-]. split; [done|]. exists [e]. split; [done|].
  by constructor.
Qed.

Lemma grows_by_mkdir (P : event -> Prop) (p : path) :
  P (EvMkdir p) -> preserves (grows_by P) (mkdir p).
Proof.
  intros He w r w' Hrun. rewrite mkdir_run in Hrun.
  destruct (mkdir_parents p (fs w)); injection Hrun as <- <-;
    (split; [done|]; exists [EvMkdir p]; split; [done|]; by constructor).
Qed.

Lemma grows_by_design_step (P : event -> Prop) (name : string) (w w' : World) :
  grows_by P w w' -> design_step name w w'.
Proof.
  intros [(Hr & _) (t & Ht & _)]. unfold design_step. rewrite Hr.
  repeat split; try done. by exists t.
Qed.

(** Peels the leading steps of a computation that only read the world or
    compute a value. *)
Ltac pure_steps :=
  repeat (apply preserves_bind;
          [apply _
          |by (apply preserves_lift || apply preserves_gets); apply _
          |]; intros ?).

(** The extraction steps leave the stores alone. *)
Lemma _save_mermaid_file_grows (data : json) (pathname : path) :
  preserves (grows_by render_event) (_save_mermaid_file data pathname).
Proof.
  unfold _save_mermaid_file. apply preserves_bind; [apply _| |intros _].
  - by apply grows_by_mkdir.
  - by apply grows_by_emit.
Qed.

Lemma _save_data_api_design_grows (doc : Document) :
  preserves (grows_by render_event) (_save_data_api_design doc).
Proof.
  unfold _save_data_api_design.
  pure_steps. destruct (negb _); [apply preserves_ret; apply _|].
  pure_steps. apply _save_mermaid_file_grows.
Qed.

Lemma _save_seq_flow_grows (doc : Document) :
  preserves (grows_by render_event) (_save_seq_flow doc).
Proof.
  unfold _save_seq_flow.
  pure_steps. destruct (negb _); [apply preserves_ret; apply _|].
  pure_steps. apply _save_mermaid_file_grows.
Qed.

Lemma set_resources_system_design_same (r : ProjectRepo) :
  set_resources_system_design r (resources_system_design r) = r.
Proof. by destruct r. Qed.

(** What [same_documents] keeps, store by store. *)
Lemma same_documents_stores (w w' : World) :
  same_documents w w' ->
  workdir (repo w') = workdir (repo w) /\ docs (repo w') = docs (repo w)
  /\ prd (repo w') = prd (repo w)
  /\ system_design (repo w') = system_design (repo w)
  /\ task (repo w') = task (repo w)
  /\ code_summary (repo w') = code_summary (repo w)
  /\ test_outputs (repo w') = test_outputs (repo w)
  /\ srcs (repo w') = srcs (repo w)
  /\ old_workspace (repo w') = old_workspace (repo w).
Proof. intros [<- _]. by destruct (repo w'). Qed.

#[local] Instance same_documents_preorder : PreOrder same_documents.
Proof.
  split.
  - intros w. split; [apply set_resources_system_design_same|done].
  - intros w1 w2 w3 (H1 & H2 & H3) (H4 & H5 & H6). unfold same_documents.
    rewrite H5, H6. split; [|done]. rewrite <- H1. rewrite <- H4 at 2.
    by destruct (repo w3), (repo w2), (repo w1).
Qed.

#[local] Instance exports_by_preorder (P : event -> Prop) :
  PreOrder (exports_by P).
Proof.
  split.
  - intros w. split; [done|]. exists []. by rewrite app_nil_r.
  - intros w1 w2 w3 [Hs1 (t1 & Ht1 & Hp1)] [Hs2 (t2 & Ht2 & Hp2)].
    split; [by etrans|]. exists (t1 ++ t2).
    rewrite Ht2, Ht1, <- app_assoc. split; [done|]. by apply Forall_app.
Qed.

Lemma grows_by_exports (P : event -> Prop) {A} (m : M A) :
  preserves (grows_by P) m -> preserves (exports_by P) m.
Proof.
  intros Hm w r w' Hrun. destruct (Hm w r w' Hrun) as [(Hr & ? & ?) Ht].
  split; [|done]. split; [|done]. rewrite Hr.
  apply set_resources_system_design_same.
Qed.

Lemma exports_by_design_step (P : event -> Prop) (name : string)
    (w w' : World) :
  exports_by P w w' -> design_step name w w'.
Proof.
  intros [Hdocs (t & Ht & _)].
  destruct (same_documents_stores _ _ Hdocs) as (_ & _ & Hprd & Hsd & _).
  unfold design_step. rewrite Hprd, Hsd. repeat split; try done. by exists t.
Qed.

(** The export changes the resources store of the designs only. *)
Lemma resources_save_pdf_exports (doc : Document) :
  preserves (exports_by render_event) (resources_save_pdf doc).
Proof.
  intros w r w' Hrun. unfold resources_save_pdf, bind, emit, modify in Hrun.
  cbn [repo set_trace] in Hrun.
  destruct (save_pdf (resources_system_design (repo w)) doc) as [s'|e];
    injection Hrun as <- <-; (split; [|by exists [EvSavePdf doc]; split;
      [|repeat constructor]]); (split; [|done]); cbn;
    by destruct (repo w).
Qed.

Lemma after_save_exports (doc : Document) :
  preserves (exports_by render_event) (after_save doc).
Proof.
  unfold after_save.
  apply preserves_bind;
    [apply _|apply grows_by_exports, _save_data_api_design_grows|intros _].
  apply preserves_bind;
    [apply _|apply grows_by_exports, _save_seq_flow_grows|intros _].
  apply preserves_bind; [apply _|apply resources_save_pdf_exports|intros _].
  apply preserves_ret; apply _.
Qed.

Lemma after_save_value (doc d : Document) (w w' : World) :
  after_save doc w = (Ok d, w') -> d = doc.
Proof.
  unfold after_save, bind, ret.
  destruct (_save_data_api_design doc w) as [[[]|?] w1]; [|done].
  destruct (_save_seq_flow doc w1) as [[[]|?] w2]; [|done].
  destruct (resources_save_pdf doc w2) as [[[]|?] w3]; [|done].
  by intros [= <- _].
Qed.

Lemma new_req_context_format (old_design context : string) :
  py_format NEW_REQ_TEMPLATE [("old_design", old_design); ("context", context)]
  = Ok (new_req_context old_design context).
Proof. reflexivity. Qed.

Lemma system_design_save_run (name body : string) (deps : list string)
    (w : World) :
  system_design_save name body deps w
  = (Ok (design_doc_of w name body), design_saved w name body deps).
Proof. reflexivity. Qed.

Lemma design_saved_lookup (w : World) (name body : string) (deps : list string) :
  store_get (system_design (repo (design_saved w name body deps))) name
  = Some (design_doc_of w name body)
  /\ store_deps (system_design (repo (design_saved w name body deps))) !! name
     = Some deps.
Proof.
  unfold design_saved, store_get, design_doc_of. simpl.
  by rewrite !lookup_insert_eq.
Qed.


Lemma _update_system_design_unfold (name : string) (w : World) :
  _update_system_design name w
  = (doc <- match store_get (system_design (repo w)) name with
            | None => new_design name (store_get (prd (repo w)) name)
            | Some old_doc => refine_design (store_get (prd (repo w)) name) old_doc
            end ;;
     after_save doc) w.
Proof. reflexivity. Qed.

Lemma new_design_run (name : string) (p : Document) (s : string) (w : World) :
  backend w (backend_calls w) (Fill DESIGN_API_NODE (content p)) = Ok s ->
  new_design name (Some p) w
  = (Ok (design_doc_of w name s),
     design_saved (tick (Fill DESIGN_API_NODE (content p)) w) name s
       [root_relative_path p]).
Proof.
  intros Hb. unfold new_design, bind, lift, attr, _new_system_design,
    call_backend. rewrite Hb. reflexivity.
Qed.

Lemma refine_design_run (p old : Document) (s : string) (w : World) :
  let rq := Fill REFINED_DESIGN_NODE
              (new_req_context (content old) (content p)) in
  backend w (backend_calls w) rq = Ok s ->
  refine_design (Some p) old w
  = (Ok (with_content old s),
     design_saved (tick rq w) (filename old) s [root_relative_path p]).
Proof.
  intros rq Hb. unfold refine_design, _merge.
  unfold bind at 1. unfold bind at 1. unfold lift at 1, attr, rbind.
  rewrite new_req_context_format.
  unfold bind at 1. unfold call_backend at 1. fold rq. rewrite Hb.
  reflexivity.
Qed.

Lemma design_saved_trace (w : World) (name body : string) (deps : list string) :
  trace (design_saved w name body deps)
  = trace w ++ [EvStoreSave SystemDesignStore name]
  /\ backend_calls (design_saved w name body deps) = backend_calls w.
Proof. done. Qed.

Lemma store_get_filename (s : Store) (name : string) (d : Document) :
  store_get s name = Some d ->
  filename d = name /\ root_path d = store_root s.
Proof.
  unfold store_get. destruct (store_files s !! name); [|done].
  by intros [= <-].
Qed.

Lemma design_step_tick (name : string) (rq : request) (w : World) :
  design_step name w (tick rq w).
Proof. repeat split; try done. by eexists. Qed.

Lemma design_step_saved (name body : string) (deps : list string) (w : World) :
  design_step name w (design_saved w name body deps).
Proof.
  repeat split; try done; [..|by eexists]; simpl; by rewrite lookup_insert_ne.
Qed.

Lemma design_step_call_backend (name : string) (rq : request) :
  preserves (design_step name) (call_backend rq).
Proof. intros w r w' [= <- <-]. apply design_step_tick. Qed.

Lemma design_step_save (name body : string) (deps : list string) :
  preserves (design_step name) (system_design_save name body deps).
Proof. intros w r w' [= <- <-]. apply design_step_saved. Qed.

Lemma design_step_after_save (name : string) (doc : Document) :
  preserves (design_step name) (after_save doc).
Proof.
  intros w r w' Hrun. eapply exports_by_design_step.
  by eapply after_save_exports.
Qed.

Lemma refine_design_step (name : string) (prd_doc : option Document)
    (old : Document) :
  filename old = name ->
  preserves (design_step name) (refine_design prd_doc old).
Proof.
  intros Hname w r w' Hrun.
  unfold refine_design, _merge, system_design_save_doc in Hrun.
  unfold bind at 1 in Hrun. unfold bind at 1 in Hrun.
  unfold lift at 1 in Hrun.
  destruct (rbind (attr prd_doc content) _) as [ctx|e];
    [|injection Hrun as <- <-; reflexivity].
  unfold bind at 1 in Hrun. unfold call_backend at 1 in Hrun.
  fold (tick (Fill REFINED_DESIGN_NODE ctx) w) in Hrun.
  destruct (backend w (backend_calls w) (Fill REFINED_DESIGN_NODE ctx))
    as [node|e]; [|injection Hrun as <- <-; apply design_step_tick].
  unfold ret at 1 in Hrun. unfold bind at 1 in Hrun. unfold lift at 1 in Hrun.
  destruct (attr prd_doc root_relative_path) as [dep|e];
    [|injection Hrun as <- <-; apply design_step_tick].
  unfold bind in Hrun. rewrite system_design_save_run in Hrun.
  injection Hrun as <- <-. etrans; [apply design_step_tick|].
  cbn [filename with_content]. rewrite Hname. apply design_step_saved.
Qed.

(** [_update_system_design] touches the design store at its file name
    only. *)
Lemma _update_system_design_step (name : string) :
  preserves (design_step name) (_update_system_design name).
Proof.
  intros w r w' Hrun. rewrite _update_system_design_unfold in Hrun.
  revert Hrun. apply preserves_bind; [apply _| |intros doc].
  2: apply design_step_after_save.
  destruct (store_get (system_design (repo w)) name) as [old|] eqn:Hold.
  - destruct (store_get_filename _ _ _ Hold) as [Hname _].
    by apply refine_design_step.
  - unfold new_design, _new_system_design.
    pure_steps.
    apply preserves_bind; [apply _|apply design_step_call_backend|intros ?].
    pure_steps. apply design_step_save.
Qed.

Lemma dict_lookup_set {V} (k k' : string) (v : V) (d : list (string * V)) :
  dict_lookup k' (dict_set k v d)
  = if bool_decide (k = k') then Some v else dict_lookup k' d.
Proof.
  induction d as [|[k0 v0] d IH]; simpl.
  - done.
  - destruct (decide (k0 = k)) as [->|Hne].
    + rewrite (bool_decide_eq_true_2 (k = k)) by done. simpl.
      by destruct (bool_decide (k = k')).
    + rewrite (bool_decide_eq_false_2 (k0 = k)) by done. simpl. rewrite IH.
      destruct (decide (k0 = k')) as [->|Hne'].
      * rewrite (bool_decide_eq_true_2 (k' = k')) by done.
        by rewrite (bool_decide_eq_false_2 (k = k')) by done.
      * by rewrite (bool_decide_eq_false_2 (k0 = k')) by done.
Qed.

(** The first loop of [run]: it never fails, and saves the template for
    each changed requirement file. *)
Lemma save_template_loop (prds : list string) (acc : list (string * Document))
    (w : World) :
  fold_m prds acc save_template w
  = (Ok (prds_changed prds acc), prds_phase w prds).
Proof.
  revert acc w. induction prds as [|name prds IH]; intros acc w; [done|].
  cbn [fold_m]. unfold bind at 1.
  assert (save_template acc name w
          = (Ok (dict_set name {| root_path := EmptyString; filename := name;
                                  content := REACT_NODE_TEMPLATE |} acc),
             design_saved w name REACT_NODE_TEMPLATE [prd_dep w name])) as ->
    by reflexivity.
  by rewrite IH.
Qed.

Lemma prds_changed_lookup (prds : list string) (acc : list (string * Document))
    (k : string) :
  k ∈ prds \/ is_Some (dict_lookup k acc) ->
  is_Some (dict_lookup k (prds_changed prds acc)).
Proof.
  revert acc. induction prds as [|name prds IH]; intros acc; simpl.
  - intros [Hin|?]; [|done]. by apply elem_of_nil in Hin.
  - intros Hk. apply IH. rewrite dict_lookup_set.
    destruct (decide (name = k)) as [->|Hne].
    + right. by rewrite bool_decide_eq_true_2.
    + rewrite bool_decide_eq_false_2 by done.
      destruct Hk as [[?|?]%elem_of_cons|?]; [congruence|by left|by right].
Qed.

Lemma prds_phase_facts (prds : list string) (w : World) :
  let w1 := prds_phase w prds in
  prd (repo w1) = prd (repo w)
  /\ store_root (system_design (repo w1)) = store_root (system_design (repo w))
  /\ backend_calls w1 = backend_calls w
  /\ trace w1 = trace w ++ (EvStoreSave SystemDesignStore <$> prds)
  /\ (forall k, k ∈ prds ->
        store_get (system_design (repo w1)) k = Some (template_design w k)
        /\ store_deps (system_design (repo w1)) !! k = Some [prd_dep w k]).
Proof.
  revert w. induction prds as [|name prds IH]; intros w; simpl.
  - split; [done|]. split; [done|]. split; [done|].
    split; [by rewrite app_nil_r|]. by intros k ?%elem_of_nil.
  - set (w0 := design_saved w name REACT_NODE_TEMPLATE [prd_dep w name]).
    destruct (IH w0) as (Hprd & Hroot & Hcalls & Htr & Hk).
    split; [by rewrite Hprd|]. split; [by rewrite Hroot|].
    split; [by rewrite Hcalls|]. split.
    { rewrite Htr. simpl. by rewrite <- app_assoc. }
    intros k Hin.
    destruct (decide (k ∈ prds)) as [Hin'|Hnotin]; [by apply Hk|].
    assert (k = name) as -> by (apply elem_of_cons in Hin as [?|?]; done).
    clear Hin IH Hk.
    assert (forall l w2,
      name ∉ l ->
      store_files (system_design (repo (prds_phase w2 l))) !! name
      = store_files (system_design (repo w2)) !! name
      /\ store_deps (system_design (repo (prds_phase w2 l))) !! name
         = store_deps (system_design (repo w2)) !! name
      /\ store_root (system_design (repo (prds_phase w2 l)))
         = store_root (system_design (repo w2))) as Hother.
    { induction l as [|x l IHl]; intros w2 Hl; [done|]. simpl.
      apply not_elem_of_cons in Hl as [Hne Hl].
      destruct (IHl (design_saved w2 x REACT_NODE_TEMPLATE [prd_dep w2 x]) Hl)
        as (-> & -> & ->).
      simpl. by rewrite !lookup_insert_ne. }
    destruct (Hother prds w0 Hnotin) as (Hf & Hd & Hr).
    unfold store_get. rewrite Hf, Hd, Hr. unfold w0. simpl.
    by rewrite !lookup_insert_eq.
Qed.

(** The second loop of [run]: the design documents of the file names already
    in the mapping stay as they are. *)
Lemma update_changed_design_loop (designs : list string)
    (keep : string -> Prop) (acc : list (string * Document))
    (w w' : World) (r : result (list (string * Document))) :
  (forall k, keep k -> is_Some (dict_lookup k acc)) ->
  fold_m designs acc update_changed_design w = (r, w') ->
  store_root (system_design (repo w')) = store_root (system_design (repo w))
  /\ (exists t, trace w' = trace w ++ t)
  /\ forall k, keep k ->
       store_files (system_design (repo w')) !! k
       = store_files (system_design (repo w)) !! k
       /\ store_deps (system_design (repo w')) !! k
          = store_deps (system_design (repo w)) !! k.
Proof.
  revert acc w. induction designs as [|name designs IH]; intros acc w Hkeep Hrun.
  - injection Hrun as <- <-. repeat split; try done. exists [].
    by rewrite app_nil_r.
  - cbn [fold_m] in Hrun. unfold bind at 1 in Hrun.
    unfold update_changed_design at 1 in Hrun.
    destruct (dict_lookup name acc) as [d|] eqn:Hlook.
    + unfold ret at 1 in Hrun. by apply (IH acc).
    + assert (forall k, keep k -> k <> name) as Hne.
      { intros k Hk ->. destruct (Hkeep _ Hk) as [? ?]. congruence. }
      unfold bind at 1 in Hrun.
      destruct (_update_system_design name w) as [[doc|e] w1] eqn:Hupd;
        apply _update_system_design_step in Hupd
          as (_ & Hroot & Hsame & t1 & Ht1).
      * unfold ret at 1 in Hrun.
        apply IH in Hrun as (Hroot2 & (t2 & Ht2) & Hsame2).
        -- split; [by rewrite Hroot2|]. split.
           { exists (t1 ++ t2). by rewrite Ht2, Ht1, <- app_assoc. }
           intros k Hk. destruct (Hsame2 k Hk) as [-> ->].
           by apply Hsame, Hne.
        -- intros k Hk. rewrite dict_lookup_set.
           destruct (bool_decide (name = k)); [eauto|by apply Hkeep].
      * injection Hrun as <- <-. split; [done|]. split; [by exists t1|].
        intros k Hk. by apply Hsame, Hne.
Qed.

(** When every file name of the second loop is in the mapping already, the
    loop does nothing. *)
Lemma update_changed_design_skip (designs : list string)
    (acc : list (string * Document)) (w : World) :
  (forall k, k ∈ designs -> is_Some (dict_lookup k acc)) ->
  fold_m designs acc update_changed_design w = (Ok acc, w).
Proof.
  induction designs as [|name designs IH]; intros Hall; [done|].
  cbn [fold_m]. unfold bind at 1. unfold update_changed_design at 1.
  destruct (Hall name) as [d ->]; [by left|]. unfold ret at 1.
  apply IH. intros k Hk. apply Hall. by right.
Qed.

(** C1 (as amended). [_update_system_design] on a file name without a
    design document takes the new-design path: one backend call, with the
    content of the requirement document as context, whose serialized result
    is saved as the design document with a dependency edge to the
    requirement document.  A changed requirement file name does not reach
    that path in [run]: its design document is the fixed template, saved
    with a dependency edge to its path in the requirement store, and no
    backend call is made for it. *)
Theorem new_design_path_and_template :
  (forall (name : string) (p : Document) (s : string) (w : World),
     store_get (prd (repo w)) name = Some p ->
     store_get (system_design (repo w)) name = None ->
     backend w (backend_calls w) (Fill DESIGN_API_NODE (content p)) = Ok s ->
     exists r w' t,
       _update_system_design name w = (r, w')
       /\ trace w' = trace w ++ EvBackend (Fill DESIGN_API_NODE (content p))
                                :: EvStoreSave SystemDesignStore name :: t
       /\ Forall render_event t
       /\ backend_calls w' = S (backend_calls w)
       /\ store_get (system_design (repo w')) name
          = Some (design_doc_of w name s)
       /\ store_deps (system_design (repo w')) !! name
          = Some [root_relative_path p]
       /\ (forall d, r = Ok d -> d = design_doc_of w name s))
  /\ (forall (w w' : World) (r : result (list (string * Document))),
        WriteDesign_run w = (r, w') ->
        (exists t, trace w' = trace w
                     ++ (EvStoreSave SystemDesignStore <$> changed_prds w) ++ t)
        /\ (forall name, name ∈ changed_prds w ->
              store_get (system_design (repo w')) name
              = Some (template_design w name)
              /\ store_deps (system_design (repo w')) !! name
                 = Some [prd_dep w name])
        /\ ((forall name, name ∈ changed_system_designs w ->
                          name ∈ changed_prds w) ->
            backend_calls w' = backend_calls w
            /\ trace w' = trace w
                 ++ (EvStoreSave SystemDesignStore <$> changed_prds w))).
Proof.
  split.
  - intros name p s w Hp Hnone Hb.
    destruct (_update_system_design name w) as [r w'] eqn:Hrun.
    rewrite _update_system_design_unfold, Hp, Hnone in Hrun.
    unfold bind at 1 in Hrun. rewrite (new_design_run name p s w Hb) in Hrun.
    set (w1 := design_saved (tick (Fill DESIGN_API_NODE (content p)) w) name s
                 [root_relative_path p]) in *.
    destruct (after_save_exports _ _ _ _ Hrun) as [Hsame (t & Ht & Hev)].
    pose proof Hsame as (_ & Hcalls & _).
    destruct (same_documents_stores _ _ Hsame) as (_ & _ & _ & Hrepo & _).
    exists r, w', t. split; [reflexivity|]. split.
    { rewrite Ht. unfold w1. simpl. by rewrite <- !app_assoc. }
    split; [done|]. split; [rewrite Hcalls; reflexivity|]. rewrite Hrepo.
    destruct (design_saved_lookup (tick (Fill DESIGN_API_NODE (content p)) w)
                name s [root_relative_path p]) as [Hget Hdeps].
    split; [exact Hget|]. split; [exact Hdeps|].
    intros d ->. by eapply after_save_value.
  - intros w w' r Hrun. unfold WriteDesign_run in Hrun.
    unfold bind at 1 in Hrun. unfold gets at 1 in Hrun.
    unfold bind at 1 in Hrun. unfold gets at 1 in Hrun.
    unfold bind at 1 in Hrun. rewrite save_template_loop in Hrun.
    destruct (prds_phase_facts (changed_prds w) w)
      as (Hprd & Hroot & Hcalls & Htr & Hsaved).
    split; [|split].
    + apply (update_changed_design_loop _ (fun k => k ∈ changed_prds w))
        in Hrun as (_ & (t & Ht) & _).
      * exists t. by rewrite Ht, Htr, <- app_assoc.
      * intros k Hk. apply prds_changed_lookup. by left.
    + intros name Hin.
      apply (update_changed_design_loop _ (fun k => k ∈ changed_prds w))
        in Hrun as (Hroot2 & _ & Hsame).
      * destruct (Hsame name Hin) as [Hf Hd].
        destruct (Hsaved name Hin) as [Hget Hdeps].
        unfold store_get in *. rewrite Hf, Hd, Hroot2. done.
      * intros k Hk. apply prds_changed_lookup. by left.
    + intros Hsub. rewrite update_changed_design_skip in Hrun.
      * injection Hrun as <- <-. done.
      * intros k Hk. apply prds_changed_lookup. left. by apply Hsub.
Qed.

(** *** Further properties of the design synthesis *)

Lemma design_writes_refl (names : list string) (w : World) :
  design_writes names w w.
Proof. split; [by destruct (repo w)|done]. Qed.

Lemma design_writes_trans (names : list string) (w1 w2 w3 : World) :
  design_writes names w1 w2 -> design_writes names w2 w3 ->
  design_writes names w1 w3.
Proof.
  intros (Hr1 & Hw1 & Ho1 & Hk1) (Hr2 & Hw2 & Ho2 & Hk2).
  split; [|split; [congruence|split; [congruence|]]].
  - clear -Hr1 Hr2. revert Hr1 Hr2.
    destruct (repo w3), (repo w2), (repo w1).
    unfold set_resources_system_design, set_system_design. cbn. congruence.
  - intros k Hk. destruct (Hk1 k Hk) as [<- <-]. by apply Hk2.
Qed.

Lemma design_writes_weaken (names names' : list string) (w w' : World) :
  (forall k, k ∈ names -> k ∈ names') ->
  design_writes names w w' -> design_writes names' w w'.
Proof.
  intros Hsub (Hr & Hw & Ho & Hk). repeat split; try done;
    apply Hk; intros Hin; by apply H, Hsub.
Qed.

Lemma design_writes_same_repo (names : list string) (w w' : World) :
  repo w' = repo w -> design_writes names w w'.
Proof.
  intros Hrepo. unfold design_writes. rewrite Hrepo.
  split; [by destruct (repo w)|done].
Qed.

Lemma design_writes_same_documents (names : list string) (w w' : World) :
  same_documents w w' -> design_writes names w w'.
Proof.
  intros Hsame.
  destruct (same_documents_stores _ _ Hsame) as (_ & _ & _ & Hsd & _).
  destruct Hsame as (Hr & _). unfold design_writes. rewrite Hsd.
  split; [|done]. clear -Hr Hsd. revert Hr Hsd.
  destruct (repo w'), (repo w).
  unfold set_resources_system_design, set_system_design. cbn. congruence.
Qed.

Lemma design_writes_saved (name body : string) (deps : list string)
    (w : World) :
  design_writes [name] w (design_saved w name body deps).
Proof.
  unfold design_writes, design_saved. cbn.
  split; [by destruct (repo w)|]. split; [done|]. split; [done|].
  intros k Hk%not_elem_of_cons. destruct Hk as [Hne _].
  by rewrite !lookup_insert_ne.
Qed.

(** The first step of [_update_system_design], the one that asks the
    backend and saves: what it can come to. *)
Lemma design_written (name : string) (w w1 : World) (r : result Document) :
  (match store_get (system_design (repo w)) name with
   | None => new_design name (store_get (prd (repo w)) name)
   | Some old_doc => refine_design (store_get (prd (repo w)) name) old_doc
   end) w = (r, w1) ->
  (store_get (prd (repo w)) name = None /\ r = Raise AttributeError /\ w1 = w)
  \/ (exists rq e, r = Raise e /\ w1 = tick rq w)
  \/ (exists rq s deps d,
        r = Ok d /\ w1 = design_saved (tick rq w) name s deps
        /\ store_get (system_design (repo w1)) name = Some d).
Proof.
  destruct (store_get (prd (repo w)) name) as [p|] eqn:Hp.
  - destruct (store_get (system_design (repo w)) name) as [old|] eqn:Hold.
    + destruct (store_get_filename _ _ _ Hold) as [Hname Hroot].
      set (rq := Fill REFINED_DESIGN_NODE
                   (new_req_context (content old) (content p))).
      destruct (backend w (backend_calls w) rq) as [s|e] eqn:Hb.
      * rewrite (refine_design_run p old s w Hb). fold rq.
        intros [= <- <-]. right. right. rewrite Hname.
        exists rq, s, [root_relative_path p], (with_content old s).
        split; [done|]. split; [done|].
        destruct (design_saved_lookup (tick rq w) name s [root_relative_path p])
          as [-> _].
        unfold design_doc_of, with_content. cbn. by rewrite Hname, Hroot.
      * unfold refine_design, _merge. unfold bind at 1. unfold bind at 1.
        unfold lift at 1. cbn [attr rbind]. rewrite new_req_context_format.
        unfold bind at 1. unfold call_backend. fold rq. rewrite Hb.
        intros [= <- <-]. right. left. by exists rq, e.
    + set (rq := Fill DESIGN_API_NODE (content p)).
      destruct (backend w (backend_calls w) rq) as [s|e] eqn:Hb.
      * rewrite (new_design_run name p s w Hb). fold rq.
        intros [= <- <-]. right. right.
        exists rq, s, [root_relative_path p], (design_doc_of w name s).
        split; [done|]. split; [done|].
        by destruct (design_saved_lookup (tick rq w) name s
                       [root_relative_path p]) as [-> _].
      * unfold new_design. unfold bind at 1. unfold lift at 1. cbn [attr].
        unfold bind at 1. unfold _new_system_design, call_backend. fold rq.
        rewrite Hb. intros [= <- <-]. right. left. by exists rq, e.
  - destruct (store_get (system_design (repo w)) name) as [old|].
    + unfold refine_design, _merge. unfold bind at 1. unfold bind at 1.
      unfold lift at 1. cbn [attr rbind]. intros [= <- <-]. by left.
    + unfold new_design. unfold bind at 1. unfold lift at 1. cbn [attr].
      intros [= <- <-]. by left.
Qed.

(** One update of a design file: it writes at most the design document of
    that name, asks the backend at most once, and, when it returns, has asked
    once and returns the document the store now holds. *)
Lemma _update_system_design_result (name : string) (w w' : World)
    (r : result Document) :
  _update_system_design name w = (r, w') ->
  design_writes [name] w w'
  /\ backend_calls w <= backend_calls w' <= S (backend_calls w)
  /\ (forall d, r = Ok d ->
        backend_calls w' = S (backend_calls w)
        /\ store_get (system_design (repo w')) name = Some d).
Proof.
  rewrite _update_system_design_unfold. unfold bind at 1.
  destruct (match store_get (system_design (repo w)) name with
            | None => new_design name (store_get (prd (repo w)) name)
            | Some old_doc =>
                refine_design (store_get (prd (repo w)) name) old_doc
            end w) as [r1 w1] eqn:H1.
  apply design_written in H1
    as [(_ & -> & ->)|[(rq & e & -> & ->)|(rq & s & deps & d & -> & -> & Hget)]].
  - intros [= <- <-]. split; [apply design_writes_refl|]. split; [lia|done].
  - intros [= <- <-]. split; [by apply design_writes_same_repo|].
    cbn. split; [lia|done].
  - intros Hrun. pose proof (after_save_exports _ _ _ _ Hrun) as [Hsame _].
    pose proof Hsame as (_ & Hcalls & _).
    destruct (same_documents_stores _ _ Hsame) as (_ & _ & _ & Hrepo & _).
    split; [|split].
    + eapply design_writes_trans; [|by apply design_writes_same_documents].
      eapply design_writes_trans; [|apply design_writes_saved].
      by apply design_writes_same_repo.
    + rewrite Hcalls. cbn. lia.
    + intros d' ->. apply after_save_value in Hrun as ->.
      rewrite Hcalls, Hrepo. done.
Qed.

(** X18. The REFINE path: for a file name with a requirement document and a
    design document, the backend is asked once, to refine, with the old
    design as legacy content and the requirement as new requirements; the
    design document keeps its name and root and gets the result as content,
    with a dependency edge to the requirement document. *)
Theorem refined_design_replaces_content
    (name : string) (p old : Document) (s : string) (w : World) :
  store_get (prd (repo w)) name = Some p ->
  store_get (system_design (repo w)) name = Some old ->
  let rq := Fill REFINED_DESIGN_NODE
              (new_req_context (content old) (content p)) in
  backend w (backend_calls w) rq = Ok s ->
  exists r w' t,
    _update_system_design name w = (r, w')
    /\ trace w' = trace w ++ EvBackend rq
                          :: EvStoreSave SystemDesignStore name :: t
    /\ Forall render_event t
    /\ backend_calls w' = S (backend_calls w)
    /\ store_get (system_design (repo w')) name = Some (with_content old s)
    /\ store_deps (system_design (repo w')) !! name
       = Some [root_relative_path p]
    /\ (forall d, r = Ok d -> d = with_content old s).
Proof.
  intros Hp Hold rq Hb.
  destruct (store_get_filename _ _ _ Hold) as [Hname Hroot].
  destruct (_update_system_design name w) as [r w'] eqn:Hrun.
  rewrite _update_system_design_unfold, Hp, Hold in Hrun.
  unfold bind at 1 in Hrun. rewrite (refine_design_run p old s w Hb) in Hrun.
  fold rq in Hrun. rewrite Hname in Hrun.
  set (w1 := design_saved (tick rq w) name s [root_relative_path p]) in *.
  destruct (after_save_exports _ _ _ _ Hrun) as [Hsame (t & Ht & Hev)].
  pose proof Hsame as (_ & Hcalls & _).
  destruct (same_documents_stores _ _ Hsame) as (_ & _ & _ & Hrepo & _).
  exists r, w', t. split; [reflexivity|]. split.
  { rewrite Ht. unfold w1. simpl. by rewrite <- !app_assoc. }
  split; [done|]. split; [rewrite Hcalls; reflexivity|]. rewrite Hrepo.
  destruct (design_saved_lookup (tick rq w) name s [root_relative_path p])
    as [Hget Hdeps].
  split; [|split; [exact Hdeps|]].
  - unfold w1. rewrite Hget. unfold design_doc_of, with_content. cbn.
    by rewrite Hname, Hroot.
  - intros d ->. by eapply after_save_value.
Qed.

Lemma fold_m_app {A S} (l1 l2 : list A) (acc : S) (body : S -> A -> M S)
    (w : World) :
  fold_m (l1 ++ l2) acc body w
  = (acc' <- fold_m l1 acc body ;; fold_m l2 acc' body) w.
Proof.
  revert acc w. induction l1 as [|x l1 IH]; intros acc w; [done|].
  cbn [app fold_m]. unfold bind.
  destruct (body acc x w) as [[acc1|e] w1]; [|done]. by rewrite IH.
Qed.

Lemma prds_changed_get (prds : list string) (acc : list (string * Document))
    (k : string) :
  dict_lookup k (prds_changed prds acc)
  = if decide (k ∈ prds) then Some (template_entry k) else dict_lookup k acc.
Proof.
  revert acc. induction prds as [|name prds IH]; intros acc.
  { cbn. destruct (decide (k ∈ [])) as [H|_]; [by apply elem_of_nil in H|done]. }
  unfold prds_changed in *. cbn [fold_left]. rewrite IH.
  destruct (decide (k ∈ prds)) as [Hin|Hnin].
  - rewrite decide_True by (by right). done.
  - rewrite dict_lookup_set. fold (template_entry name).
    destruct (decide (name = k)) as [->|Hne].
    + rewrite bool_decide_eq_true_2 by done.
      by rewrite decide_True by (by left).
    + rewrite bool_decide_eq_false_2 by done.
      rewrite decide_False; [done|].
      intros [?|?]%elem_of_cons; congruence.
Qed.


(** X19. No design can be made for a file name without a requirement
    document: [_update_system_design] raises [AttributeError] and has done
    nothing; and [run] raises it at the first changed design file that is
    neither a changed requirement file nor has a requirement document, after
    the templates of the changed requirement files were saved. *)
Theorem design_without_requirement_raises (name : string) (w : World) :
  store_get (prd (repo w)) name = None ->
  _update_system_design name w = (Raise AttributeError, w)
  /\ (forall skipped rest,
        changed_system_designs w = skipped ++ name :: rest ->
        (forall k, k ∈ skipped -> k ∈ changed_prds w) ->
        name ∉ changed_prds w ->
        WriteDesign_run w
        = (Raise AttributeError, prds_phase w (changed_prds w))).
Proof.
  intros Hnone.
  assert (forall w0, store_get (prd (repo w0)) name = None ->
            _update_system_design name w0 = (Raise AttributeError, w0)) as Hupd.
  { intros w0 H0. destruct (_update_system_design name w0) as [r w1] eqn:Hrun.
    rewrite _update_system_design_unfold in Hrun. unfold bind at 1 in Hrun.
    destruct (match store_get (system_design (repo w0)) name with
              | None => new_design name (store_get (prd (repo w0)) name)
              | Some old_doc =>
                  refine_design (store_get (prd (repo w0)) name) old_doc
              end w0) as [r1 w2] eqn:H1.
    rewrite H0 in H1.
    destruct (store_get (system_design (repo w0)) name) as [old|].
    - unfold refine_design, _merge in H1. unfold bind at 1 in H1.
      unfold bind at 1 in H1. unfold lift at 1 in H1. cbn [attr rbind] in H1.
      injection H1 as <- <-. by injection Hrun as <- <-.
    - unfold new_design in H1. unfold bind at 1 in H1.
      unfold lift at 1 in H1. cbn [attr] in H1.
      injection H1 as <- <-. by injection Hrun as <- <-. }
  split; [by apply Hupd|]. intros skipped rest Hdesigns Hskipped Hnot.
  unfold WriteDesign_run.
  unfold bind at 1. unfold gets at 1. unfold bind at 1. unfold gets at 1.
  unfold bind at 1. rewrite save_template_loop, Hdesigns, fold_m_app.
  unfold bind at 1. rewrite update_changed_design_skip; cycle 1.
  { intros k Hk. rewrite prds_changed_get.
    by rewrite decide_True by by apply Hskipped. }
  cbn [fold_m]. unfold bind at 1. unfold update_changed_design.
  rewrite prds_changed_get, decide_False by done. cbn [dict_lookup].
  unfold bind at 1. rewrite Hupd; [done|].
  destruct (prds_phase_facts (changed_prds w) w) as (-> & _). done.
Qed.

Lemma prds_phase_writes (prds : list string) (w : World) :
  design_writes prds w (prds_phase w prds).
Proof.
  revert w. induction prds as [|name prds IH]; intros w.
  { apply design_writes_refl. }
  unfold prds_phase in *. cbn [fold_left].
  eapply design_writes_trans.
  - eapply design_writes_weaken; [|apply design_writes_saved].
    intros k ->%list_elem_of_singleton. by left.
  - eapply design_writes_weaken; [|apply IH]. intros k Hk. by right.
Qed.

Lemma update_loop_writes (designs : list string)
    (acc : list (string * Document)) (w w' : World)
    (r : result (list (string * Document))) :
  fold_m designs acc update_changed_design w = (r, w') ->
  design_writes designs w w'.
Proof.
  revert acc w. induction designs as [|name designs IH]; intros acc w Hrun.
  { injection Hrun as <- <-. apply design_writes_refl. }
  cbn [fold_m] in Hrun. unfold bind at 1 in Hrun.
  unfold update_changed_design at 1 in Hrun.
  destruct (dict_lookup name acc) as [d|].
  - unfold ret at 1 in Hrun. apply IH in Hrun.
    eapply design_writes_weaken; [|done]. intros k Hk. by right.
  - unfold bind at 1 in Hrun.
    destruct (_update_system_design name w) as [[doc|e] w1] eqn:Hupd;
      apply _update_system_design_result in Hupd as (Hw & _).
    + unfold ret at 1 in Hrun. apply IH in Hrun.
      eapply design_writes_trans.
      * eapply design_writes_weaken; [|done].
        intros k ->%list_elem_of_singleton. by left.
      * eapply design_writes_weaken; [|done]. intros k Hk. by right.
    + injection Hrun as <- <-. eapply design_writes_weaken; [|done].
      intros k ->%list_elem_of_singleton. by left.
Qed.

(** X20. Of the stores of the repository, [run] writes to the design
    store, at the changed file names, and to the resources store of the
    designs, for their export, and to no other: the requirement store, the
    other stores of documents, the test outputs and the two source stores
    are as they were, and a design document whose name is in neither list
    of changed files keeps its content and its dependencies, whatever the
    outcome. *)
Theorem run_writes_changed_designs_only
    (w w' : World) (r : result (list (string * Document))) :
  WriteDesign_run w = (r, w') ->
  (workdir (repo w') = workdir (repo w)
   /\ docs (repo w') = docs (repo w)
   /\ prd (repo w') = prd (repo w)
   /\ task (repo w') = task (repo w)
   /\ code_summary (repo w') = code_summary (repo w)
   /\ test_outputs (repo w') = test_outputs (repo w)
   /\ srcs (repo w') = srcs (repo w)
   /\ old_workspace (repo w') = old_workspace (repo w))
  /\ forall k,
       k ∉ changed_prds w -> k ∉ changed_system_designs w ->
       store_get (system_design (repo w')) k
       = store_get (system_design (repo w)) k
       /\ store_deps (system_design (repo w')) !! k
          = store_deps (system_design (repo w)) !! k.
Proof.
  intros Hrun. unfold WriteDesign_run in Hrun.
  unfold bind at 1 in Hrun. unfold gets at 1 in Hrun.
  unfold bind at 1 in Hrun. unfold gets at 1 in Hrun.
  unfold bind at 1 in Hrun. rewrite save_template_loop in Hrun.
  apply update_loop_writes in Hrun.
  pose proof (prds_phase_writes (changed_prds w) w) as Hfirst.
  assert (design_writes (changed_prds w ++ changed_system_designs w) w w')
    as (Hrepo & _ & Hroot & Hk).
  { eapply design_writes_trans.
    - eapply design_writes_weaken; [|exact Hfirst].
      intros k Hk. apply elem_of_app. by left.
    - eapply design_writes_weaken; [|exact Hrun].
      intros k Hk. apply elem_of_app. by right. }
  split; [rewrite <- Hrepo; by cbn|]. intros k Hp Hd.
  destruct (Hk k) as [Hf Hdeps].
  { intros [?|?]%elem_of_app; done. }
  unfold store_get. by rewrite Hf, Hroot.
Qed.

Lemma filter_length_mono {A} (P Q : A -> Prop)
    `{!forall x, Decision (P x)} `{!forall x, Decision (Q x)} (l : list A) :
  (forall x, x ∈ l -> P x -> Q x) ->
  length (filter P l) <= length (filter Q l).
Proof.
  induction l as [|x l IH]; intros Himp; [done|].
  assert (length (filter P l) <= length (filter Q l)) as Hle.
  { apply IH. intros y Hy. apply Himp. by right. }
  rewrite !filter_cons.
  destruct (decide (P x)) as [HP|HP], (decide (Q x)) as [HQ|HQ]; cbn; try lia.
  destruct HQ. apply Himp; [by left|done].
Qed.

Lemma filter_length_same {A} (P Q : A -> Prop)
    `{!forall x, Decision (P x)} `{!forall x, Decision (Q x)} (l : list A) :
  (forall x, x ∈ l -> P x <-> Q x) ->
  length (filter P l) = length (filter Q l).
Proof.
  intros Hiff. apply Nat.le_antisymm; apply filter_length_mono;
    intros x Hx; by apply Hiff.
Qed.

(** The second loop of [run]: the backend is asked at most once for each
    name that has no entry yet, and exactly once for each when the loop
    returns and no name is listed twice. *)
Lemma update_loop_calls (designs : list string)
    (acc : list (string * Document)) (w w' : World)
    (r : result (list (string * Document))) :
  fold_m designs acc update_changed_design w = (r, w') ->
  let pending := filter (fun k => dict_lookup k acc = None) designs in
  backend_calls w <= backend_calls w' <= backend_calls w + length pending
  /\ (is_ok r = true -> NoDup designs ->
      backend_calls w' = backend_calls w + length pending).
Proof.
  revert acc w. induction designs as [|name designs IH]; intros acc w Hrun.
  { injection Hrun as <- <-. cbn. split; [lia|]. intros _ _. lia. }
  cbn [fold_m] in Hrun. unfold bind at 1 in Hrun.
  unfold update_changed_design at 1 in Hrun. cbv zeta.
  destruct (dict_lookup name acc) as [d|] eqn:Hlook.
  - unfold ret at 1 in Hrun. apply IH in Hrun as [Hle Heq]. cbv zeta in *.
    rewrite filter_cons_False by (by rewrite Hlook).
    split; [done|]. intros Hok Hnd. apply Heq; [done|].
    by apply NoDup_cons in Hnd as [_ ?].
  - rewrite filter_cons_True by done. cbn [length].
    unfold bind at 1 in Hrun.
    destruct (_update_system_design name w) as [[doc|e] w1] eqn:Hupd;
      apply _update_system_design_result in Hupd as (_ & Hcalls & Hok1).
    + destruct (Hok1 doc eq_refl) as [Hone _].
      unfold ret at 1 in Hrun. apply IH in Hrun as [Hle Heq]. cbv zeta in *.
      split.
      * pose proof (filter_length_mono
                      (fun k => dict_lookup k (dict_set name doc acc) = None)
                      (fun k => dict_lookup k acc = None) designs) as Hmono.
        cbv beta in Hmono. rewrite Hone in Hle.
        assert (forall x, x ∈ designs ->
                  dict_lookup x (dict_set name doc acc) = None ->
                  dict_lookup x acc = None) as Himp.
        { intros x _. rewrite dict_lookup_set.
          by destruct (bool_decide (name = x)). }
        specialize (Hmono Himp). lia.
      * intros Hok Hnd. apply NoDup_cons in Hnd as [Hnot Hnd].
        rewrite (Heq Hok Hnd), Hone.
        rewrite (filter_length_same
                   (fun k => dict_lookup k (dict_set name doc acc) = None)
                   (fun k => dict_lookup k acc = None) designs); [lia|].
        intros x Hx. rewrite dict_lookup_set.
        rewrite bool_decide_eq_false_2; [done|]. by intros ->.
    + injection Hrun as <- <-. split; [lia|]. done.
Qed.

(** X21. [run] asks the backend at most once for each changed design file
    that is not a changed requirement file, and never for a changed
    requirement file; when it returns and no design file is listed twice it
    has asked exactly once for each of them. *)
Theorem run_backend_calls
    (w w' : World) (r : result (list (string * Document))) :
  WriteDesign_run w = (r, w') ->
  let updated := to_update (changed_prds w) (changed_system_designs w) in
  backend_calls w <= backend_calls w' <= backend_calls w + length updated
  /\ (is_ok r = true -> NoDup (changed_system_designs w) ->
      backend_calls w' = backend_calls w + length updated).
Proof.
  intros Hrun. unfold WriteDesign_run in Hrun.
  unfold bind at 1 in Hrun. unfold gets at 1 in Hrun.
  unfold bind at 1 in Hrun. unfold gets at 1 in Hrun.
  unfold bind at 1 in Hrun. rewrite save_template_loop in Hrun.
  apply update_loop_calls in Hrun. cbv zeta in *.
  destruct (prds_phase_facts (changed_prds w) w) as (_ & _ & Hcalls & _).
  rewrite Hcalls in Hrun.
  assert (filter (fun k => dict_lookup k (prds_changed (changed_prds w) []) = None)
            (changed_system_designs w)
          = to_update (changed_prds w) (changed_system_designs w)) as Hsame.
  { unfold to_update. apply list_filter_iff. intros k.
    rewrite prds_changed_get. destruct (decide (k ∈ changed_prds w)); cbn; split;
      done. }
  by rewrite Hsame in Hrun.
Qed.

(** The mapping the second loop of [run] returns: the entries it started
    with, and for every other name of the list the document the design store
    holds for it. *)
Lemma update_loop_mapping (designs : list string)
    (acc m : list (string * Document)) (w w' : World) :
  fold_m designs acc update_changed_design w = (Ok m, w') ->
  forall k,
    match dict_lookup k acc with
    | Some d => dict_lookup k m = Some d
    | None =>
        if decide (k ∈ designs)
        then exists d, dict_lookup k m = Some d
                       /\ store_get (system_design (repo w')) k = Some d
        else dict_lookup k m = None
    end.
Proof.
  revert acc w. induction designs as [|name designs IH]; intros acc w Hrun k.
  { injection Hrun as <- <-. destruct (dict_lookup k acc) eqn:Hk; [done|].
    destruct (decide (k ∈ [])) as [H|_]; [by apply elem_of_nil in H|done]. }
  cbn [fold_m] in Hrun. unfold bind at 1 in Hrun.
  unfold update_changed_design at 1 in Hrun.
  destruct (dict_lookup name acc) as [d0|] eqn:Hlook.
  - unfold ret at 1 in Hrun. specialize (IH _ _ Hrun k).
    destruct (dict_lookup k acc) as [d|] eqn:Hk; [done|].
    assert (k <> name) as Hne by congruence.
    destruct (decide (k ∈ designs)) as [Hin|Hnin].
    + by rewrite decide_True by by right.
    + rewrite decide_False; [done|]. intros [?|?]%elem_of_cons; done.
  - unfold bind at 1 in Hrun.
    destruct (_update_system_design name w) as [[doc|e] w1] eqn:Hupd;
      [|done].
    apply _update_system_design_result in Hupd as (_ & _ & Hok1).
    destruct (Hok1 doc eq_refl) as [_ Hget].
    unfold ret at 1 in Hrun. pose proof (IH _ _ Hrun k) as Hk'.
    rewrite dict_lookup_set in Hk'.
    destruct (decide (name = k)) as [->|Hne].
    + rewrite bool_decide_eq_true_2 in Hk' by done. rewrite Hlook.
      rewrite decide_True by by left. exists doc. split; [done|].
      apply (update_changed_design_loop _ (fun x => x = k)) in Hrun
        as (Hroot & _ & Hsame).
      * destruct (Hsame k eq_refl) as [Hf _].
        unfold store_get in *. by rewrite Hf, Hroot.
      * intros x ->. rewrite dict_lookup_set.
        by rewrite bool_decide_eq_true_2.
    + rewrite bool_decide_eq_false_2 in Hk' by done.
      destruct (dict_lookup k acc) as [d|] eqn:Hk; [done|].
      destruct (decide (k ∈ designs)) as [Hin|Hnin].
      * by rewrite decide_True by by right.
      * rewrite decide_False; [done|]. intros [?|?]%elem_of_cons; congruence.
Qed.

(** X22. The mapping [run] returns has one entry for each changed file and
    no other: for a changed requirement file the template document, with an
    empty root path; for any other changed design file the document the
    design store holds for it after the run. *)
Theorem run_returns_changed_documents
    (w w' : World) (m : list (string * Document)) :
  WriteDesign_run w = (Ok m, w') ->
  forall k,
    (k ∈ changed_prds w -> dict_lookup k m = Some (template_entry k))
    /\ (k ∉ changed_prds w -> k ∈ changed_system_designs w ->
        exists d, dict_lookup k m = Some d
                  /\ store_get (system_design (repo w')) k = Some d)
    /\ (k ∉ changed_prds w -> k ∉ changed_system_designs w ->
        dict_lookup k m = None).
Proof.
  intros Hrun k. unfold WriteDesign_run in Hrun.
  unfold bind at 1 in Hrun. unfold gets at 1 in Hrun.
  unfold bind at 1 in Hrun. unfold gets at 1 in Hrun.
  unfold bind at 1 in Hrun. rewrite save_template_loop in Hrun.
  pose proof (update_loop_mapping _ _ _ _ _ Hrun k) as Hk.
  rewrite prds_changed_get in Hk. cbn [dict_lookup] in Hk.
  destruct (decide (k ∈ changed_prds w)) as [Hp|Hp].
  { split; [done|]. split; intros; done. }
  destruct (decide (k ∈ changed_system_designs w)) as [Hd|Hd].
  - split; [done|]. split; [done|]. intros; done.
  - split; [done|]. split; [done|]. done.
Qed.

Lemma py_or_not_given (kvs : list (string * json)) (primary refined : string) :
  not_given (dict_lookup primary kvs) ->
  not_given (dict_lookup refined kvs) ->
  json_truthy
    (py_or (match dict_lookup primary kvs with Some v => v | None => JNull end)
           (match dict_lookup refined kvs with Some v => v | None => JNull end))
  = false.
Proof.
  unfold py_or, not_given.
  destruct (dict_lookup primary kvs) as [a|], (dict_lookup refined kvs) as [b|];
    cbn; intros Ha Hb; rewrite ?Ha; done.
Qed.

Lemma py_or_given (kvs : list (string * json)) (primary refined : string)
    (v : json) :
  diagram_given kvs primary refined v ->
  py_or (match dict_lookup primary kvs with Some x => x | None => JNull end)
        (match dict_lookup refined kvs with Some x => x | None => JNull end)
  = v.
Proof.
  unfold diagram_given, py_or, not_given.
  intros [Hv [-> | [Hp ->]]]; cbn; [by rewrite Hv|].
  destruct (dict_lookup primary kvs) as [a|]; cbn; [by rewrite Hp|done].
Qed.

Lemma _save_mermaid_file_run (data : json) (pathname : path) (w : World)
    (f : FS) :
  mkdir_parents (path_parent pathname) (fs w) = Ok f ->
  exists w', _save_mermaid_file data pathname w = (Ok tt, w')
             /\ diagram_rendered w w' data pathname f.
Proof.
  intros Hmk. unfold _save_mermaid_file, bind, mkdir, emit, modify, bind.
  cbn [fs set_trace]. rewrite Hmk. eexists. split; [reflexivity|].
  unfold diagram_rendered. cbn. by rewrite <- app_assoc.
Qed.

(** X23. The two extraction steps on a design that decodes to an object:
    each renders the diagram given under its key, or else under its refined
    key, to the file named after the design document, without its suffix,
    in its own directory of the workspace; when neither key gives one, the
    step does nothing. *)
Theorem design_diagrams_rendered
    (doc : Document) (kvs : list (string * json)) (w : World) :
  json_loads (content doc) = Some (JObj kvs) ->
  (not_given (dict_lookup DATA_STRUCTURES_AND_INTERFACES_key kvs) ->
   not_given (dict_lookup REFINED_DATA_STRUCTURES_AND_INTERFACES_key kvs) ->
   _save_data_api_design doc w = (Ok tt, w))
  /\ (not_given (dict_lookup PROGRAM_CALL_FLOW_key kvs) ->
      not_given (dict_lookup REFINED_PROGRAM_CALL_FLOW_key kvs) ->
      _save_seq_flow doc w = (Ok tt, w))
  /\ (forall v stem f,
        diagram_given kvs DATA_STRUCTURES_AND_INTERFACES_key
          REFINED_DATA_STRUCTURES_AND_INTERFACES_key v ->
        with_suffix_empty (Path (filename doc)) = Ok stem ->
        let pathname := diagram_path w (Path DATA_API_DESIGN_FILE_REPO) stem in
        mkdir_parents (path_parent pathname) (fs w) = Ok f ->
        exists w', _save_data_api_design doc w = (Ok tt, w')
                   /\ diagram_rendered w w' v pathname f)
  /\ (forall v stem f,
        diagram_given kvs PROGRAM_CALL_FLOW_key REFINED_PROGRAM_CALL_FLOW_key v ->
        with_suffix_empty (Path (filename doc)) = Ok stem ->
        let pathname := diagram_path w (Path SEQ_FLOW_FILE_REPO) stem in
        mkdir_parents (path_parent pathname) (fs w) = Ok f ->
        exists w', _save_seq_flow doc w = (Ok tt, w')
                   /\ diagram_rendered w w' v pathname f).
Proof.
  intros Hm. split; [|split; [|split]].
  - intros Hp Hr. unfold _save_data_api_design, bind, lift, loads.
    rewrite Hm. cbn [py_get].
    by rewrite py_or_not_given.
  - intros Hp Hr. unfold _save_seq_flow, bind, lift, loads.
    rewrite Hm. cbn [py_get].
    by rewrite py_or_not_given.
  - intros v stem f Hgiven Hstem pathname Hmk.
    pose proof Hgiven as [Hv _]. apply py_or_given in Hgiven.
    destruct (_save_mermaid_file_run v pathname w f Hmk) as (w' & Hrun & Hw).
    exists w'. split; [|done].
    unfold _save_data_api_design, bind, lift, loads, gets.
    rewrite Hm. cbn [py_get].
    rewrite Hgiven, Hv, Hstem. cbn [negb]. exact Hrun.
  - intros v stem f Hgiven Hstem pathname Hmk.
    pose proof Hgiven as [Hv _]. apply py_or_given in Hgiven.
    destruct (_save_mermaid_file_run v pathname w f Hmk) as (w' & Hrun & Hw).
    exists w'. split; [|done].
    unfold _save_seq_flow, bind, lift, loads, gets.
    rewrite Hm. cbn [py_get].
    rewrite Hgiven, Hv, Hstem. cbn [negb]. exact Hrun.
Qed.

(** X24. A design that decodes to something other than an object makes
    both extraction steps raise [AttributeError], with nothing done. *)
Theorem non_object_design_raises (doc : Document) (m : json) (w : World) :
  json_loads (content doc) = Some m ->
  (forall kvs, m <> JObj kvs) ->
  _save_data_api_design doc w = (Raise AttributeError, w)
  /\ _save_seq_flow doc w = (Raise AttributeError, w).
Proof.
  intros Hm Hnot.
  unfold _save_data_api_design, _save_seq_flow, bind, lift, loads.
  rewrite Hm. destruct m; try done. by destruct (Hnot members).
Qed.

End Design.

(* ===================================================================== *)
(** ** The example projects, run *)

Section Examples.
Import Demo Example.

(** C1, counterexample: [a.md] is a changed requirement file without a
    design document; [run] makes no backend call, and the design document it
    saves holds the fixed template, not the result of the backend. *)
Lemma changed_requirement_not_synthesized :
  let w' := (WriteDesign_run changed_prd_world).2 in
  store_get (system_design (repo changed_prd_world)) "a.md" = None
  /\ backend_calls w' = 0
  /\ (forall rq, EvBackend rq ∉ trace w')
  /\ content <$> store_get (system_design (repo w')) "a.md"
     = Some REACT_NODE_TEMPLATE
  /\ ~ (backend_calls w' = 1
        /\ content <$> store_get (system_design (repo w')) "a.md" = Some "{}").
Proof.
  intros w'.
  assert (trace w' = [EvStoreSave SystemDesignStore "a.md"]) as Htrace
    by (vm_compute; reflexivity).
  assert (backend_calls w' = 0) as Hcalls by (vm_compute; reflexivity).
  split; [vm_compute; reflexivity|]. split; [exact Hcalls|]. split.
  - intros rq Hin. rewrite Htrace in Hin.
    apply list_elem_of_singleton in Hin. discriminate Hin.
  - split; [vm_compute; reflexivity|]. intros [H _]. rewrite Hcalls in H.
    discriminate H.
Qed.

Lemma new_design_path_and_template_witness :
  (exists r w',
     _update_system_design "a.md" new_design_world = (r, w')
     /\ backend_calls w' = 1
     /\ content <$> store_get (system_design (repo w')) "a.md" = Some "{}")
  /\ backend_calls (WriteDesign_run changed_prd_world).2 = 0.
Proof.
  split.
  - destruct (proj1 new_design_path_and_template "a.md"
                {| root_path := "docs/prd"; filename := "a.md";
                   content := "the requirements" |} "{}" new_design_world)
      as (r & w' & t & Hrun & _ & _ & Hcalls & Hget & _);
      [vm_compute; reflexivity ..|].
    exists r, w'. split; [exact Hrun|]. split; [exact Hcalls|].
    rewrite Hget. reflexivity.
  - destruct (proj2 new_design_path_and_template changed_prd_world
                (WriteDesign_run changed_prd_world).2
                (WriteDesign_run changed_prd_world).1) as (_ & _ & Hnone).
    + apply surjective_pairing.
    + destruct Hnone as [Hcalls _]; [|exact Hcalls].
      intros name Hin. vm_compute in Hin. by apply elem_of_nil in Hin.
Defined.

(** C2, counterexample: [c.js] is in the prior-iteration store only and is
    not the excluded file; the assembled text has no block for it and does
    not hold its prior-iteration content. *)
Lemma old_only_file_gets_no_block :
  "c.js" ∈ all_files (old_workspace project)
  /\ store_get (srcs project) "c.js" = None
  /\ get_codes (Some task_document) "b.js" project true
     = Ok (rewrite_block "b.js" "OLD B" +:+ nl +:+ code_block "a.js" "A")
  /\ ~ (exists text,
          get_codes (Some task_document) "b.js" project true = Ok text
          /\ contains (code_block "c.js" "OLD C") text = true).
Proof.
  split; [|split; [|split]].
  - apply elem_of_all_files. vm_compute. eauto.
  - vm_compute. reflexivity.
  - vm_compute. reflexivity.
  - intros (text & Hrun & Hblock). vm_compute in Hrun.
    injection Hrun as <-. vm_compute in Hblock. discriminate Hblock.
Qed.

Lemma incremental_absent_from_src_skipped_witness :
  "c.js" ∉ kept "b.js" (srcs project)
             (union_files (all_files (srcs project))
                (all_files (old_workspace project))).
Proof.
  destruct (incremental_absent_from_src_skipped task_document "b.js" project
              [("Task list", JArr [JStr "a.js"; JStr "b.js"; JStr "c.js"]);
               ("Refined Task list", JArr [JStr "a.js"; JStr "b.js"; JStr "c.js"])]
              "c.js") as (_ & Hnot & _).
  - vm_compute. reflexivity.
  - vm_compute. reflexivity.
  - apply elem_of_all_files. vm_compute. eauto.
  - discriminate.
  - vm_compute. reflexivity.
  - exact Hnot.
Defined.





(** C5, counterexample: every call of the backend fails, so that the
    generation is given up after six calls and downgraded to empty code, and
    a regular file stands where the workspace directory should be; [run]
    does not return a coding context, it raises the error of the [mkdir] of
    the critical-file pass. *)
Lemma exhausted_generation_run_raises :
  let out := WriteCode_run manifest_i_context exhausted_blocked_world in
  (forall n rq, backend exhausted_blocked_world n rq = Raise BackendError)
  /\ CodingContext_loads (content manifest_i_context) = Some manifest_context_bare
  /\ out.1 = Raise FileExistsError
  /\ backend_calls out.2 = 6
  /\ ~ (exists cc w',
          WriteCode_run manifest_i_context exhausted_blocked_world
          = (Ok cc, w')).
Proof.
  intros out. split; [reflexivity|]. split; [vm_compute; reflexivity|].
  assert (out.1 = Raise FileExistsError) as Hout by (vm_compute; reflexivity).
  split; [exact Hout|]. split; [vm_compute; reflexivity|].
  intros (cc & w' & Hrun). unfold out in Hout. rewrite Hrun in Hout.
  discriminate Hout.
Qed.

Lemma generation_retries_then_downgrade_witness :
  write_code "write main.js"
    (world_of project [] [] bare_workspace (fails_first 5 "code"))
  = (Ok (parse_code "code"),
     Nat.iter 6 (tick (Ask "write main.js"))
       (world_of project [] [] bare_workspace (fails_first 5 "code")))
  /\ exists w',
       run_write manifest_context "write package.json"
         (world_of project [] [] bare_workspace always_fails)
       = (Ok (final_context manifest_context EmptyString
                (Some ["/"; "ws"; "src"])), w').
Proof.
  split.
  - apply (proj1 generation_retries_then_downgrade "write main.js" "code").
    + intros i Hi. simpl. unfold fails_first.
      rewrite bool_decide_eq_true_2 by lia. reflexivity.
    + vm_compute. reflexivity.
  - destruct (proj2 generation_retries_then_downgrade "write package.json"
                (world_of project [] [] bare_workspace always_fails))
      as [_ Hrun].
    + intros i Hi. reflexivity.
    + destruct (Hrun manifest_context) as [_ Hw]; [vm_compute; reflexivity|].
      exact Hw.
Defined.

Lemma incremental_marker_first_witness :
  exists text,
    get_codes (Some task_document) "b.js" project true = Ok text
    /\ starts_with ("-----Now, b.js to be rewritten" +:+ nl +:+ "```OLD B```"
                    +:+ nl +:+ "=====") text = true
    /\ contains "OLD B" text = true.
Proof.
  destruct (incremental_marker_first task_document "b.js" project
              [("Task list", JArr [JStr "a.js"; JStr "b.js"; JStr "c.js"]);
               ("Refined Task list", JArr [JStr "a.js"; JStr "b.js"; JStr "c.js"])]
              {| root_path := "old"; filename := "b.js"; content := "OLD B" |})
    as (text & Hrun & _ & Hstart & _ & Hin & _).
  - vm_compute. reflexivity.
  - vm_compute. reflexivity.
  - vm_compute. reflexivity.
  - discriminate.
  - exists text. split; [exact Hrun|]. split; [exact Hstart|exact Hin].
Defined.

Lemma normal_mode_skips_exclude_keeps_order_witness :
  get_codes (Some task_document) "b.js" project false
  = Ok (join nl (block_of (srcs project)
                 <$> kept "b.js" (srcs project) ["a.js"; "b.js"; "c.js"]))
  /\ "b.js" ∉ kept "b.js" (srcs project) ["a.js"; "b.js"; "c.js"].
Proof.
  destruct (normal_mode_skips_exclude_keeps_order task_document "b.js" project
              (JObj [("Task list", JArr [JStr "a.js"; JStr "b.js"; JStr "c.js"]);
                     ("Refined Task list",
                      JArr [JStr "a.js"; JStr "b.js"; JStr "c.js"])])
              ["a.js"; "b.js"; "c.js"]) as (Hrun & Hnot & _).
  - vm_compute. reflexivity.
  - vm_compute. reflexivity.
  - vm_compute. reflexivity.
  - split; [exact Hrun|exact Hnot].
Defined.

Lemma ensure_critical_files_idempotent_witness :
  let w1 := (ensure_critical_files nested_context changed_prd_world).2 in
  fs changed_prd_world ⊆ fs w1
  /\ exists w2, ensure_critical_files nested_context w1 = (Ok ∅, w2)
                /\ fs w2 = fs w1.
Proof.
  intros w1.
  destruct (ensure_critical_files_idempotent nested_context
              (code_document "myapp/backend/server.js" "old code")
              changed_prd_world w1
              (ensure_critical_files nested_context changed_prd_world).1)
    as (Hsub & _ & Hidem).
  - reflexivity.
  - apply surjective_pairing.
  - split; [exact Hsub|]. apply Hidem; vm_compute; reflexivity.
Defined.

Lemma ensure_project_root_witness :
  (exists a w',
     ensure_critical_files nested_context changed_prd_world = (Ok a, w')
     /\ fs_is_dir (fs w') ["/"; "ws"; "myapp"; "frontend"] = true
     /\ fs_is_dir (fs w') ["/"; "ws"; "myapp"; "backend"] = true)
  /\ project_dir_of (Path "/ws") "package.json" = Path "/ws"
  /\ fs (ensure_critical_files manifest_context changed_prd_world).2
       !! path_div (Path "/ws") "frontend"
     = fs changed_prd_world !! path_div (Path "/ws") "frontend".
Proof.
  split.
  - destruct (ensure_project_root nested_context
                (code_document "myapp/backend/server.js" "old code")
                changed_prd_world) as [Hnested _];
      [vm_compute; reflexivity ..|].
    destruct (Hnested "myapp" ["backend"; "server.js"]) as [_ Hrun].
    + vm_compute. reflexivity.
    + intros Hin. apply list_elem_of_In in Hin. simpl in Hin.
      destruct Hin as [H|[H|[H|[]]]]; discriminate H.
    + destruct Hrun as (a & w' & t & Hens & Hfe & Hbe & _);
        [vm_compute; reflexivity ..|].
      exists a, w'. split; [exact Hens|]. split; [exact Hfe|exact Hbe].
  - destruct (ensure_project_root manifest_context
                (code_document "package.json" "{}")
                changed_prd_world) as [_ Hflat];
      [vm_compute; reflexivity ..|].
    destruct (Hflat "package.json" []) as [Hpd Hrun].
    + vm_compute. reflexivity.
    + apply list_elem_of_In. simpl. auto.
    + split; [exact Hpd|].
      destruct (Hrun (ensure_critical_files manifest_context changed_prd_world).1
                  (ensure_critical_files manifest_context changed_prd_world).2)
        as (_ & Hfe & _); [apply surjective_pairing|exact Hfe].
Defined.

Lemma bugfix_code_context_is_code_doc_witness :
  run_code_context
    (Some {| root_path := "docs"; filename := "bugfix.txt";
             content := "it crashes" |})
    context_of_bugfix bugfix_i_context bugfix_world
  = (Ok "old code", bugfix_world)
  /\ exists prompt r w' t,
       contains "old code" prompt = true
       /\ WriteCode_run bugfix_i_context bugfix_world = (r, w')
       /\ trace w' = trace bugfix_world ++ EvBackend (Ask prompt) :: t
       /\ Forall (write_event prompt) t.
Proof.
  destruct (bugfix_code_context_is_code_doc bugfix_i_context
              {| root_path := "docs"; filename := "bugfix.txt";
                 content := "it crashes" |}
              context_of_bugfix (code_document "main.js" "old code")
              bugfix_world) as (Hcontext & _ & Hprompt);
    [vm_compute; reflexivity ..|].
  split; [exact Hcontext|].
  set (prompt :=
         match bugfix_prompt bugfix_world context_of_bugfix bugfix_i_context
                 {| root_path := "docs"; filename := "bugfix.txt";
                    content := "it crashes" |} "old code" EmptyString with
         | Ok text => text
         | Raise _ => EmptyString
         end).
  destruct (Hprompt EmptyString prompt) as (r & w' & t & Hrun & Htrace & Hall);
    [vm_compute; reflexivity ..|].
  exists prompt, r, w', t. split; [vm_compute; reflexivity|].
  split; [exact Hrun|]. split; [exact Htrace|exact Hall].
Defined.

Lemma normal_mode_empty_text_witness :
  get_codes (Some (task_of other_member)) "b.js" project false = Ok EmptyString
  /\ (get_codes (Some task_document) "b.js" project false = Ok EmptyString
      <-> kept "b.js" (srcs project) ["a.js"; "b.js"; "c.js"] = []).
Proof.
  split.
  - destruct (normal_mode_empty_text (task_of other_member) "b.js" project)
      as [Hnokey _]; [vm_compute; reflexivity|].
    apply (Hnokey [("Owner", JStr "somebody")]); vm_compute; reflexivity.
  - destruct (normal_mode_empty_text task_document "b.js" project)
      as [_ Hlist]; [vm_compute; reflexivity|].
    apply (Hlist
             (JObj [("Task list", JArr [JStr "a.js"; JStr "b.js"; JStr "c.js"]);
                    ("Refined Task list",
                     JArr [JStr "a.js"; JStr "b.js"; JStr "c.js"])]));
      vm_compute; reflexivity.
Defined.

Lemma get_codes_unreadable_task_doc_witness :
  get_codes (Some (task_of "oops")) "b.js" project true = Raise JSONDecodeError
  /\ get_codes (Some (task_of (array [q "a.js"]))) "b.js" project false
     = Raise AttributeError
  /\ get_codes (Some (task_of null_task_list)) "b.js" project false
     = Raise TypeError.
Proof.
  split; [|split].
  - destruct (get_codes_unreadable_task_doc (task_of "oops") "b.js" project)
      as (Hbad & _); [vm_compute; reflexivity|].
    apply Hbad. vm_compute. reflexivity.
  - destruct (get_codes_unreadable_task_doc (task_of (array [q "a.js"]))
                "b.js" project) as (_ & Hlist & _); [vm_compute; reflexivity|].
    apply (Hlist (JArr [JStr "a.js"])); [vm_compute; reflexivity|].
    intros kvs H. discriminate H.
  - destruct (get_codes_unreadable_task_doc (task_of null_task_list)
                "b.js" project) as (_ & _ & Hnull); [vm_compute; reflexivity|].
    apply (Hnull [("Task list", JNull)] JNull); vm_compute; reflexivity.
Defined.

Lemma incremental_ignores_task_lists_witness :
  get_codes (Some task_document) "b.js" project true
  = get_codes (Some (task_of other_task_text)) "b.js" project true.
Proof.
  apply (incremental_ignores_task_lists task_document (task_of other_task_text)
           "b.js" project
           [("Task list", JArr [JStr "a.js"; JStr "b.js"; JStr "c.js"]);
            ("Refined Task list", JArr [JStr "a.js"; JStr "b.js"; JStr "c.js"])]
           [("Task list", JArr [JStr "x.js"]);
            ("Refined Task list", JArr [JStr "y.js"; JStr "z.js"])]);
    vm_compute; reflexivity.
Defined.

Lemma incremental_without_marker_witness :
  get_codes (Some task_document) "a.js" project true
  = Ok (join nl (block_of (srcs project)
                 <$> kept "a.js" (srcs project)
                       (union_files (all_files (srcs project))
                          (all_files (old_workspace project))))).
Proof.
  destruct (incremental_without_marker task_document "a.js" project
              [("Task list", JArr [JStr "a.js"; JStr "b.js"; JStr "c.js"]);
               ("Refined Task list",
                JArr [JStr "a.js"; JStr "b.js"; JStr "c.js"])])
    as [Hrun _].
  - vm_compute. reflexivity.
  - vm_compute. reflexivity.
  - right. vm_compute. reflexivity.
  - exact Hrun.
Defined.

Lemma ensure_touches_only_project_paths_witness :
  let w' := (ensure_critical_files nested_context changed_prd_world).2 in
  fs w' !! ["/"; "ws"; "src"] = fs changed_prd_world !! ["/"; "ws"; "src"]
  /\ (repo w' = repo changed_prd_world
      \/ exists deps,
           repo w' = set_srcs (repo changed_prd_world)
                       (store_put (srcs (repo changed_prd_world))
                          "/ws/myapp/package.json" default_manifest deps).2).
Proof.
  intros w'.
  destruct (ensure_touches_only_project_paths nested_context
              (code_document "myapp/backend/server.js" "old code")
              changed_prd_world w'
              (ensure_critical_files nested_context changed_prd_world).1)
    as [Hfs Hrepo].
  - reflexivity.
  - apply surjective_pairing.
  - split; [|exact Hrepo].
    destruct (Hfs ["/"; "ws"; "src"]) as [Hsame|[(_ & _ & Hmade)|(_ & Heq & _)]].
    + exact Hsame.
    + exfalso. destruct Hmade as [Hpre|Hpre]; vm_compute in Hpre;
        destruct Hpre as [rest Hrest]; discriminate Hrest.
    + discriminate Heq.
Defined.

Lemma ensure_reports_what_it_created_witness :
  exists a w',
    ensure_critical_files manifest_context changed_prd_world = (Ok a, w')
    /\ ("/ws/package.json" ∈ a
        <-> fs changed_prd_world !! ["/"; "ws"; "package.json"] = None
            /\ fs w' !! ["/"; "ws"; "package.json"]
               = Some (File default_manifest)).
Proof.
  destruct (ensure_total manifest_context changed_prd_world)
    as (a & w' & Hrun); [vm_compute; reflexivity|].
  exists a, w'. split; [exact Hrun|].
  pose proof (ensure_reports_what_it_created manifest_context
                (code_document "package.json" "{}") changed_prd_world w' a
                eq_refl eq_refl Hrun "/ws/package.json") as Hiff.
  split.
  - intros Hin. apply Hiff in Hin as (_ & Hnone & Hfile). by split.
  - intros [Hnone Hfile]. apply Hiff. split; [reflexivity|]. by split.
Defined.

Lemma manifest_saved_through_store_witness :
  exists w',
    ensure_critical_files documented_context changed_prd_world
    = (Ok {[ "/ws/package.json" ]}, w')
    /\ content <$> store_get (srcs (repo w')) "/ws/package.json"
       = Some default_manifest.
Proof.
  destruct (manifest_saved_through_store documented_context
              (code_document "package.json" "{}") design_document task_document
              changed_prd_world)
    as (w' & t & Hrun & _ & Hget & _); [vm_compute; reflexivity ..|].
  exists w'. split; [exact Hrun|]. exact (f_equal (fmap content) Hget).
Defined.

Lemma manifest_written_directly_witness :
  exists w',
    ensure_critical_files manifest_context changed_prd_world
    = (Ok {[ "/ws/package.json" ]}, w')
    /\ fs w' !! ["/"; "ws"; "package.json"] = Some (File default_manifest)
    /\ repo w' = repo changed_prd_world.
Proof.
  destruct (manifest_written_directly manifest_context
              (code_document "package.json" "{}") changed_prd_world)
    as (w' & t & Hrun & Hfile & Hrepo & _); [vm_compute; reflexivity ..| |].
  - left. split; [by left|reflexivity].
  - exists w'. split; [exact Hrun|]. split; [exact Hfile|exact Hrepo].
Defined.

Lemma manifest_write_failures_swallowed_witness :
  exists w',
    ensure_critical_files documented_context
      (faulty changed_prd_world [true; true])
    = (Ok ∅, w')
    /\ fs_exists (fs w') ["/"; "ws"; "package.json"] = false.
Proof.
  destruct (manifest_write_failures_swallowed documented_context
              (code_document "package.json" "{}")
              (faulty changed_prd_world [true; true]))
    as (w' & Hrun & Hnone & _); [vm_compute; reflexivity ..| |].
  - right. split; [by eexists|]. split; [by eexists|]. by exists [].
  - exists w'. split; [exact Hrun|exact Hnone].
Defined.

Lemma write_code_outcome_witness :
  let w := world_of project [] [] bare_workspace (fails_first 2 "code") in
  exists k,
    k < 6
    /\ (write_code "write main.js" w).2
       = Nat.iter (S k) (tick (Ask "write main.js")) w.
Proof.
  intros w.
  destruct (write_code_outcome "write main.js" w
              (write_code "write main.js" w).2 (write_code "write main.js" w).1)
    as (k & Hk & Hw & _); [apply surjective_pairing|].
  exists k. split; [exact Hk|exact Hw].
Defined.

Lemma run_rejects_bad_input_witness :
  WriteCode_run (task_of "oops") plain_world
  = (Raise AttributeError, plain_world)
  /\ WriteCode_run bare_i_context bugfix_world
     = (Raise AttributeError, bugfix_world).
Proof.
  split.
  - apply (proj1 (run_rejects_bad_input (task_of "oops") plain_world)).
    vm_compute. reflexivity.
  - apply (proj2 (proj2 (run_rejects_bad_input bare_i_context bugfix_world))
             {| cc_filename := "main.js"; design_doc := None; task_doc := None;
                code_doc := None; code_plan_and_change_doc := None |}
             {| root_path := "docs"; filename := "bugfix.txt";
                content := "it crashes" |}
             EmptyString); vm_compute; reflexivity.
Defined.

Lemma run_aborts_when_context_fails_witness :
  WriteCode_run unread_i_context plain_world
  = (Raise AttributeError, codes_read plain_world).
Proof.
  destruct (run_aborts_when_context_fails unread_i_context unread_context
              EmptyString plain_world) as [_ Hempty];
    [vm_compute; reflexivity ..|].
  apply (Hempty task_document_unread); reflexivity.
Defined.

Lemma run_generates_from_context_witness :
  exists w',
    WriteCode_run plain_i_context plain_world
    = (Ok (final_context plain_context (parse_code "new code")
             (Some ["/"; "ws"; "src"])), w')
    /\ backend_calls w' = 1.
Proof.
  set (code := match code_context_of plain_world plain_context plain_i_context with
               | Ok text => text
               | Raise _ => EmptyString
               end).
  set (prompt := match plain_prompt plain_world plain_context plain_i_context
                         code EmptyString with
                 | Ok text => text
                 | Raise _ => EmptyString
                 end).
  destruct (run_generates_from_context plain_i_context plain_context
              EmptyString code prompt "new code" plain_world)
    as (w' & t & Hrun & _ & Hcalls & _); [vm_compute; reflexivity ..|].
  exists w'. split; [exact Hrun|exact Hcalls].
Defined.

Lemma run_write_obstructed_raises_witness :
  exists w',
    run_write manifest_context "write package.json"
      (world_of project [] [] blocked_workspace (answers "code"))
    = (Raise FileExistsError, w')
    /\ fs w' = blocked_workspace.
Proof.
  destruct (run_write_obstructed_raises manifest_context
              (code_document "package.json" "{}") "write package.json"
              "not a directory"
              (world_of project [] [] blocked_workspace (answers "code")))
    as (w' & k & Hrun & _ & _ & Hfs).
  - reflexivity.
  - intros code. vm_compute. reflexivity.
  - vm_compute. reflexivity.
  - exists w'. split; [exact Hrun|exact Hfs].
Defined.

Lemma run_writes_no_code_witness :
  let w' := (WriteCode_run plain_i_context plain_world).2 in
  let k := ["/"; "ws"; "src"; "main.js"] in
  fs w' !! k = fs plain_world !! k
  \/ (fs plain_world !! k = None
      /\ (fs w' !! k = Some Dir \/ fs w' !! k = Some (File default_manifest))).
Proof.
  intros w' k.
  destruct (run_writes_no_code plain_i_context plain_world w'
              (WriteCode_run plain_i_context plain_world).1) as [Hfs _];
    [apply surjective_pairing|].
  exact (Hfs k).
Defined.

Lemma run_returns_context_with_code_witness :
  exists cc' w',
    WriteCode_run plain_i_context plain_world = (Ok cc', w')
    /\ cc_filename cc' = "main.js"
    /\ task_doc cc' = Some (task_of "{}").
Proof.
  destruct (WriteCode_run plain_i_context plain_world) as [[cc'|e] w'] eqn:Hrun.
  - exists cc', w'. split; [reflexivity|].
    destruct (run_returns_context_with_code plain_i_context plain_world w' cc'
                Hrun) as (cc & code & Hcc & _ & Hname & _ & Htask & _).
    vm_compute in Hcc. injection Hcc as <-.
    split; [exact Hname|exact Htask].
  - apply (f_equal fst) in Hrun. vm_compute in Hrun. discriminate Hrun.
Defined.

Lemma refined_design_replaces_content_witness :
  exists r w',
    _update_system_design "a.md" refine_world = (r, w')
    /\ backend_calls w' = 1
    /\ content <$> store_get (system_design (repo w')) "a.md" = Some "{}".
Proof.
  destruct (refined_design_replaces_content "a.md"
              {| root_path := "docs/prd"; filename := "a.md";
                 content := "the requirements" |}
              {| root_path := "docs/system_design"; filename := "a.md";
                 content := "the old design" |}
              "{}" refine_world)
    as (r & w' & t & Hrun & _ & _ & Hcalls & Hget & _);
    [vm_compute; reflexivity ..|].
  exists r, w'. split; [exact Hrun|]. split; [exact Hcalls|].
  exact (f_equal (fmap content) Hget).
Defined.

Lemma design_without_requirement_raises_witness :
  _update_system_design "b.md" orphan_design_world
  = (Raise AttributeError, orphan_design_world)
  /\ WriteDesign_run orphan_design_world
     = (Raise AttributeError, prds_phase orphan_design_world ["a.md"]).
Proof.
  destruct (design_without_requirement_raises "b.md" orphan_design_world)
    as [Hupdate Hrun]; [vm_compute; reflexivity|].
  split; [exact Hupdate|].
  apply (Hrun ["a.md"] []).
  - reflexivity.
  - intros k Hk. exact Hk.
  - intros Hin. apply list_elem_of_In in Hin. simpl in Hin.
    destruct Hin as [H|[]]. discriminate H.
Defined.

Lemma run_writes_changed_designs_only_witness :
  let w' := (WriteDesign_run new_design_world).2 in
  prd (repo w') = prd (repo new_design_world)
  /\ srcs (repo w') = srcs (repo new_design_world).
Proof.
  intros w'.
  destruct (run_writes_changed_designs_only new_design_world w'
              (WriteDesign_run new_design_world).1)
    as [(_ & _ & Hprd & _ & _ & _ & Hsrcs & _) _];
    [apply surjective_pairing|].
  split; [exact Hprd|exact Hsrcs].
Defined.

Lemma run_backend_calls_witness :
  backend_calls (WriteDesign_run orphan_design_world).2 <= 1.
Proof.
  destruct (run_backend_calls orphan_design_world
              (WriteDesign_run orphan_design_world).2
              (WriteDesign_run orphan_design_world).1) as [[_ Hle] _];
    [apply surjective_pairing|].
  exact Hle.
Defined.

Lemma run_returns_changed_documents_witness :
  exists m w',
    WriteDesign_run changed_prd_world = (Ok m, w')
    /\ dict_lookup "a.md" m = Some (template_entry "a.md")
    /\ dict_lookup "b.md" m = None.
Proof.
  destruct (WriteDesign_run changed_prd_world) as [[m|e] w'] eqn:Hrun.
  - exists m, w'. split; [reflexivity|].
    destruct (run_returns_changed_documents changed_prd_world w' m Hrun "a.md")
      as (Hprd & _).
    destruct (run_returns_changed_documents changed_prd_world w' m Hrun "b.md")
      as (_ & _ & Hnone).
    split.
    + apply Hprd. apply list_elem_of_In. simpl. auto.
    + apply Hnone; intros Hin; apply list_elem_of_In in Hin; simpl in Hin.
      * destruct Hin as [H|[]]. discriminate H.
      * destruct Hin.
  - apply (f_equal fst) in Hrun. vm_compute in Hrun. discriminate Hrun.
Defined.

Lemma design_diagrams_rendered_witness :
  _save_seq_flow diagram_document new_design_world = (Ok tt, new_design_world)
  /\ exists w',
       _save_data_api_design diagram_document new_design_world = (Ok tt, w')
       /\ trace w'
          = [EvMkdir ["/"; "ws"; "resources"; "data_api_design"];
             EvMermaid (JStr "classDiagram")
               ["/"; "ws"; "resources"; "data_api_design"; "a"]].
Proof.
  destruct (design_diagrams_rendered diagram_document
              [("Data structures and interfaces", JStr "classDiagram")]
              new_design_world) as (_ & Hnone & Hdata & _);
    [vm_compute; reflexivity|].
  split; [apply Hnone; exact I|].
  set (f := match mkdir_parents ["/"; "ws"; "resources"; "data_api_design"]
                    (fs new_design_world) with
            | Ok f => f
            | Raise _ => ∅
            end).
  destruct (Hdata (JStr "classDiagram") ["a"] f) as (w' & Hrun & Htrace & _).
  - split; [reflexivity|]. left. reflexivity.
  - vm_compute. reflexivity.
  - vm_compute. reflexivity.
  - exists w'. split; [exact Hrun|exact Htrace].
Defined.

Lemma non_object_design_raises_witness :
  _save_data_api_design list_document new_design_world
  = (Raise AttributeError, new_design_world).
Proof.
  destruct (non_object_design_raises list_document (JArr [JStr "classDiagram"])
              new_design_world) as [Hdata _].
  - vm_compute. reflexivity.
  - intros kvs H. discriminate H.
  - exact Hdata.
Defined.

End Examples.
